(** * CityConnect API server: a shallow embedding and its verified properties

    The development follows the main backend server file (the Express
    application with its [authenticateToken] middleware and eleven routes).
    JavaScript values, the request pipeline and the handlers are translated
    from the source; the managed authentication and table service, which the
    server only calls, is modelled by its call contract. *)

From Stdlib Require Import ZArith List String Ascii Bool Lia Arith.
From Stdlib Require Import DecimalString.
Import ListNotations.
Local Open Scope string_scope.

(** ** JavaScript values and the string methods the server uses *)

Module Js.

(** The values a parsed request carries, with [JUndefined] for what is not
    there.  Numbers are the integers among the doubles (amounts in the
    smallest unit, coordinates in fixed-point units). *)
#[warnings="-register-all"]
Inductive JsVal : Type :=
| JUndefined
| JNull
| JBool (b : bool)
| JNum (n : Z)
| JStr (s : string)
| JArr (items : list JsVal)
| JObj (fields : list (string * JsVal)).

(** [!v] is [negb (truthy v)]. *)
Definition truthy (v : JsVal) : bool :=
  match v with
  | JUndefined | JNull => false
  | JBool b => b
  | JNum n => negb (n =? 0)%Z
  | JStr s => negb (s =? "")
  | JArr _ | JObj _ => true
  end.

(** [a || b] *)
Definition or_else (a b : JsVal) : JsVal := if truthy a then a else b.

(** Property read [o.k] on an object given by its fields. *)
Fixpoint prop (o : list (string * JsVal)) (k : string) : JsVal :=
  match o with
  | [] => JUndefined
  | (k', v) :: rest => if k' =? k then v else prop rest k
  end.

(** [s.split(sep)] for a one-character separator. *)
Fixpoint split (sep : ascii) (s : string) : list string :=
  match s with
  | EmptyString => [EmptyString]
  | String c rest =>
      if Ascii.eqb c sep then EmptyString :: split sep rest
      else match split sep rest with
           | [] => [String c EmptyString]
           | piece :: pieces => String c piece :: pieces
           end
  end.

Definition lower_char (c : ascii) : ascii :=
  let n := nat_of_ascii c in
  if ((65 <=? n) && (n <=? 90))%nat then ascii_of_nat (n + 32) else c.

Definition upper_char (c : ascii) : ascii :=
  let n := nat_of_ascii c in
  if ((97 <=? n) && (n <=? 122))%nat then ascii_of_nat (n - 32) else c.

Fixpoint map_chars (f : ascii -> ascii) (s : string) : string :=
  match s with
  | EmptyString => EmptyString
  | String c rest => String (f c) (map_chars f rest)
  end.

(** [toLowerCase] and [toUpperCase] of a string of ASCII characters: the
    letters A-Z and a-z are folded, every other character is left alone.
    Statements that turn on the case of text assume it ASCII ([is_ascii]). *)
Definition toLowerCase : string -> string := map_chars lower_char.
Definition toUpperCase : string -> string := map_chars upper_char.

(** [s.includes(sub)] *)
Fixpoint includes (s sub : string) : bool :=
  String.prefix sub s ||
  match s with
  | EmptyString => false
  | String _ rest => includes rest sub
  end.

(** [s.substr(start, len)] for non-negative arguments. *)
Definition substr (start len : nat) (s : string) : string :=
  String.substring start len s.

(** Decimal rendering of an integer, as a template literal does it. *)
Definition decimal (n : Z) : string := NilZero.string_of_int (Z.to_int n).

Fixpoint join (sep : string) (l : list string) : string :=
  match l with
  | [] => EmptyString
  | [x] => x
  | x :: rest => x ++ sep ++ join sep rest
  end.

(** [String(v)], which is also how a filter value reaches the table service.
    A number is printed digit by digit, as [String] does for the integers of
    the safe range; statements that turn on the text of a number assume it
    in that range ([plain_id]). *)
Fixpoint to_text (v : JsVal) : string :=
  match v with
  | JUndefined => "undefined"
  | JNull => "null"
  | JBool true => "true"
  | JBool false => "false"
  | JNum n => decimal n
  | JStr s => s
  | JArr items =>
      join "," (map (fun x => match x with
                              | JUndefined | JNull => EmptyString
                              | _ => to_text x
                              end) items)
  | JObj _ => "[object Object]"
  end.

(** The digits [Math.random().toString(36)] prints after "0.": a double in
    [0, 1) is given by that expansion, each digit taken modulo 36.  The
    value 0 has no digit and prints as "0"; one half prints as "0.i". *)
Definition Random := list nat.

Definition alphabet36 : list ascii :=
  list_ascii_of_string "0123456789abcdefghijklmnopqrstuvwxyz".

Definition digit36 (d : nat) : ascii := nth (d mod 36) alphabet36 "0"%char.

Definition toString36 (r : Random) : string :=
  match r with
  | [] => "0"
  | _ => "0." ++ string_of_list_ascii (map digit36 r)
  end.

End Js.
Import Js.

(** ** Ticket identifiers *)

(** The template literal of the booking handler:
    TKT-, [Date.now()], a dash, and
    [Math.random().toString(36).substr(2, 6).toUpperCase()]. *)
Definition ticketId (now : Z) (random : Random) : string :=
  "TKT-" ++ decimal now ++ "-" ++ toUpperCase (substr 2 6 (toString36 random)).

Definition is_digit (c : ascii) : bool :=
  let n := nat_of_ascii c in ((48 <=? n) && (n <=? 57))%nat.

Definition is_upper_alnum (c : ascii) : bool :=
  let n := nat_of_ascii c in
  is_digit c || ((65 <=? n) && (n <=? 90))%nat.

Fixpoint all_chars (p : ascii -> bool) (s : string) : bool :=
  match s with
  | EmptyString => true
  | String c rest => p c && all_chars p rest
  end.

(** Drops the leading run of decimal digits. *)
Fixpoint skip_digits (s : string) : string :=
  match s with
  | String c rest => if is_digit c then skip_digits rest else s
  | EmptyString => s
  end.

(** The pattern TKT-<digits>-<six uppercase alphanumerics>, anchored at both
    ends, with at least one digit. *)
Definition ticket_pattern (s : string) : bool :=
  String.prefix "TKT-" s &&
  let after := String.substring 4 (String.length s - 4) s in
  let tail := skip_digits after in
  (String.length tail <? String.length after)%nat &&
  match tail with
  | String "-" suffix => (String.length suffix =? 6)%nat && all_chars is_upper_alnum suffix
  | _ => false
  end.

(** ** Rows of the managed tables *)

(** The schemas of the managed tables are not part of the source.  The
    column names are the ones the handlers read and write; a column the
    server only passes through holds the JSON value stored, instants are
    milliseconds since the epoch, dates are days since the epoch. *)

Module User.
(** Modelled from the spec: the identity the auth service owns (section 3,
    Identity), of which the server reads [id] and [email]. *)
Record t := { id : string; email : string }.
End User.

Module Profile.
(** Modelled from the spec: a row of user_profiles, the profile half of an
    identity (section 3, Identity), keyed by the identity's id. *)
Record t := {
  id : string; email : JsVal; name : JsVal; phone : JsVal; role : string;
  created_at : Z; updated_at : Z }.
End Profile.

Module Vehicle.
(** Modelled from the spec: a row of vehicles (section 3, Vehicle). *)
Record t := {
  id : string; vehicle_number : JsVal; route_name : string; status : string;
  capacity : JsVal; vehicle_type : JsVal; next_stop : JsVal; eta : JsVal;
  base_fare : JsVal; created_at : Z; updated_at : Z }.
End Vehicle.

Module Location.
(** Modelled from the spec: a row of vehicle_locations, one timestamped
    position sample of a vehicle (section 3, Location). *)
Record t := {
  vehicle_id : string; latitude : JsVal; longitude : JsVal;
  speed : JsVal; heading : JsVal; updated_by : string;
  created_at : Z; updated_at : Z }.
End Location.

Module Ticket.
(** Modelled from the spec: a row of tickets (section 3, Ticket); the
    numeric column [fare_amount] holds a number. *)
Record t := {
  ticket_id : string; user_id : string; vehicle_id : string;
  from_location : JsVal; to_location : JsVal; fare_amount : Z;
  booking_status : string; travel_date : Z;
  created_at : Z; updated_at : Z }.
End Ticket.

(** ** The world outside the server process *)

Record Account := { login_email : string; login_password : string; account : User.t }.

Record AuthService := {
  accounts : list Account;
  sessions : list (string * User.t) }.

(** Tables are kept in storage order: an insert appends, and a query without
    an [order] clause returns rows in that order. *)
Record Database := {
  user_profiles : list Profile.t;
  vehicles : list Vehicle.t;
  vehicle_locations : list Location.t;
  tickets : list Ticket.t }.

Inductive Table := UserProfiles | Vehicles | VehicleLocations | Tickets.

(** One entry per call to the service, in the order the calls are made. *)
Inductive Call :=
| AuthGetUser (token : string)
| AuthSignUp
| AuthSignIn
| AuthSignOut
| Select (table : Table)
| Insert (table : Table)
| Update (table : Table).

(** What the service does with the next call: answer it, answer with an
    [error] object, or make the client throw. *)
Inductive Fault := Healthy | Refuses | Crashes.

Record World := {
  auth : AuthService;
  db : Database;
  now : Z;              (* the clock, read by Date.now() and new Date() *)
  random : Random;      (* what Math.random() returns *)
  faults : list Fault;  (* the service's disposition, call by call *)
  calls : list Call }.  (* the calls made so far *)

Definition with_auth (a : AuthService) (w : World) : World :=
  {| auth := a; db := db w; now := now w; random := random w;
     faults := faults w; calls := calls w |}.

Definition with_db (d : Database) (w : World) : World :=
  {| auth := auth w; db := d; now := now w; random := random w;
     faults := faults w; calls := calls w |}.

(** ** Asynchronous computations that may throw *)

Inductive Outcome (A : Type) : Type :=
| Returned (a : A)
| Thrown (e : string).
Arguments Returned {A} a.
Arguments Thrown {A} e.

Definition Async (A : Type) : Type := World -> Outcome A * World.

Definition ret {A} (a : A) : Async A := fun w => (Returned a, w).

Definition throw {A} (e : string) : Async A := fun w => (Thrown e, w).

Definition bind {A B} (m : Async A) (k : A -> Async B) : Async B :=
  fun w => match m w with
           | (Returned a, w') => k a w'
           | (Thrown e, w') => (Thrown e, w')
           end.

(** [try { m } catch (e) { h e }] *)
Definition try_catch {A} (m : Async A) (h : string -> Async A) : Async A :=
  fun w => match m w with
           | (Returned a, w') => (Returned a, w')
           | (Thrown e, w') => h e w'
           end.

Definition gets {A} (f : World -> A) : Async A := fun w => (Returned (f w), w).

Definition modify (f : World -> World) : Async unit := fun w => (Returned tt, f w).

Declare Scope async_scope.
Delimit Scope async_scope with async.
Notation "'let*' x := m 'in' k" := (bind m (fun x => k))
  (at level 10, x pattern, m at level 100, k at level 200) : async_scope.
Local Open Scope async_scope.

(** Synchronous code that may throw, such as a callback. *)
Fixpoint filter_throwing {A} (p : A -> Outcome bool) (l : list A) : Outcome (list A) :=
  match l with
  | [] => Returned []
  | x :: rest =>
      match p x with
      | Thrown e => Thrown e
      | Returned keep =>
          match filter_throwing p rest with
          | Thrown e => Thrown e
          | Returned kept => Returned (if keep then x :: kept else kept)
          end
      end
  end.

Fixpoint map_throwing {A B} (f : A -> Outcome B) (l : list A) : Outcome (list B) :=
  match l with
  | [] => Returned []
  | x :: rest =>
      match f x with
      | Thrown e => Thrown e
      | Returned y =>
          match map_throwing f rest with
          | Thrown e => Thrown e
          | Returned ys => Returned (y :: ys)
          end
      end
  end.

Definition lift {A} (o : Outcome A) : Async A := fun w => (o, w).

(** ** The managed service's call contract *)

(** Modelled from the spec: the client library of the external
    authentication and table service (an opaque datastore with a known call
    contract), which is not part of the source.  Every call is logged and
    consumes one entry of the fault schedule; a call resolves to a pair of
    [data] and [error], exactly one of which is set. *)

Record Reply (A : Type) : Type := { data : option A; error : option string }.
Arguments data {A} r.
Arguments error {A} r.

Definition fulfilled {A} (a : A) : Reply A := {| data := Some a; error := None |}.
Definition refused {A} (e : string) : Reply A := {| data := None; error := Some e |}.

Definition record_call (c : Call) (w : World) : World :=
  {| auth := auth w; db := db w; now := now w; random := random w;
     faults := tl (faults w); calls := calls w ++ [c] |}.

(** Whether the service answers the call. *)
Definition call (c : Call) : Async bool :=
  fun w => match faults w with
           | Crashes :: _ => (Thrown "fetch failed", record_call c w)
           | Refuses :: _ => (Returned false, record_call c w)
           | _ => (Returned true, record_call c w)
           end.

Definition answering {A} (c : Call) (k : Async (Reply A)) : Async (Reply A) :=
  let* up := call c in
  if up then k else ret (refused "service unavailable").

(** Rows in descending order of a key, rows with equal keys in storage order. *)
Fixpoint insert_desc {A} (key : A -> Z) (x : A) (sorted : list A) : list A :=
  match sorted with
  | [] => [x]
  | y :: rest => if (key y <=? key x)%Z then x :: sorted
                 else y :: insert_desc key x rest
  end.

Definition order_desc {A} (key : A -> Z) (rows : list A) : list A :=
  fold_right (insert_desc key) [] rows.

(** [.single()]: the one matching row, an error for none or several. *)
Definition single {A} (rows : list A) : Reply A :=
  match rows with
  | [row] => fulfilled row
  | _ => refused "JSON object requested, multiple (or no) rows returned"
  end.

Module supabase.

(** *** supabase.auth *)

Definition getUser (token : string) : Async (Reply User.t) :=
  answering (AuthGetUser token)
    (let* known := gets (fun w => sessions (auth w)) in
     match find (fun s => fst s =? token) known with
     | Some (_, user) => ret (fulfilled user)
     | None => ret (refused "invalid JWT")
     end).

Definition fresh_user_id (a : AuthService) : string :=
  "user-" ++ decimal (Z.of_nat (List.length (accounts a))).

Definition fresh_token (a : AuthService) : string :=
  "session-" ++ decimal (Z.of_nat (List.length (sessions a))).

Definition signUp (email password : JsVal) : Async (Reply (User.t * string)) :=
  answering AuthSignUp
    (let* a := gets auth in
     match email, password with
     | JStr e, JStr p =>
         if existsb (fun acc => login_email acc =? e) (accounts a)
         then ret (refused "User already registered")
         else
           let user := {| User.id := fresh_user_id a; User.email := e |} in
           let token := fresh_token a in
           let* _ := modify (with_auth
             {| accounts := accounts a ++
                  [{| login_email := e; login_password := p; account := user |}];
                sessions := sessions a ++ [(token, user)] |}) in
           ret (fulfilled (user, token))
     | _, _ => ret (refused "Signup requires a valid password")
     end).

Definition signInWithPassword (email password : JsVal)
  : Async (Reply (User.t * string)) :=
  answering AuthSignIn
    (let* a := gets auth in
     match email, password with
     | JStr e, JStr p =>
         match find (fun acc => (login_email acc =? e) && (login_password acc =? p))
                    (accounts a) with
         | Some acc =>
             let token := fresh_token a in
             let* _ := modify (with_auth
               {| accounts := accounts a;
                  sessions := sessions a ++ [(token, account acc)] |}) in
             ret (fulfilled (account acc, token))
         | None => ret (refused "Invalid login credentials")
         end
     | _, _ => ret (refused "Invalid login credentials")
     end).

Definition signOut : Async (Reply unit) :=
  answering AuthSignOut (ret (fulfilled tt)).

(** *** supabase.from('user_profiles') *)

Definition insert_profile (row : Profile.t) : Async (Reply (list Profile.t)) :=
  answering (Insert UserProfiles)
    (let* _ := modify (fun w => with_db
       {| user_profiles := user_profiles (db w) ++ [row];
          vehicles := vehicles (db w);
          vehicle_locations := vehicle_locations (db w);
          tickets := tickets (db w) |} w) in
     ret (fulfilled [row])).

(** [.select(..).eq('id', id).single()] *)
Definition profile_by_id (id : string) : Async (Reply Profile.t) :=
  answering (Select UserProfiles)
    (let* rows := gets (fun w => user_profiles (db w)) in
     ret (single (filter (fun p => Profile.id p =? id) rows))).

(** *** supabase.from('vehicles') *)

Definition locations_of (id : string) (rows : list Location.t) : list Location.t :=
  filter (fun l => Location.vehicle_id l =? id) rows.

(** All columns with the embedded resource [current_location] (the rows of
    vehicle_locations), then [.order('created_at', { ascending: false })]:
    the [order] clause sorts the vehicles; the embedded location rows carry
    no order of their own. *)
Definition vehicles_with_locations : Async (Reply (list (Vehicle.t * list Location.t))) :=
  answering (Select Vehicles)
    (let* d := gets db in
     ret (fulfilled
            (map (fun v => (v, locations_of (Vehicle.id v) (vehicle_locations d)))
                 (order_desc Vehicle.created_at (vehicles d))))).

(** [.select('vehicle_number, route_name').eq('id', id).single()] *)
Definition vehicle_by_id (id : string) : Async (Reply Vehicle.t) :=
  answering (Select Vehicles)
    (let* rows := gets (fun w => vehicles (db w)) in
     ret (single (filter (fun v => Vehicle.id v =? id) rows))).

(** All columns, [.eq('status', 'active')] *)
Definition active_vehicles : Async (Reply (list Vehicle.t)) :=
  answering (Select Vehicles)
    (let* rows := gets (fun w => vehicles (db w)) in
     ret (fulfilled (filter (fun v => Vehicle.status v =? "active") rows))).

(** The same query with [{ count: 'exact' }], its [count]. *)
Definition count_active_vehicles : Async (option nat) :=
  let* r := active_vehicles in
  ret (option_map (@List.length Vehicle.t) (data r)).

(** [.update({ status: 'active', updated_at }).eq('id', id)] *)
Definition activate_vehicle (id : string) (at_ : Z) : Async (Reply unit) :=
  answering (Update Vehicles)
    (let* _ := modify (fun w => with_db
       {| user_profiles := user_profiles (db w);
          vehicles := map (fun v =>
            if Vehicle.id v =? id then
              {| Vehicle.id := Vehicle.id v;
                 Vehicle.vehicle_number := Vehicle.vehicle_number v;
                 Vehicle.route_name := Vehicle.route_name v;
                 Vehicle.status := "active";
                 Vehicle.capacity := Vehicle.capacity v;
                 Vehicle.vehicle_type := Vehicle.vehicle_type v;
                 Vehicle.next_stop := Vehicle.next_stop v;
                 Vehicle.eta := Vehicle.eta v;
                 Vehicle.base_fare := Vehicle.base_fare v;
                 Vehicle.created_at := Vehicle.created_at v;
                 Vehicle.updated_at := at_ |}
            else v) (vehicles (db w));
          vehicle_locations := vehicle_locations (db w);
          tickets := tickets (db w) |} w) in
     ret (fulfilled tt)).

(** *** supabase.from('vehicle_locations') *)

(** All columns, [.eq('vehicle_id', id)
     .order('created_at', { ascending: false }).limit(1)] *)
Definition latest_location (id : string) : Async (Reply (list Location.t)) :=
  answering (Select VehicleLocations)
    (let* rows := gets (fun w => vehicle_locations (db w)) in
     ret (fulfilled (firstn 1 (order_desc Location.created_at (locations_of id rows))))).

Definition insert_location (row : Location.t) : Async (Reply (list Location.t)) :=
  answering (Insert VehicleLocations)
    (let* _ := modify (fun w => with_db
       {| user_profiles := user_profiles (db w);
          vehicles := vehicles (db w);
          vehicle_locations := vehicle_locations (db w) ++ [row];
          tickets := tickets (db w) |} w) in
     ret (fulfilled [row])).

(** *** supabase.from('tickets') *)

(** What a numeric column makes of a JSON value: a number, or text that
    reads as a decimal integer; anything else is rejected. *)
Definition as_numeric (v : JsVal) : option Z :=
  match v with
  | JNum n => Some n
  | JStr s => option_map Z.of_int (NilZero.int_of_string s)
  | _ => None
  end.

(** The ticket row is given up to its fare, which the numeric column
    [fare_amount] has to accept. *)
Definition insert_ticket (fare : JsVal) (row : Z -> Ticket.t)
  : Async (Reply (list Ticket.t)) :=
  answering (Insert Tickets)
    (match as_numeric fare with
     | None => ret (refused "invalid input syntax for type numeric")
     | Some amount =>
         let* _ := modify (fun w => with_db
           {| user_profiles := user_profiles (db w);
              vehicles := vehicles (db w);
              vehicle_locations := vehicle_locations (db w);
              tickets := tickets (db w) ++ [row amount] |} w) in
         ret (fulfilled [row amount])
     end).

(** All columns with the embedded [vehicle] (vehicle_number, route_name),
    [.eq('user_id', id).order('created_at', { ascending: false })]: each
    ticket with the vehicle it refers to, [None] when there is none. *)
Definition tickets_of_user (id : string)
  : Async (Reply (list (Ticket.t * option Vehicle.t))) :=
  answering (Select Tickets)
    (let* d := gets db in
     ret (fulfilled
            (map (fun t => (t, find (fun v => Vehicle.id v =? Ticket.vehicle_id t)
                                    (vehicles d)))
                 (order_desc Ticket.created_at
                    (filter (fun t => Ticket.user_id t =? id) (tickets d)))))).

(** [.select('fare_amount').gte('created_at', from).lt('created_at', to)] *)
Definition fares_between (from to : Z) : Async (Reply (list Z)) :=
  answering (Select Tickets)
    (let* rows := gets (fun w => tickets (db w)) in
     ret (fulfilled
            (map Ticket.fare_amount
                 (filter (fun t => (from <=? Ticket.created_at t)%Z &&
                                   (Ticket.created_at t <? to)%Z) rows)))).

End supabase.

(** ** Requests and responses *)

Inductive Method := GET | HEAD | POST | PUT | PATCH | DELETE.

(** A request as it reaches the router, after the global middleware (security
    headers, CORS, rate limiter, body parsers) has let it through: the body
    parsers leave an object in [body], the router fills [params], and
    [authenticateToken] fills [user]. *)
Module Req.
Record t := {
  method : Method;
  path : string;                     (* the URL path, without the query *)
  authorization : option string;     (* req.headers['authorization'] *)
  body : list (string * JsVal);
  query : list (string * JsVal);
  params : list (string * string);
  user : option User.t }.

Definition with_params (ps : list (string * string)) (req : t) : t :=
  {| method := method req; path := path req; authorization := authorization req;
     body := body req; query := query req; params := ps; user := user req |}.

Definition with_user (u : User.t) (req : t) : t :=
  {| method := method req; path := path req; authorization := authorization req;
     body := body req; query := query req; params := params req; user := Some u |}.
End Req.

Module UserSummary.
Record t := { id : string; email : string; name : JsVal; role : JsVal }.
End UserSummary.

Module VehicleView.
Record t := {
  id : string; number : JsVal; route : string; status : string;
  capacity : JsVal; type : JsVal; lat : JsVal; lng : JsVal;
  lastUpdated : option Z; nextStop : JsVal; eta : JsVal }.
End VehicleView.

Module LocationView.
Record t := {
  vehicleId : string; latitude : JsVal; longitude : JsVal; timestamp : Z;
  speed : JsVal; heading : JsVal }.
End LocationView.

Module LocationAck.
Record t := { vehicleId : string; latitude : JsVal; longitude : JsVal; timestamp : Z }.
End LocationAck.

Module BookedTicket.
Record t := {
  id : string; vehicleNumber : JsVal; route : string; from : JsVal; to : JsVal;
  fare : JsVal; bookedAt : Z; status : string }.
End BookedTicket.

Module TicketView.
Record t := {
  id : string; vehicleNumber : JsVal; route : string; from : JsVal; to : JsVal;
  fare : Z; bookedAt : Z; travelDate : Z; status : string }.
End TicketView.

Module RouteOption.
Record t := {
  id : string; vehicleNumber : JsVal; route : string; type : JsVal;
  estimatedFare : JsVal; estimatedDuration : string; nextDeparture : string }.
End RouteOption.

Module Plan.
Record t := { from : JsVal; to : JsVal; routes : list RouteOption.t; totalOptions : nat }.
End Plan.

Module TodayStats.
Record t := {
  passengers : nat; revenue : Z; trips : Z;
  hours_tenths : Z;                  (* hours: 6.2, in tenths *)
  activeVehicles : nat }.
End TodayStats.

(** The JSON documents the server sends, one constructor per shape; the
    documents with a [success] field always carry [success: true]. *)
Inductive Body :=
| ErrorBody (error : string)                             (* { error } *)
| HealthBody (status message : string)                   (* { status, message } *)
| SessionBody (user : UserSummary.t) (session : string)  (* { success, user, session } *)
| MessageBody (message : string)                         (* { success, message } *)
| VehiclesBody (vehicles : list VehicleView.t)           (* [ vehicle, ... ] *)
| LocationBody (location : LocationView.t)               (* the location itself *)
| LocationAckBody (location : LocationAck.t)             (* { success, location } *)
| BookedBody (ticket : BookedTicket.t)                   (* { success, ticket } *)
| TicketsBody (tickets : list TicketView.t)              (* [ ticket, ... ] *)
| PlanBody (plan : Plan.t)                               (* { from, to, routes, totalOptions } *)
| StatsBody (todayStats : TodayStats.t).                 (* { todayStats } *)

Module Res.
Record t := { status : nat; body : Body }.
End Res.

(** [res.status(code).json(doc)] and [res.json(doc)] *)
Definition send (code : nat) (doc : Body) : Async Res.t :=
  ret {| Res.status := code; Res.body := doc |}.

Definition json (doc : Body) : Async Res.t := send 200 doc.

(** The [catch] block every handler ends with. *)
Definition internal_error (_ : string) : Async Res.t :=
  send 500 (ErrorBody "Internal server error").

(** [req.user.id] *)
Definition user_id (req : Req.t) : Async string :=
  match Req.user req with
  | Some u => ret (User.id u)
  | None => throw "TypeError: cannot read properties of undefined"
  end.

(** [req.params.k] *)
Definition param (req : Req.t) (k : string) : string :=
  match find (fun kv => fst kv =? k) (Req.params req) with
  | Some (_, v) => v
  | None => "undefined"
  end.

(** ** Auth middleware *)

(** [authHeader && authHeader.split(' ')[1]] *)
Definition bearer_token (authHeader : option string) : option string :=
  match authHeader with
  | None => None
  | Some h => if h =? "" then Some "" else nth_error (split " " h) 1
  end.

(** The route handler is an async function with a [try] of its own, so what
    it throws never reaches the [catch] here: [next] runs outside of it. *)
Definition authenticateToken (req : Req.t) (next : Req.t -> Async Res.t)
  : Async Res.t :=
  let authHeader := Req.authorization req in
  match bearer_token authHeader with
  | None => send 401 (ErrorBody "Access token required")
  | Some token =>
      if token =? "" then send 401 (ErrorBody "Access token required")
      else
        let* verdict :=
          try_catch
            (let* r := supabase.getUser token in
             match error r, data r with
             | None, Some user => ret (inr user)
             | _, _ =>
                 ret (inl {| Res.status := 403;
                             Res.body := ErrorBody "Invalid or expired token" |})
             end)
            (fun _ =>
               ret (inl {| Res.status := 403;
                           Res.body := ErrorBody "Token verification failed" |})) in
        match verdict with
        | inl response => ret response
        | inr user => next (Req.with_user user req)
        end
  end.

(** ** Route handlers *)

(** [list.includes(v)] for a list of strings: strict equality. *)
Definition is_one_of (v : JsVal) (allowed : list string) : bool :=
  match v with
  | JStr s => existsb (String.eqb s) allowed
  | _ => false
  end.

(** GET /api/health *)
Definition get_health (req : Req.t) : Async Res.t :=
  json (HealthBody "OK" "CityConnect API is running").

(** POST /api/auth/signup *)
Definition post_auth_signup (req : Req.t) : Async Res.t :=
  try_catch
    (let email := prop (Req.body req) "email" in
     let password := prop (Req.body req) "password" in
     let name := prop (Req.body req) "name" in
     let phone := prop (Req.body req) "phone" in
     let role := prop (Req.body req) "role" in
     if negb (truthy email) || negb (truthy password) || negb (truthy name)
        || negb (truthy phone) || negb (truthy role)
     then send 400 (ErrorBody "All fields are required")
     else if negb (is_one_of role ["traveller"; "staff"])
     then send 400 (ErrorBody "Invalid role")
     else
       let* signed := supabase.signUp email password in
       match error signed with
       | Some message => send 400 (ErrorBody message)
       | None =>
           match data signed with
           | None => throw "TypeError: cannot read properties of null"
           | Some (authUser, session) =>
               let* at_ := gets now in
               let* inserted := supabase.insert_profile
                 {| Profile.id := User.id authUser;
                    Profile.email := email;
                    Profile.name := name;
                    Profile.phone := phone;
                    Profile.role := to_text role;
                    Profile.created_at := at_;
                    Profile.updated_at := at_ |} in
               match error inserted with
               | Some _ => send 500 (ErrorBody "Failed to create user profile")
               | None =>
                   send 201 (SessionBody
                     {| UserSummary.id := User.id authUser;
                        UserSummary.email := User.email authUser;
                        UserSummary.name := name;
                        UserSummary.role := role |} session)
               end
           end
       end)
    internal_error.

(** POST /api/auth/login *)
Definition post_auth_login (req : Req.t) : Async Res.t :=
  try_catch
    (let email := prop (Req.body req) "email" in
     let password := prop (Req.body req) "password" in
     if negb (truthy email) || negb (truthy password)
     then send 400 (ErrorBody "Email and password are required")
     else
       let* signed := supabase.signInWithPassword email password in
       match error signed with
       | Some _ => send 401 (ErrorBody "Invalid credentials")
       | None =>
           match data signed with
           | None => throw "TypeError: cannot read properties of null"
           | Some (authUser, session) =>
               let* found := supabase.profile_by_id (User.id authUser) in
               match error found with
               | Some _ => send 500 (ErrorBody "Failed to fetch user profile")
               | None =>
                   match data found with
                   | None => throw "TypeError: cannot read properties of null"
                   | Some profileData =>
                       json (SessionBody
                         {| UserSummary.id := User.id authUser;
                            UserSummary.email := User.email authUser;
                            UserSummary.name := Profile.name profileData;
                            UserSummary.role := JStr (Profile.role profileData) |}
                         session)
                   end
               end
           end
       end)
    internal_error.

(** POST /api/auth/logout *)
Definition post_auth_logout (req : Req.t) : Async Res.t :=
  try_catch
    (let* out := supabase.signOut in
     match error out with
     | Some _ => send 500 (ErrorBody "Logout failed")
     | None => json (MessageBody "Logged out successfully")
     end)
    internal_error.

(** [vehicle.current_location[0]?.column || null] *)
Definition current (column : Location.t -> JsVal) (current_location : list Location.t)
  : JsVal :=
  or_else (match current_location with
           | [] => JUndefined
           | first :: _ => column first
           end) JNull.

Definition vehicle_view (joined : Vehicle.t * list Location.t) : VehicleView.t :=
  let (vehicle, current_location) := joined in
  {| VehicleView.id := Vehicle.id vehicle;
     VehicleView.number := Vehicle.vehicle_number vehicle;
     VehicleView.route := Vehicle.route_name vehicle;
     VehicleView.status := Vehicle.status vehicle;
     VehicleView.capacity := Vehicle.capacity vehicle;
     VehicleView.type := Vehicle.vehicle_type vehicle;
     VehicleView.lat := current Location.latitude current_location;
     VehicleView.lng := current Location.longitude current_location;
     VehicleView.lastUpdated := option_map Location.updated_at (hd_error current_location);
     VehicleView.nextStop := Vehicle.next_stop vehicle;
     VehicleView.eta := Vehicle.eta vehicle |}.

(** GET /api/vehicles *)
Definition get_vehicles (req : Req.t) : Async Res.t :=
  try_catch
    (let* fetched := supabase.vehicles_with_locations in
     match error fetched with
     | Some _ => send 500 (ErrorBody "Failed to fetch vehicles")
     | None =>
         match data fetched with
         | None => throw "TypeError: cannot read properties of null"
         | Some rows => json (VehiclesBody (map vehicle_view rows))
         end
     end)
    internal_error.

(** GET /api/vehicles/:id/location *)
Definition get_vehicle_location (req : Req.t) : Async Res.t :=
  try_catch
    (let id := param req "id" in
     let* fetched := supabase.latest_location id in
     match error fetched with
     | Some _ => send 500 (ErrorBody "Failed to fetch vehicle location")
     | None =>
         match data fetched with
         | None => throw "TypeError: cannot read properties of null"
         | Some [] => send 404 (ErrorBody "Vehicle location not found")
         | Some (first :: _) =>
             json (LocationBody
               {| LocationView.vehicleId := id;
                  LocationView.latitude := Location.latitude first;
                  LocationView.longitude := Location.longitude first;
                  LocationView.timestamp := Location.created_at first;
                  LocationView.speed := Location.speed first;
                  LocationView.heading := Location.heading first |})
         end
     end)
    internal_error.

(** A destructuring default, [{ k = d }]: used when the property is undefined. *)
Definition defaulting (v d : JsVal) : JsVal :=
  match v with JUndefined => d | _ => v end.

(** POST /api/vehicles/:id/location (staff only).  The clock of the model
    stands still while a request is handled: the handler's readings of it
    are one value, and statements do not rely on a reading made after an
    awaited call being equal to an earlier one. *)
Definition post_vehicle_location (req : Req.t) : Async Res.t :=
  try_catch
    (let id := param req "id" in
     let latitude := prop (Req.body req) "latitude" in
     let longitude := prop (Req.body req) "longitude" in
     let speed := defaulting (prop (Req.body req) "speed") (JNum 0) in
     let heading := defaulting (prop (Req.body req) "heading") (JNum 0) in
     let* caller := user_id req in
     let* found := supabase.profile_by_id caller in
     match data found with
     | None => throw "TypeError: cannot read properties of null"
     | Some profileData =>
         if negb (Profile.role profileData =? "staff")
         then send 403 (ErrorBody "Only staff can update vehicle locations")
         else if negb (truthy latitude) || negb (truthy longitude)
         then send 400 (ErrorBody "Latitude and longitude are required")
         else
           let* at_ := gets now in
           let* inserted := supabase.insert_location
             {| Location.vehicle_id := id;
                Location.latitude := latitude;
                Location.longitude := longitude;
                Location.speed := speed;
                Location.heading := heading;
                Location.updated_by := caller;
                Location.created_at := at_;
                Location.updated_at := at_ |} in
           match error inserted with
           | Some _ => send 500 (ErrorBody "Failed to update vehicle location")
           | None =>
               let* _ := supabase.activate_vehicle id at_ in
               match data inserted with
               | Some (first :: _) =>
                   json (LocationAckBody
                     {| LocationAck.vehicleId := id;
                        LocationAck.latitude := latitude;
                        LocationAck.longitude := longitude;
                        LocationAck.timestamp := Location.created_at first |})
               | _ => throw "TypeError: cannot read properties of undefined"
               end
           end
     end)
    internal_error.

(** Calendar days: [new Date().toISOString().split('T')[0]] names the UTC day
    of the clock; the day with 'T00:00:00' or 'T23:59:59' appended names an
    instant of that day. *)
Definition ms_per_day : Z := 86400000.
Definition today (clock : Z) : Z := clock / ms_per_day.
Definition at_T00_00_00 (day : Z) : Z := day * ms_per_day.
Definition at_T23_59_59 (day : Z) : Z := day * ms_per_day + 86399000.

(** POST /api/tickets/book (travellers only) *)
Definition post_tickets_book (req : Req.t) : Async Res.t :=
  try_catch
    (let vehicleId := prop (Req.body req) "vehicleId" in
     let fromLocation := prop (Req.body req) "fromLocation" in
     let toLocation := prop (Req.body req) "toLocation" in
     let fare := prop (Req.body req) "fare" in
     if negb (truthy vehicleId) || negb (truthy fromLocation)
        || negb (truthy toLocation) || negb (truthy fare)
     then send 400 (ErrorBody "All booking details are required")
     else
       let* caller := user_id req in
       let* found := supabase.profile_by_id caller in
       match data found with
       | None => throw "TypeError: cannot read properties of null"
       | Some profileData =>
           if negb (Profile.role profileData =? "traveller")
           then send 403 (ErrorBody "Only travellers can book tickets")
           else
             let* looked_up := supabase.vehicle_by_id (to_text vehicleId) in
             let vehicleData := data looked_up in
             let* at_ := gets now in
             let* rnd := gets random in
             let ticket_id := ticketId at_ rnd in
             let* inserted := supabase.insert_ticket fare (fun amount =>
               {| Ticket.ticket_id := ticket_id;
                  Ticket.user_id := caller;
                  Ticket.vehicle_id := to_text vehicleId;
                  Ticket.from_location := fromLocation;
                  Ticket.to_location := toLocation;
                  Ticket.fare_amount := amount;
                  Ticket.booking_status := "confirmed";
                  Ticket.travel_date := today at_;
                  Ticket.created_at := at_;
                  Ticket.updated_at := at_ |}) in
             match error inserted with
             | Some _ => send 500 (ErrorBody "Failed to book ticket")
             | None =>
                 match vehicleData, data inserted with
                 | Some vehicle, Some (first :: _) =>
                     send 201 (BookedBody
                       {| BookedTicket.id := ticket_id;
                          BookedTicket.vehicleNumber := Vehicle.vehicle_number vehicle;
                          BookedTicket.route := Vehicle.route_name vehicle;
                          BookedTicket.from := fromLocation;
                          BookedTicket.to := toLocation;
                          BookedTicket.fare := fare;
                          BookedTicket.bookedAt := Ticket.created_at first;
                          BookedTicket.status := "confirmed" |})
                 | _, _ => throw "TypeError: cannot read properties of null"
                 end
             end
       end)
    internal_error.

(** The callback of [data.map] in the ticket listing; [ticket.vehicle] may
    be null. *)
Definition ticket_view (joined : Ticket.t * option Vehicle.t) : Outcome TicketView.t :=
  let (ticket, embedded) := joined in
  match embedded with
  | None => Thrown "TypeError: cannot read properties of null"
  | Some vehicle =>
      Returned
        {| TicketView.id := Ticket.ticket_id ticket;
           TicketView.vehicleNumber := Vehicle.vehicle_number vehicle;
           TicketView.route := Vehicle.route_name vehicle;
           TicketView.from := Ticket.from_location ticket;
           TicketView.to := Ticket.to_location ticket;
           TicketView.fare := Ticket.fare_amount ticket;
           TicketView.bookedAt := Ticket.created_at ticket;
           TicketView.travelDate := Ticket.travel_date ticket;
           TicketView.status := Ticket.booking_status ticket |}
  end.

(** GET /api/tickets *)
Definition get_tickets (req : Req.t) : Async Res.t :=
  try_catch
    (let* caller := user_id req in
     let* fetched := supabase.tickets_of_user caller in
     match error fetched with
     | Some _ => send 500 (ErrorBody "Failed to fetch tickets")
     | None =>
         match data fetched with
         | None => throw "TypeError: cannot read properties of null"
         | Some rows =>
             let* listed := lift (map_throwing ticket_view rows) in
             json (TicketsBody listed)
         end
     end)
    internal_error.

(** [v.toLowerCase()], a TypeError unless [v] is a string. *)
Definition lowered (v : JsVal) : Outcome string :=
  match v with
  | JStr s => Returned (toLowerCase s)
  | _ => Thrown "TypeError: toLowerCase is not a function"
  end.

(** The callback of [data.filter] in the route planner; the second operand
    of its disjunction is evaluated only when the first is false. *)
Definition serves (from to : JsVal) (vehicle : Vehicle.t) : Outcome bool :=
  let route := toLowerCase (Vehicle.route_name vehicle) in
  match lowered from with
  | Thrown e => Thrown e
  | Returned wanted_from =>
      if includes route wanted_from then Returned true
      else match lowered to with
           | Thrown e => Thrown e
           | Returned wanted_to => Returned (includes route wanted_to)
           end
  end.

Definition route_option (vehicle : Vehicle.t) : RouteOption.t :=
  {| RouteOption.id := Vehicle.id vehicle;
     RouteOption.vehicleNumber := Vehicle.vehicle_number vehicle;
     RouteOption.route := Vehicle.route_name vehicle;
     RouteOption.type := Vehicle.vehicle_type vehicle;
     RouteOption.estimatedFare := or_else (Vehicle.base_fare vehicle) (JNum 20);
     RouteOption.estimatedDuration := "25-30 mins";
     RouteOption.nextDeparture := "5 mins" |}.

(** GET /api/routes/plan *)
Definition get_routes_plan (req : Req.t) : Async Res.t :=
  try_catch
    (let from := prop (Req.query req) "from" in
     let to := prop (Req.query req) "to" in
     if negb (truthy from) || negb (truthy to)
     then send 400 (ErrorBody "From and to locations are required")
     else
       let* fetched := supabase.active_vehicles in
       match error fetched with
       | Some _ => send 500 (ErrorBody "Failed to fetch routes")
       | None =>
           match data fetched with
           | None => throw "TypeError: cannot read properties of null"
           | Some rows =>
               let* relevantRoutes := lift (filter_throwing (serves from to) rows) in
               let routes := map route_option relevantRoutes in
               json (PlanBody
                 {| Plan.from := from; Plan.to := to; Plan.routes := routes;
                    Plan.totalOptions := List.length routes |})
           end
       end)
    internal_error.

(** [n || 0] on a number *)
Definition or_zero (n : Z) : Z := if (n =? 0)%Z then 0%Z else n.

(** The numbers of the server are doubles.  An integer of magnitude up to
    2^53 is a double; a larger one is read as the nearest integer with 53
    significant bits, a tie going to the even neighbour.  Magnitudes from
    2^1024 on, which overflow a double, are outside the model. *)
Definition two53 : Z := 9007199254740992.

Definition nearest_double (z : Z) : Z :=
  let m := Z.abs z in
  if (m <=? two53)%Z then z
  else
    let ulp := (2 ^ (Z.log2 m - 52))%Z in
    let q := (m / ulp)%Z in
    let r := (m mod ulp)%Z in
    let rounded :=
      if (2 * r <? ulp)%Z then q
      else if (ulp <? 2 * r)%Z then (q + 1)%Z
      else if Z.even q then q else (q + 1)%Z in
    (Z.sgn z * (rounded * ulp))%Z.

(** [a + b] on two numbers *)
Definition plus (a b : Z) : Z := nearest_double (a + b).

(** The callback of [ticketStats.reduce]; the fare arrives as a JSON number. *)
Definition add_fare (sum fare_amount : Z) : Z := plus sum (nearest_double fare_amount).

(** GET /api/staff/stats (staff only) *)
Definition get_staff_stats (req : Req.t) : Async Res.t :=
  try_catch
    (let* caller := user_id req in
     let* found := supabase.profile_by_id caller in
     match data found with
     | None => throw "TypeError: cannot read properties of null"
     | Some profileData =>
         if negb (Profile.role profileData =? "staff")
         then send 403 (ErrorBody "Only staff can access these stats")
         else
           let* clock := gets now in
           let day := today clock in
           (* a ticketError is logged and nothing else *)
           let* fetched := supabase.fares_between (at_T00_00_00 day) (at_T23_59_59 day) in
           let ticketStats := data fetched in
           let totalPassengers :=
             match ticketStats with
             | Some rows => List.length rows
             | None => 0%nat
             end in
           let totalRevenue :=
             match ticketStats with
             | Some rows => or_zero (fold_left add_fare rows 0%Z)
             | None => 0%Z
             end in
           let* activeVehicles := supabase.count_active_vehicles in
           json (StatsBody
             {| TodayStats.passengers := totalPassengers;
                TodayStats.revenue := totalRevenue;
                TodayStats.trips := (Z.of_nat totalPassengers / 18)%Z;
                TodayStats.hours_tenths := 62;
                TodayStats.activeVehicles :=
                  match activeVehicles with Some n => n | None => 0%nat end |})
     end)
    internal_error.

(** ** The router *)

Inductive Segment := Lit (s : string) | Param (name : string).

(** A pattern against the pieces of a path after its leading slash.  Literal
    segments compare without regard to case, a parameter takes one non-empty
    piece, and one trailing slash is tolerated.  The piece is bound as it
    stands: this is what Express binds when the piece holds no percent
    escape, and statements about a path assume so ([percent_free]). *)
Fixpoint match_path (pattern : list Segment) (pieces : list string)
  : option (list (string * string)) :=
  match pattern, pieces with
  | [], [] => Some []
  | [], [last] => if last =? "" then Some [] else None
  | Lit s :: pattern', piece :: pieces' =>
      if toLowerCase piece =? s then match_path pattern' pieces' else None
  | Param name :: pattern', piece :: pieces' =>
      if piece =? "" then None
      else option_map (cons (name, piece)) (match_path pattern' pieces')
  | _, _ => None
  end.

Definition accepts (registered requested : Method) : bool :=
  match registered, requested with
  | GET, GET | GET, HEAD | HEAD, HEAD | POST, POST
  | PUT, PUT | PATCH, PATCH | DELETE, DELETE => true
  | _, _ => false
  end.

(** One [app.get] or [app.post] registration; [guarded] tells whether
    [authenticateToken] stands before the handler. *)
Record Route := {
  verb : Method;
  pattern : list Segment;
  guarded : bool;
  handler : Req.t -> Async Res.t }.

Definition routes : list Route :=
  [ {| verb := GET; pattern := [Lit "api"; Lit "health"];
       guarded := false; handler := get_health |};
    {| verb := POST; pattern := [Lit "api"; Lit "auth"; Lit "signup"];
       guarded := false; handler := post_auth_signup |};
    {| verb := POST; pattern := [Lit "api"; Lit "auth"; Lit "login"];
       guarded := false; handler := post_auth_login |};
    {| verb := POST; pattern := [Lit "api"; Lit "auth"; Lit "logout"];
       guarded := true; handler := post_auth_logout |};
    {| verb := GET; pattern := [Lit "api"; Lit "vehicles"];
       guarded := true; handler := get_vehicles |};
    {| verb := GET; pattern := [Lit "api"; Lit "vehicles"; Param "id"; Lit "location"];
       guarded := true; handler := get_vehicle_location |};
    {| verb := POST; pattern := [Lit "api"; Lit "vehicles"; Param "id"; Lit "location"];
       guarded := true; handler := post_vehicle_location |};
    {| verb := POST; pattern := [Lit "api"; Lit "tickets"; Lit "book"];
       guarded := true; handler := post_tickets_book |};
    {| verb := GET; pattern := [Lit "api"; Lit "tickets"];
       guarded := true; handler := get_tickets |};
    {| verb := GET; pattern := [Lit "api"; Lit "routes"; Lit "plan"];
       guarded := true; handler := get_routes_plan |};
    {| verb := GET; pattern := [Lit "api"; Lit "staff"; Lit "stats"];
       guarded := true; handler := get_staff_stats |} ].

Definition route_params (r : Route) (req : Req.t) : option (list (string * string)) :=
  if accepts (verb r) (Req.method req) then
    match split "/" (Req.path req) with
    | first :: pieces => if first =? "" then match_path (pattern r) pieces else None
    | [] => None
    end
  else None.

(** The first registration that matches, with the parameters it binds. *)
Fixpoint find_route (table : list Route) (req : Req.t)
  : option (Route * list (string * string)) :=
  match table with
  | [] => None
  | r :: rest =>
      match route_params r req with
      | Some ps => Some (r, ps)
      | None => find_route rest req
      end
  end.

Definition run_route (r : Route) (req : Req.t) : Async Res.t :=
  if guarded r then authenticateToken req (handler r) else handler r req.

(** The application: the matching route, or the 404 handler. *)
Definition app (req : Req.t) : Async Res.t :=
  match find_route routes req with
  | Some (r, ps) => run_route r (Req.with_params ps req)
  | None => send 404 (ErrorBody "Route not found")
  end.

(** ** Vocabulary of the statements *)

(** The middleware verified the request's token: the token is there and the
    auth service resolved it to the identity [u], leaving the world [w1]. *)
Definition authenticated (req : Req.t) (w : World) (u : User.t) (w1 : World) : Prop :=
  exists token,
    bearer_token (Req.authorization req) = Some token /\
    token <> "" /\
    supabase.getUser token w = (Returned (fulfilled u), w1).

(** No usable token in the Authorization header. *)
Definition token_missing (req : Req.t) : Prop :=
  bearer_token (Req.authorization req) = None \/
  bearer_token (Req.authorization req) = Some "".

(** What verifying [token] comes to in the world [w]: the identity, or
    [None] when the service reports an error, knows no such token or makes
    the client throw. *)
Definition verification (token : string) (w : World) : option User.t :=
  match supabase.getUser token w with
  | (Returned r, _) =>
      match error r, data r with
      | None, Some u => Some u
      | _, _ => None
      end
  | (Thrown _, _) => None
  end.

(** A non-empty piece of a path, free of slashes. *)
Definition is_segment (s : string) : bool :=
  negb (s =? "") && all_chars (fun c => negb (Ascii.eqb c "/")) s.

(** A piece or a path without a percent sign, which Express decodes to
    itself. *)
Definition percent_free (s : string) : bool :=
  all_chars (fun c => negb (Ascii.eqb c "%")) s.


(** A vehicle id as a client sends it: a string, or an integer of the safe
    range, which [String] prints digit by digit. *)
Definition plain_id (v : JsVal) : bool :=
  match v with
  | JStr _ => true
  | JNum n => (Z.abs n <? two53)%Z
  | _ => false
  end.

(** A value that [String] prints as [to_text] does: every number in it is
    an integer of the safe range. *)
Fixpoint prints_plainly (v : JsVal) : bool :=
  match v with
  | JNum n => (Z.abs n <? two53)%Z
  | JArr items => forallb prints_plainly items
  | _ => true
  end.

Definition is_number (v : JsVal) : bool :=
  match v with JNum _ => true | _ => false end.

(** Fares whose sum the doubles hold exactly, in whatever order they are
    added. *)
Definition safely_summed (fares : list Z) : Prop :=
  (fold_right Z.add 0 (map Z.abs fares) <= two53)%Z.

(** The service's disposition towards the [n]-th call from now. *)
Definition disposition (n : nat) (w : World) : Fault := nth n (faults w) Healthy.

(** The three routes registered without [authenticateToken]. *)
Definition public_patterns : list (list Segment) :=
  [ [Lit "api"; Lit "health"];
    [Lit "api"; Lit "auth"; Lit "signup"];
    [Lit "api"; Lit "auth"; Lit "login"] ].

(** A ticket row created on the UTC day of the clock, and one created in
    that day's last second. *)
Definition created_today (clock : Z) (t : Ticket.t) : bool :=
  (today (Ticket.created_at t) =? today clock)%Z.

Definition in_last_second (clock : Z) (t : Ticket.t) : bool :=
  created_today clock t && (at_T23_59_59 (today clock) <=? Ticket.created_at t)%Z.

(** The most recent of some location rows. *)
Definition most_recent (rows : list Location.t) : option Location.t :=
  hd_error (order_desc Location.created_at rows).

(** What the vehicle listing shows for the tables of a world. *)
Definition listing (w : World) : list VehicleView.t :=
  map vehicle_view
      (map (fun v => (v, supabase.locations_of (Vehicle.id v) (vehicle_locations (db w))))
           (order_desc Vehicle.created_at (vehicles (db w)))).

(** The row a position report adds, and what the report does to a vehicle. *)
Definition reported (req : Req.t) (id caller : string) (at_ : Z) : Location.t :=
  {| Location.vehicle_id := id;
     Location.latitude := prop (Req.body req) "latitude";
     Location.longitude := prop (Req.body req) "longitude";
     Location.speed := defaulting (prop (Req.body req) "speed") (JNum 0);
     Location.heading := defaulting (prop (Req.body req) "heading") (JNum 0);
     Location.updated_by := caller;
     Location.created_at := at_;
     Location.updated_at := at_ |}.

Definition activated (id : string) (at_ : Z) (v : Vehicle.t) : Vehicle.t :=
  if Vehicle.id v =? id then
    {| Vehicle.id := Vehicle.id v;
       Vehicle.vehicle_number := Vehicle.vehicle_number v;
       Vehicle.route_name := Vehicle.route_name v;
       Vehicle.status := "active";
       Vehicle.capacity := Vehicle.capacity v;
       Vehicle.vehicle_type := Vehicle.vehicle_type v;
       Vehicle.next_stop := Vehicle.next_stop v;
       Vehicle.eta := Vehicle.eta v;
       Vehicle.base_fare := Vehicle.base_fare v;
       Vehicle.created_at := Vehicle.created_at v;
       Vehicle.updated_at := at_ |}
  else v.

(** The row a booking adds. *)
Definition booked (req : Req.t) (caller : string) (w : World) (amount : Z) : Ticket.t :=
  {| Ticket.ticket_id := ticketId (now w) (random w);
     Ticket.user_id := caller;
     Ticket.vehicle_id := to_text (prop (Req.body req) "vehicleId");
     Ticket.from_location := prop (Req.body req) "fromLocation";
     Ticket.to_location := prop (Req.body req) "toLocation";
     Ticket.fare_amount := amount;
     Ticket.booking_status := "confirmed";
     Ticket.travel_date := today (now w);
     Ticket.created_at := now w;
     Ticket.updated_at := now w |}.

(** ** Scenarios *)

Module Scenario.

Definition alice : User.t := {| User.id := "u-alice"; User.email := "alice@example.org" |}.
Definition bob : User.t := {| User.id := "u-bob"; User.email := "bob@example.org" |}.
Definition carol : User.t := {| User.id := "u-carol"; User.email := "carol@example.org" |}.

Definition profile (u : User.t) (role : string) : Profile.t :=
  {| Profile.id := User.id u; Profile.email := JStr (User.email u);
     Profile.name := JStr "name"; Profile.phone := JStr "555-0100";
     Profile.role := role; Profile.created_at := 0; Profile.updated_at := 0 |}.

Definition vehicle (id route status : string) (created : Z) : Vehicle.t :=
  {| Vehicle.id := id; Vehicle.vehicle_number := JStr ("BUS-" ++ id);
     Vehicle.route_name := route; Vehicle.status := status;
     Vehicle.capacity := JNum 40; Vehicle.vehicle_type := JStr "bus";
     Vehicle.next_stop := JNull; Vehicle.eta := JNull; Vehicle.base_fare := JNull;
     Vehicle.created_at := created; Vehicle.updated_at := created |}.

Definition location (vehicle_id : string) (lat lng created : Z) : Location.t :=
  {| Location.vehicle_id := vehicle_id;
     Location.latitude := JNum lat; Location.longitude := JNum lng;
     Location.speed := JNum 0; Location.heading := JNum 0;
     Location.updated_by := "u-bob";
     Location.created_at := created; Location.updated_at := created |}.

Definition ticket (id owner : string) (fare created : Z) : Ticket.t :=
  {| Ticket.ticket_id := id; Ticket.user_id := owner; Ticket.vehicle_id := "2";
     Ticket.from_location := JStr "Airport"; Ticket.to_location := JStr "City";
     Ticket.fare_amount := fare; Ticket.booking_status := "confirmed";
     Ticket.travel_date := today created;
     Ticket.created_at := created; Ticket.updated_at := created |}.

(** 2023-11-14T22:13:20Z *)
Definition clock : Z := 1700000000000.

(** Alice is a traveller, Bob is staff, Carol has a session and no profile.
    Two active vehicles; vehicle 1 has two location rows, the older one
    stored first; three tickets were booked today. *)
Definition world : World :=
  {| auth := {| accounts := [];
                sessions := [("tok-alice", alice); ("tok-bob", bob); ("tok-carol", carol)] |};
     db := {| user_profiles := [profile alice "traveller"; profile bob "staff"];
              vehicles := [vehicle "1" "Downtown Express" "active" 10;
                           vehicle "2" "Airport Shuttle" "active" 20];
              vehicle_locations := [location "1" 10 20 1000; location "1" 11 21 2000];
              tickets := [ticket "TKT-1" "u-alice" 20 (clock - 3000);
                          ticket "TKT-2" "u-alice" 25 (clock - 2000);
                          ticket "TKT-3" "u-dave" 30 (clock - 1000)] |};
     now := clock; random := [18]; faults := []; calls := [] |}.

Definition failing (schedule : list Fault) : World :=
  {| auth := auth world; db := db world; now := now world; random := random world;
     faults := schedule; calls := [] |}.

Definition request (m : Method) (path : string) (authorization : option string)
    (body query : list (string * JsVal)) : Req.t :=
  {| Req.method := m; Req.path := path; Req.authorization := authorization;
     Req.body := body; Req.query := query; Req.params := []; Req.user := None |}.


(** Bob asks for the staff statistics. *)
Definition stats_request : Req.t :=
  request GET "/api/staff/stats" (Some "Bearer tok-bob") [] [].

(** A complete booking, and one without any field. *)
Definition booking : list (string * JsVal) :=
  [("vehicleId", JNum 2); ("fromLocation", JStr "Airport");
   ("toLocation", JStr "City"); ("fare", JNum 20)].

Definition book_as (token : string) (body : list (string * JsVal)) : Req.t :=
  request POST "/api/tickets/book" (Some ("Bearer " ++ token)) body [].

(** A position report for vehicle 1. *)
Definition report_as (token : string) : Req.t :=
  request POST "/api/vehicles/1/location" (Some ("Bearer " ++ token))
          [("latitude", JNum 12); ("longitude", JNum 22)] [].

Definition vehicles_request : Req.t :=
  request GET "/api/vehicles" (Some "Bearer tok-alice") [] [].

Definition tickets_request : Req.t :=
  request GET "/api/tickets" (Some "Bearer tok-alice") [] [].

(** A signup that asks for a role the server does not know. *)
Definition signup_as_admin : Req.t :=
  request POST "/api/auth/signup" None
          [("email", JStr "dave@example.org"); ("password", JStr "secret");
           ("name", JStr "Dave"); ("phone", JStr "555-0101"); ("role", JStr "admin")] [].

(** One ticket booked half a second before midnight (UTC), the statistics
    being asked for a moment later on the same day. *)
Definition late_evening : World :=
  {| auth := auth world;
     db := {| user_profiles := user_profiles (db world);
              vehicles := vehicles (db world);
              vehicle_locations := vehicle_locations (db world);
              tickets := [ticket "TKT-9" "u-alice" 20 1700006399500] |};
     now := 1700006399900; random := random world; faults := []; calls := [] |}.

(** The world in which Alice has registered her password. *)
Definition registered : World :=
  {| auth := {| accounts := [{| login_email := "alice@example.org";
                                login_password := "secret"; account := alice |}];
                sessions := sessions (auth world) |};
     db := db world; now := clock; random := random world; faults := []; calls := [] |}.

Definition login_as_alice : Req.t :=
  request POST "/api/auth/login" None
          [("email", JStr "alice@example.org"); ("password", JStr "secret")] [].

(** A signup as a traveller. *)
Definition signup_as_traveller : Req.t :=
  request POST "/api/auth/signup" None
          [("email", JStr "dave@example.org"); ("password", JStr "secret");
           ("name", JStr "Dave"); ("phone", JStr "555-0101"); ("role", JStr "traveller")] [].

Definition dave : User.t := {| User.id := "user-0"; User.email := "dave@example.org" |}.

(** The world after the middleware verified a token. *)
Definition verified (token : string) : World := record_call (AuthGetUser token) world.

End Scenario.

(** The four booking fields are all there (and truthy). *)
Definition booking_fields : list string :=
  ["vehicleId"; "fromLocation"; "toLocation"; "fare"].

Definition booking_complete (req : Req.t) : bool :=
  forallb (fun k => truthy (prop (Req.body req) k)) booking_fields.

(** The rows of user_profiles that belong to an identity. *)
Definition profiles_of (u : User.t) (w : World) : list Profile.t :=
  filter (fun p => Profile.id p =? User.id u) (user_profiles (db w)).

(** The ticket rows of an identity, newest first. *)
Definition own_tickets (u : User.t) (w : World) : list Ticket.t :=
  order_desc Ticket.created_at
    (filter (fun t => Ticket.user_id t =? User.id u) (tickets (db w))).

(** A ticket row with the vehicle the listing query embeds in it. *)
Definition joined (w : World) (t : Ticket.t) : Ticket.t * option Vehicle.t :=
  (t, find (fun v => Vehicle.id v =? Ticket.vehicle_id t) (vehicles (db w))).






(** The ticket rows created on the UTC day of the world's clock, and the sum
    of some fares. *)
Definition todays_tickets (w : World) : list Ticket.t :=
  filter (created_today (now w)) (tickets (db w)).

Definition total (fares : list Z) : Z := fold_right Z.add 0%Z fares.

(** ** Postconditions *)

(** [post m w Q]: run from the world [w], the computation [m] ends with an
    outcome and in a world that satisfy [Q]. *)
Definition post {A} (m : Async A) (w : World) (Q : Outcome A -> World -> Prop) : Prop :=
  Q (fst (m w)) (snd (m w)).

(** The status codes the server sends. *)
Definition status_codes : list nat := [200; 201; 400; 401; 403; 404; 500]%nat.

(** A response is well formed when its status is one the server sends and
    its body is an error document exactly when the status is not 200 or 201. *)
Definition is_error_body (doc : Body) : bool :=
  match doc with ErrorBody _ => true | _ => false end.

Definition well_formed (resp : Res.t) : Prop :=
  In (Res.status resp) status_codes /\
  is_error_body (Res.body resp) =
    negb ((Res.status resp =? 200)%nat || (Res.status resp =? 201)%nat).

(** A computation that always sends a well-formed response: it neither
    throws nor answers with anything else. *)
Definition responds (m : Async Res.t) : Prop :=
  forall w, exists resp w', m w = (Returned resp, w') /\ well_formed resp.

(** What a handler's [try] block may do: send a well-formed response, or
    throw. *)
Definition sends_or_throws (o : Outcome Res.t) (_ : World) : Prop :=
  match o with
  | Returned resp => well_formed resp
  | Thrown _ => True
  end.

(** The identity a request is made by: the one its bearer token verifies
    as, if it carries a token and the verification succeeds. *)
Definition caller (req : Req.t) (w : World) : option User.t :=
  match bearer_token (Req.authorization req) with
  | Some token => if token =? "" then None else verification token w
  | None => None
  end.

(** The world with a row appended to a table, or with the vehicles
    rewritten, after the call that did it. *)
Definition with_profile (row : Profile.t) (w : World) : World :=
  with_db {| user_profiles := user_profiles (db w) ++ [row];
             vehicles := vehicles (db w);
             vehicle_locations := vehicle_locations (db w);
             tickets := tickets (db w) |} w.

Definition with_location (row : Location.t) (w : World) : World :=
  with_db {| user_profiles := user_profiles (db w);
             vehicles := vehicles (db w);
             vehicle_locations := vehicle_locations (db w) ++ [row];
             tickets := tickets (db w) |} w.

Definition with_ticket (row : Ticket.t) (w : World) : World :=
  with_db {| user_profiles := user_profiles (db w);
             vehicles := vehicles (db w);
             vehicle_locations := vehicle_locations (db w);
             tickets := tickets (db w) ++ [row] |} w.

Definition with_vehicles (rows : list Vehicle.t) (w : World) : World :=
  with_db {| user_profiles := user_profiles (db w);
             vehicles := rows;
             vehicle_locations := vehicle_locations (db w);
             tickets := tickets (db w) |} w.

(** Everything a single request can do to the tables: nothing; a profile
    row added by a signup; a location row added, and possibly the vehicle
    marked active, by a report of a staff caller; a ticket row added by a
    booking of a traveller. *)
Inductive Effect (req : Req.t) (w : World) : Database -> Prop :=
| NoWrite :
    Effect req w (db w)
| ProfileCreated row :
    Req.method req = POST ->
    Profile.role row = "traveller" \/ Profile.role row = "staff" ->
    Effect req w (db (with_profile row w))
| LocationReported u p id :
    Req.method req = POST ->
    caller req w = Some u -> profiles_of u w = [p] -> Profile.role p = "staff" ->
    truthy (prop (Req.body req) "latitude") = true ->
    truthy (prop (Req.body req) "longitude") = true ->
    Effect req w (db (with_location (reported req id (User.id u) (now w)) w))
| VehicleActivated u p id :
    Req.method req = POST ->
    caller req w = Some u -> profiles_of u w = [p] -> Profile.role p = "staff" ->
    truthy (prop (Req.body req) "latitude") = true ->
    truthy (prop (Req.body req) "longitude") = true ->
    Effect req w
      (db (with_vehicles (map (activated id (now w)) (vehicles (db w)))
             (with_location (reported req id (User.id u) (now w)) w)))
| TicketBooked u p amount :
    Req.method req = POST ->
    caller req w = Some u -> profiles_of u w = [p] -> Profile.role p = "traveller" ->
    booking_complete req = true ->
    Effect req w (db (with_ticket (booked req (User.id u) w amount) w)).

(** ** The server over time *)

(** A request arriving at some moment: by then the clock has moved, the
    random source and the service's disposition are what they are; the
    tables and the auth service are as the last request left them. *)
Record Arrival := {
  request : Req.t;
  clock : Z;
  entropy : Random;
  service : list Fault }.

Definition arrive (a : Arrival) (w : World) : World :=
  {| auth := auth w; db := db w; now := clock a; random := entropy a;
     faults := service a; calls := calls w |}.

(** The requests are handled one after the other. *)
Fixpoint serve (arrivals : list Arrival) (w : World) : World :=
  match arrivals with
  | [] => w
  | a :: rest => serve rest (snd (app (request a) (arrive a w)))
  end.

(** Tables whose rows are all of the kind the server writes: profiles with
    a known role, location rows with usable coordinates, confirmed tickets. *)
Definition valid_tables (d : Database) : Prop :=
  Forall (fun p => Profile.role p = "traveller" \/ Profile.role p = "staff")
         (user_profiles d) /\
  Forall (fun l => truthy (Location.latitude l) = true /\
                   truthy (Location.longitude l) = true)
         (vehicle_locations d) /\
  Forall (fun t => Ticket.booking_status t = "confirmed") (tickets d).

(** The ticket rows the statistics query selects: created today, before the
    day's last second. *)
Definition counted_tickets (w : World) : list Ticket.t :=
  filter (fun t => created_today (now w) t && negb (in_last_second (now w) t))
         (tickets (db w)).

(** The five signup fields are all there (and truthy). *)
Definition signup_fields : list string := ["email"; "password"; "name"; "phone"; "role"].

Definition signup_complete (req : Req.t) : bool :=
  forallb (fun k => truthy (prop (Req.body req) k)) signup_fields.

(** The profile row a signup writes for a new identity. *)
Definition signed_up (req : Req.t) (u : User.t) (at_ : Z) : Profile.t :=
  {| Profile.id := User.id u;
     Profile.email := prop (Req.body req) "email";
     Profile.name := prop (Req.body req) "name";
     Profile.phone := prop (Req.body req) "phone";
     Profile.role := to_text (prop (Req.body req) "role");
     Profile.created_at := at_;
     Profile.updated_at := at_ |}.

(** A truthy value that is not a string, such as the array a repeated query
    parameter is parsed to. *)
Definition truthy_non_string (v : JsVal) : bool :=
  truthy v && match v with JStr _ => false | _ => true end.

(** * The web client (frontend/src/App.jsx) *)

(** A marker on the map: where it stands and what its popup says. *)
Module Marker.
Record t := { lat : JsVal; lng : JsVal; popup : string }.
End Marker.

(** The state of the component and the two keys it keeps in localStorage.
    [vehicles] holds the document the last successful fetch returned. *)
Module UI.
Record t := {
  currentUser : option UserSummary.t;
  token : option string;
  authView : string;
  error : string;
  success : string;
  loading : bool;
  vehicles : Body;
  authToken : option string;           (* localStorage, key authToken *)
  savedUser : option UserSummary.t }.  (* localStorage, key currentUser *)

(** The state of a freshly loaded page with an empty localStorage. *)
Definition initial : t :=
  {| currentUser := None; token := None; authView := "login"; error := "";
     success := ""; loading := false; vehicles := VehiclesBody [];
     authToken := None; savedUser := None |}.

Definition setCurrentUser (u : option UserSummary.t) (s : t) : t :=
  {| currentUser := u; token := token s; authView := authView s; error := error s;
     success := success s; loading := loading s; vehicles := vehicles s;
     authToken := authToken s; savedUser := savedUser s |}.

Definition setToken (k : option string) (s : t) : t :=
  {| currentUser := currentUser s; token := k; authView := authView s;
     error := error s; success := success s; loading := loading s;
     vehicles := vehicles s; authToken := authToken s; savedUser := savedUser s |}.

Definition setAuthView (v : string) (s : t) : t :=
  {| currentUser := currentUser s; token := token s; authView := v;
     error := error s; success := success s; loading := loading s;
     vehicles := vehicles s; authToken := authToken s; savedUser := savedUser s |}.

Definition setError (e : string) (s : t) : t :=
  {| currentUser := currentUser s; token := token s; authView := authView s;
     error := e; success := success s; loading := loading s;
     vehicles := vehicles s; authToken := authToken s; savedUser := savedUser s |}.

Definition setSuccess (m : string) (s : t) : t :=
  {| currentUser := currentUser s; token := token s; authView := authView s;
     error := error s; success := m; loading := loading s;
     vehicles := vehicles s; authToken := authToken s; savedUser := savedUser s |}.

Definition setLoading (b : bool) (s : t) : t :=
  {| currentUser := currentUser s; token := token s; authView := authView s;
     error := error s; success := success s; loading := b;
     vehicles := vehicles s; authToken := authToken s; savedUser := savedUser s |}.

Definition setVehicles (doc : Body) (s : t) : t :=
  {| currentUser := currentUser s; token := token s; authView := authView s;
     error := error s; success := success s; loading := loading s;
     vehicles := doc; authToken := authToken s; savedUser := savedUser s |}.

(** [localStorage.setItem] for the two keys. *)
Definition store (k : string) (u : UserSummary.t) (s : t) : t :=
  {| currentUser := currentUser s; token := token s; authView := authView s;
     error := error s; success := success s; loading := loading s;
     vehicles := vehicles s; authToken := Some k; savedUser := Some u |}.
End UI.

Module Client.

(** [response.ok] *)
Definition ok (response : Res.t) : bool :=
  ((200 <=? Res.status response) && (Res.status response <=? 299))%nat.

(** [data.error || `HTTP error! Status: ${response.status}`] *)
Definition failure (response : Res.t) : string :=
  let status_text := "HTTP error! Status: " ++ decimal (Z.of_nat (Res.status response)) in
  match Res.body response with
  | ErrorBody message => if message =? "" then status_text else message
  | _ => status_text
  end.

(** The Authorization header of a request: set only for a truthy token. *)
Definition authorization (token : option string) : option string :=
  match token with
  | Some t => if t =? "" then None else Some ("Bearer " ++ t)
  | None => None
  end.

(** The request a [fetch] of an endpoint under API_BASE_URL, whose path is
    /api, puts on the wire, for the endpoints, tokens and bodies of the
    component: a path of plain segments without query string, a token that
    is a legal header value, a body of strings.  A null body is parsed to
    the empty object. *)
Definition wire (endpoint : string) (method : Method) (headers : option string)
    (body : option (list (string * JsVal))) : Req.t :=
  {| Req.method := method;
     Req.path := "/api" ++ endpoint;
     Req.authorization := headers;
     Req.body := match body with Some fields => fields | None => [] end;
     Req.query := [];
     Req.params := [];
     Req.user := None |}.

(** [fetch]: the request reaches the router of the server and its response
    comes back. *)
Definition fetch (endpoint : string) (method : Method) (headers : option string)
    (body : option (list (string * JsVal))) : Async Res.t :=
  app (wire endpoint method headers body).

(** [response.json()]: the response to a HEAD request carries no body, and
    parsing nothing is a SyntaxError. *)
Definition parsed (method : Method) (response : Res.t) : Async Body :=
  match method with
  | HEAD => throw "SyntaxError: Unexpected end of JSON input"
  | _ => ret (Res.body response)
  end.

(** What [apiRequest] does with the response: it reads the body, then
    looks at the status. *)
Definition received (method : Method) (response : Res.t) : Async Body :=
  let* data := parsed method response in
  if negb (ok response) then throw (failure response) else ret data.

(** [fetch] refuses a GET or HEAD request that is given a body, before
    anything is sent. *)
Definition apiRequest (endpoint : string) (method : Method)
    (body : option (list (string * JsVal))) (token : option string) : Async Body :=
  let headers := authorization token in
  match method, body with
  | GET, Some _ | HEAD, Some _ =>
      throw "TypeError: Request with GET/HEAD method cannot have body"
  | _, _ =>
      let* response := fetch endpoint method headers body in
      received method response
  end.

(** [fetchVehicles(currentToken)] *)
Definition fetchVehicles (currentToken : option string) (s : UI.t) (w : World)
  : UI.t * World :=
  match apiRequest "/vehicles" GET None currentToken w with
  | (Returned data, w') => (UI.setVehicles data s, w')
  | (Thrown _, w') => (UI.setError "Could not load vehicle data." s, w')
  end.

(** The test [updateMapMarkers] puts a vehicle on the map under. *)
Definition on_map (vehicle : VehicleView.t) : bool :=
  (VehicleView.status vehicle =? "active")
  && truthy (VehicleView.lat vehicle) && truthy (VehicleView.lng vehicle).

(** Position and popup content of the marker of a vehicle. *)
Definition marker_of (vehicle : VehicleView.t) : Marker.t :=
  {| Marker.lat := VehicleView.lat vehicle;
     Marker.lng := VehicleView.lng vehicle;
     Marker.popup := "<b>" ++ to_text (VehicleView.number vehicle) ++ "</b><br>Route: "
                     ++ VehicleView.route vehicle |}.

(** The marker the object [vehicleMarkers.current] holds under a key of its
    own. *)
Definition marker_at (id : string) (markers : list (string * Marker.t))
  : option Marker.t :=
  option_map snd (find (fun km => fst km =? id) markers).

(** The names every plain object inherits from Object.prototype; what stands
    under them is a function or an object, hence truthy, and no marker. *)
Definition inherited_names : list string :=
  ["constructor"; "hasOwnProperty"; "isPrototypeOf"; "propertyIsEnumerable";
   "toLocaleString"; "toString"; "valueOf"; "__proto__";
   "__defineGetter__"; "__defineSetter__"; "__lookupGetter__"; "__lookupSetter__"].

(** [vehicleMarkers.current[id]]: a marker of its own, something inherited,
    or undefined. *)
Inductive Slot := Marked (marker : Marker.t) | Inherited | Undefined.

Definition slot (id : string) (markers : list (string * Marker.t)) : Slot :=
  match marker_at id markers with
  | Some marker => Marked marker
  | None => if existsb (String.eqb id) inherited_names then Inherited else Undefined
  end.

(** One round of the [forEach]: the marker the vehicle has is moved and its
    popup rewritten; a vehicle without one gets a new marker; what is
    inherited has no [setLatLng], and calling it is a TypeError.  The map
    library is given numbers for the position; statements about the markers
    assume lat and lng numbers ([showable]). *)
Definition place (markers : list (string * Marker.t)) (vehicle : VehicleView.t)
  : Outcome (list (string * Marker.t)) :=
  if on_map vehicle then
    match slot (VehicleView.id vehicle) markers with
    | Marked _ =>
        Returned (map (fun km => if fst km =? VehicleView.id vehicle
                                 then (fst km, marker_of vehicle) else km) markers)
    | Inherited => Thrown "TypeError: setLatLng is not a function"
    | Undefined =>
        Returned (markers ++ [(VehicleView.id vehicle, marker_of vehicle)])%list
    end
  else Returned markers.

(** The [forEach] over the list: a round that throws ends it, and the
    markers placed so far stay. *)
Fixpoint place_each (vehicleList : list VehicleView.t)
    (markers : list (string * Marker.t)) : Outcome unit * list (string * Marker.t) :=
  match vehicleList with
  | [] => (Returned tt, markers)
  | vehicle :: rest =>
      match place markers vehicle with
      | Returned placed => place_each rest placed
      | Thrown e => (Thrown e, markers)
      end
  end.

(** [updateMapMarkers(vehicleList)]: the markers it leaves in
    [vehicleMarkers.current], and how it ends. *)
Definition updateMapMarkers (vehicleList : list VehicleView.t)
    (markers : list (string * Marker.t)) : list (string * Marker.t) :=
  snd (place_each vehicleList markers).

Definition updateMapMarkers_ends (vehicleList : list VehicleView.t)
    (markers : list (string * Marker.t)) : Outcome unit :=
  fst (place_each vehicleList markers).

(** [handleLogin], on the values of the two inputs of the form.  Reading
    [access_token] off a document without a session is a TypeError. *)
Definition handleLogin (email password : string) (s : UI.t) (w : World)
  : UI.t * World :=
  let s := UI.setError "" (UI.setLoading true s) in
  let (outcome, w') :=
    apiRequest "/auth/login" POST
      (Some [("email", JStr email); ("password", JStr password)]) None w in
  let s :=
    match outcome with
    | Returned (SessionBody user access_token) =>
        UI.store access_token user
          (UI.setCurrentUser (Some user) (UI.setToken (Some access_token) s))
    | Returned _ => UI.setError "TypeError: cannot read properties of undefined" s
    | Thrown message => UI.setError message s
    end in
  (UI.setLoading false s, w').

(** [handleSignup], on the values of the five inputs of the form. *)
Definition handleSignup (name email phone password confirmPassword : string)
    (s : UI.t) (w : World) : UI.t * World :=
  let s := UI.setSuccess "" (UI.setError "" (UI.setLoading true s)) in
  if negb (password =? confirmPassword) then
    (UI.setLoading false (UI.setError "Passwords do not match." s), w)
  else
    let (outcome, w') :=
      apiRequest "/auth/signup" POST
        (Some [("name", JStr name); ("email", JStr email); ("phone", JStr phone);
               ("password", JStr password); ("role", JStr "traveller")]) None w in
    let s :=
      match outcome with
      | Returned _ =>
          UI.setAuthView "login" (UI.setSuccess "Account created! Please log in." s)
      | Thrown message => UI.setError message s
      end in
    (UI.setLoading false s, w').

(** The request a call of [apiRequest] puts on the wire. *)
Definition sent (endpoint : string) (method : Method)
    (body : option (list (string * JsVal))) (token : option string) : Req.t :=
  wire endpoint method (authorization token) body.


(** A call whose response the client can read: not a HEAD request, and no
    body on a GET. *)
Definition well_posed (method : Method) (body : option (list (string * JsVal))) : bool :=
  match method, body with
  | GET, Some _ | HEAD, _ => false
  | _, _ => true
  end.

(** A list the map can show: every vehicle of it that goes on the map has
    an id that names nothing every object inherits, numbers for lat and lng,
    as the map library wants them, and a number plate that prints plainly. *)
Definition showable (vehicleList : list VehicleView.t) : bool :=
  forallb (fun v =>
             negb (on_map v)
             || (negb (existsb (String.eqb (VehicleView.id v)) inherited_names)
                 && is_number (VehicleView.lat v) && is_number (VehicleView.lng v)
                 && prints_plainly (VehicleView.number v)))
          vehicleList.

(** A string without a space. *)
Definition spaceless (s : string) : bool :=
  all_chars (fun c => negb (Ascii.eqb c " ")) s.

End Client.

(** * Auxiliary definitions *)


(** What a round of the [forEach] leaves when it does not throw. *)
Definition placed (markers : list (string * Marker.t)) (v : VehicleView.t)
  : list (string * Marker.t) :=
  if Client.on_map v then
    match Client.marker_at (VehicleView.id v) markers with
    | Some _ =>
        map (fun km : string * Marker.t =>
               if fst km =? VehicleView.id v then (fst km, Client.marker_of v) else km)
            markers
    | None => (markers ++ [(VehicleView.id v, Client.marker_of v)])%list
    end
  else markers.

(** What the login handler may send: an error document or a session
    document. *)
Definition login_document (o : Outcome Res.t) (_ : World) : Prop :=
  exists resp,
    o = Returned resp /\
    (is_error_body (Res.body resp) = true \/
     exists user access_token, Res.body resp = SessionBody user access_token).

(** * Properties *)

(** ** Routing *)

Lemma split_segment (s rest : string) :
  all_chars (fun c => negb (Ascii.eqb c "/")) s = true ->
  split "/" (s ++ String "/" rest) = s :: split "/" rest.
Proof.
  induction s as [|c s IH]; simpl; intros H.
  - reflexivity.
  - apply andb_true_iff in H as [Hc Hs].
    apply negb_true_iff in Hc. rewrite Hc, (IH Hs). reflexivity.
Qed.

Lemma find_route_In table req r ps :
  find_route table req = Some (r, ps) -> In r table.
Proof.
  induction table as [|r' table IH]; simpl; [discriminate|].
  destruct (route_params r' req).
  - intros [= <- _]. now left.
  - intros H. right. now apply IH.
Qed.

Lemma guarded_unless_public r :
  In r routes -> ~ In (pattern r) public_patterns -> guarded r = true.
Proof.
  unfold routes, public_patterns. simpl.
  intros H Hpub.
  repeat (destruct H as [<- | H]; [ simpl in *; try reflexivity; exfalso; tauto | ]).
  destruct H.
Qed.

Ltac route_by_computation :=
  let Hm := fresh in let Hp := fresh in
  intros Hm Hp; unfold app, find_route, routes, route_params; cbn [verb pattern];
  rewrite Hm, Hp; reflexivity.

Lemma route_post_signup req :
  Req.method req = POST -> Req.path req = "/api/auth/signup" ->
  app req = post_auth_signup (Req.with_params [] req).
Proof. route_by_computation. Qed.

Lemma route_post_book req :
  Req.method req = POST -> Req.path req = "/api/tickets/book" ->
  app req = authenticateToken (Req.with_params [] req) post_tickets_book.
Proof. route_by_computation. Qed.

Lemma route_get_tickets req :
  Req.method req = GET -> Req.path req = "/api/tickets" ->
  app req = authenticateToken (Req.with_params [] req) get_tickets.
Proof. route_by_computation. Qed.

Lemma route_get_vehicles req :
  Req.method req = GET -> Req.path req = "/api/vehicles" ->
  app req = authenticateToken (Req.with_params [] req) get_vehicles.
Proof. route_by_computation. Qed.

Lemma route_get_plan req :
  Req.method req = GET -> Req.path req = "/api/routes/plan" ->
  app req = authenticateToken (Req.with_params [] req) get_routes_plan.
Proof. route_by_computation. Qed.

Lemma route_get_stats req :
  Req.method req = GET -> Req.path req = "/api/staff/stats" ->
  app req = authenticateToken (Req.with_params [] req) get_staff_stats.
Proof. route_by_computation. Qed.

Ltac route_with_id Hm Hp Hid id :=
  let Hne := fresh in let Hns := fresh in
  apply andb_true_iff in Hid as [Hne Hns];
  apply negb_true_iff in Hne;
  unfold app, find_route, routes, route_params; cbn [verb pattern];
  rewrite Hm, Hp; cbn [accepts];
  change ("/api/vehicles/" ++ id ++ "/location")
    with (String "/" ("api" ++ String "/" ("vehicles" ++ String "/" (id ++ String "/" "location"))));
  cbn [split Ascii.eqb Bool.eqb];
  rewrite (split_segment "api") by reflexivity;
  rewrite (split_segment "vehicles") by reflexivity;
  rewrite (split_segment id) by exact Hns;
  cbn; rewrite Hne; reflexivity.

Lemma route_post_location req id :
  Req.method req = POST ->
  Req.path req = "/api/vehicles/" ++ id ++ "/location" ->
  is_segment id = true ->
  app req = authenticateToken (Req.with_params [("id", id)] req) post_vehicle_location.
Proof. intros Hm Hp Hid. route_with_id Hm Hp Hid id. Qed.

Lemma route_get_location req id :
  Req.method req = GET ->
  Req.path req = "/api/vehicles/" ++ id ++ "/location" ->
  is_segment id = true ->
  app req = authenticateToken (Req.with_params [("id", id)] req) get_vehicle_location.
Proof. intros Hm Hp Hid. route_with_id Hm Hp Hid id. Qed.

(** ** What the service calls leave untouched *)

Lemma record_call_db c w : db (record_call c w) = db w.
Proof. reflexivity. Qed.

Lemma answering_reads {A} c (k : Async (Reply A)) w :
  (forall w0, snd (k w0) = w0) ->
  snd (answering c k w) = record_call c w.
Proof.
  intros Hk. unfold answering, bind, call.
  destruct (faults w) as [|[] ?]; simpl; try reflexivity; apply Hk.
Qed.

Lemma getUser_world token w : snd (supabase.getUser token w) = record_call (AuthGetUser token) w.
Proof.
  apply answering_reads. intros w0. unfold bind, gets.
  destruct (find _ _) as [[? ?]|]; reflexivity.
Qed.

Lemma profile_by_id_world id w :
  snd (supabase.profile_by_id id w) = record_call (Select UserProfiles) w.
Proof. apply answering_reads. reflexivity. Qed.

(** ** The auth middleware *)

Lemma authenticateToken_missing req next w :
  token_missing req ->
  authenticateToken req next w =
    (Returned {| Res.status := 401; Res.body := ErrorBody "Access token required" |}, w).
Proof.
  unfold token_missing, authenticateToken. intros [H | H]; rewrite H; reflexivity.
Qed.

Lemma authenticateToken_rejected req w token :
  bearer_token (Req.authorization req) = Some token ->
  token <> "" ->
  verification token w = None ->
  exists message, forall next,
    authenticateToken req next w =
      (Returned {| Res.status := 403; Res.body := ErrorBody message |},
       record_call (AuthGetUser token) w).
Proof.
  intros Htok Hne Hver. unfold authenticateToken. rewrite Htok.
  apply String.eqb_neq in Hne. rewrite Hne.
  unfold verification in Hver.
  pose proof (getUser_world token w) as Hw.
  unfold bind, try_catch.
  destruct (supabase.getUser token w) as [[r|e] w1]; simpl in Hw; subst w1.
  - destruct (error r), (data r); try discriminate; eexists; reflexivity.
  - eexists; reflexivity.
Qed.

Section Authenticated.

Variables (req : Req.t) (w : World) (u : User.t) (w1 : World).
Hypothesis verified : authenticated req w u w1.

Lemma authenticated_world : exists token, w1 = record_call (AuthGetUser token) w.
Proof.
  destruct verified as (token & _ & _ & H). exists token.
  rewrite <- (getUser_world token w), H. reflexivity.
Qed.

Lemma authenticated_db : db w1 = db w.
Proof. destruct authenticated_world as [? ->]. reflexivity. Qed.

(** The router's parameters do not touch the Authorization header. *)
Lemma guarded_handler_runs ps next :
  authenticateToken (Req.with_params ps req) next w =
    next (Req.with_user u (Req.with_params ps req)) w1.
Proof.
  destruct verified as (token & Htok & Hne & Hget).
  unfold authenticateToken. cbn [Req.authorization Req.with_params]. rewrite Htok.
  apply String.eqb_neq in Hne. rewrite Hne.
  unfold bind, try_catch. rewrite Hget. reflexivity.
Qed.

End Authenticated.

(** C1 (as amended).  Take a request whose path holds no percent escape.
    When it matches a registered route other than the health check, signup
    and login, it passes through [authenticateToken]: without a usable
    bearer token the answer is 401 and the world is left as it was (no call
    at all); with a token whose verification fails the answer is 403 and
    the only call made is the verification itself, the tables being
    untouched.  In both cases the outcome is the same whatever handler is
    registered behind the middleware: the handler does not run.  When it
    matches no registered route, the fallback handler answers 404 and the
    world is left as it was, whatever the Authorization header. *)
Theorem guarded_routes_reject_bad_tokens :
  forall req w,
    percent_free (Req.path req) = true ->
    (forall r ps,
       find_route routes req = Some (r, ps) ->
       ~ In (pattern r) public_patterns ->
       (token_missing req ->
        forall h,
          app req w = (Returned {| Res.status := 401;
                                   Res.body := ErrorBody "Access token required" |}, w) /\
          run_route {| verb := verb r; pattern := pattern r; guarded := guarded r;
                       handler := h |}
                    (Req.with_params ps req) w = app req w)
       /\
       (forall token,
          bearer_token (Req.authorization req) = Some token ->
          token <> "" ->
          verification token w = None ->
          exists resp w',
            app req w = (Returned resp, w') /\
            Res.status resp = 403 /\
            calls w' = (calls w ++ [AuthGetUser token])%list /\
            db w' = db w /\ auth w' = auth w /\
            forall h,
              run_route {| verb := verb r; pattern := pattern r; guarded := guarded r;
                           handler := h |}
                        (Req.with_params ps req) w = app req w))
    /\
    (find_route routes req = None ->
     app req w =
       (Returned {| Res.status := 404; Res.body := ErrorBody "Route not found" |}, w)).
Proof.
  intros req w _. split.
  - intros r ps Hroute Hpub.
    assert (Hg : guarded r = true)
      by (apply guarded_unless_public; [eapply find_route_In; eassumption | assumption]).
    unfold app. rewrite Hroute. unfold run_route. cbn [guarded handler]. rewrite Hg.
    split.
    + intros Hmiss h.
      rewrite !(authenticateToken_missing (Req.with_params ps req)) by exact Hmiss.
      split; reflexivity.
    + intros token Htok Hne Hver.
      destruct (authenticateToken_rejected (Req.with_params ps req) w token
                  Htok Hne Hver) as [message Hrej].
      exists {| Res.status := 403; Res.body := ErrorBody message |},
             (record_call (AuthGetUser token) w).
      repeat split; try apply Hrej.
      intros h. now rewrite !Hrej.
  - intros Hnone. unfold app. rewrite Hnone. reflexivity.
Qed.

(** ** Signup validation *)

Lemma is_one_of_roles v :
  v <> JStr "traveller" -> v <> JStr "staff" ->
  is_one_of v ["traveller"; "staff"] = false.
Proof.
  intros Ht Hs. destruct v; try reflexivity. simpl.
  destruct (String.eqb_spec s "traveller") as [->|_]; [now elim Ht|].
  destruct (String.eqb_spec s "staff") as [->|_]; [now elim Hs|].
  reflexivity.
Qed.

(** C3.  A signup whose role field is present and is neither 'traveller'
    nor 'staff' is answered with 400, and the world is left exactly as it
    was: no call to the auth service, no insert into user_profiles. *)
Theorem signup_rejects_unknown_role :
  forall req w,
    Req.method req = POST ->
    Req.path req = "/api/auth/signup" ->
    prop (Req.body req) "role" <> JUndefined ->
    prop (Req.body req) "role" <> JStr "traveller" ->
    prop (Req.body req) "role" <> JStr "staff" ->
    exists message,
      app req w = (Returned {| Res.status := 400; Res.body := ErrorBody message |}, w).
Proof.
  intros req w Hm Hp _ Ht Hs.
  rewrite (route_post_signup req Hm Hp).
  unfold post_auth_signup, try_catch. cbn [Req.body Req.with_params].
  rewrite (is_one_of_roles _ Ht Hs).
  destruct (negb (truthy (prop (Req.body req) "email")) || _ || _ || _ || _);
    eexists; reflexivity.
Qed.

(** ** Role checks *)

(** C2.  An authenticated POST /api/vehicles/:id/location, with an id that
    holds no percent escape, whose caller's profile, as the handler looks
    it up, has a role other than 'staff' is answered with 403; no row is
    added to vehicle_locations and no vehicle row changes. *)
Theorem location_update_is_staff_only :
  forall req id w u w1 profileData w2,
    Req.method req = POST ->
    Req.path req = "/api/vehicles/" ++ id ++ "/location" ->
    is_segment id = true ->
    percent_free id = true ->
    authenticated req w u w1 ->
    supabase.profile_by_id (User.id u) w1 = (Returned (fulfilled profileData), w2) ->
    Profile.role profileData <> "staff" ->
    app req w =
      (Returned {| Res.status := 403;
                   Res.body := ErrorBody "Only staff can update vehicle locations" |}, w2) /\
    vehicle_locations (db w2) = vehicle_locations (db w) /\
    vehicles (db w2) = vehicles (db w).
Proof.
  intros req id w u w1 p w2 Hm Hp Hid _ Hauth Hlook Hrole.
  rewrite (route_post_location req id Hm Hp Hid).
  rewrite (guarded_handler_runs _ _ _ _ Hauth).
  assert (Hdb : db w2 = db w).
  { pose proof (profile_by_id_world (User.id u) w1) as H. rewrite Hlook in H.
    simpl in H. subst w2. rewrite record_call_db. eapply authenticated_db; eassumption. }
  rewrite Hdb. repeat split.
  unfold post_vehicle_location, try_catch, bind, user_id.
  cbn [Req.user Req.with_user Req.with_params ret].
  rewrite Hlook. cbn [data fulfilled].
  apply String.eqb_neq in Hrole. rewrite Hrole. reflexivity.
Qed.

Lemma booking_incomplete req :
  booking_complete req = false ->
  negb (truthy (prop (Req.body req) "vehicleId"))
  || negb (truthy (prop (Req.body req) "fromLocation"))
  || negb (truthy (prop (Req.body req) "toLocation"))
  || negb (truthy (prop (Req.body req) "fare")) = true.
Proof.
  unfold booking_complete, booking_fields. simpl.
  destruct (truthy (prop (Req.body req) "vehicleId")),
    (truthy (prop (Req.body req) "fromLocation")),
    (truthy (prop (Req.body req) "toLocation")),
    (truthy (prop (Req.body req) "fare")); simpl; congruence.
Qed.

Lemma booking_completed req :
  booking_complete req = true ->
  negb (truthy (prop (Req.body req) "vehicleId"))
  || negb (truthy (prop (Req.body req) "fromLocation"))
  || negb (truthy (prop (Req.body req) "toLocation"))
  || negb (truthy (prop (Req.body req) "fare")) = false.
Proof.
  unfold booking_complete, booking_fields. simpl.
  destruct (truthy (prop (Req.body req) "vehicleId")),
    (truthy (prop (Req.body req) "fromLocation")),
    (truthy (prop (Req.body req) "toLocation")),
    (truthy (prop (Req.body req) "fare")); simpl; congruence.
Qed.

Lemma missing_field_incomplete req k :
  In k booking_fields -> prop (Req.body req) k = JUndefined ->
  booking_complete req = false.
Proof.
  intros Hin Hk. unfold booking_complete.
  destruct (forallb _ booking_fields) eqn:E; [|reflexivity].
  rewrite forallb_forall in E. specialize (E k Hin). rewrite Hk in E. discriminate.
Qed.

(** C4 (as amended).  The booking handler validates the fields before it
    looks at the role.  An authenticated booking that lacks one of the four
    fields (or carries a falsy one) is answered with 400 whatever the
    caller's role; a complete one from a caller whose profile, as the
    handler looks it up, has a role other than 'traveller' is answered with
    403.  Neither adds a ticket row. *)
Theorem booking_validates_then_checks_role :
  forall req w u w1,
    Req.method req = POST ->
    Req.path req = "/api/tickets/book" ->
    authenticated req w u w1 ->
    (forall k, In k booking_fields -> prop (Req.body req) k = JUndefined ->
               booking_complete req = false)
    /\
    (booking_complete req = false ->
       app req w =
         (Returned {| Res.status := 400;
                      Res.body := ErrorBody "All booking details are required" |}, w1) /\
       tickets (db w1) = tickets (db w))
    /\
    (booking_complete req = true ->
     forall profileData w2,
       supabase.profile_by_id (User.id u) w1 = (Returned (fulfilled profileData), w2) ->
       Profile.role profileData <> "traveller" ->
       app req w =
         (Returned {| Res.status := 403;
                      Res.body := ErrorBody "Only travellers can book tickets" |}, w2) /\
       tickets (db w2) = tickets (db w)).
Proof.
  intros req w u w1 Hm Hp Hauth.
  rewrite (route_post_book req Hm Hp).
  rewrite (guarded_handler_runs _ _ _ _ Hauth).
  pose proof (authenticated_db _ _ _ _ Hauth) as Hdb1.
  split; [intros k; apply missing_field_incomplete|].
  split.
  - intros Hinc. rewrite Hdb1. split; [|reflexivity].
    unfold post_tickets_book, try_catch.
    cbn [Req.body Req.with_user Req.with_params].
    rewrite (booking_incomplete req Hinc). reflexivity.
  - intros Hcomp p w2 Hlook Hrole.
    assert (Hdb : db w2 = db w).
    { pose proof (profile_by_id_world (User.id u) w1) as H. rewrite Hlook in H.
      simpl in H. subst w2. rewrite record_call_db. exact Hdb1. }
    rewrite Hdb. split; [|reflexivity].
    unfold post_tickets_book, try_catch.
    cbn [Req.body Req.with_user Req.with_params].
    rewrite (booking_completed req Hcomp).
    unfold bind, user_id. cbn [Req.user Req.with_user Req.with_params ret].
    rewrite Hlook. cbn [data fulfilled].
    apply String.eqb_neq in Hrole. rewrite Hrole. reflexivity.
Qed.

Lemma profile_lookup_without_row u w :
  profiles_of u w = [] ->
  exists o, supabase.profile_by_id (User.id u) w = (o, record_call (Select UserProfiles) w) /\
            match o with
            | Returned r => data r = None
            | Thrown _ => True
            end.
Proof.
  unfold profiles_of. intros Hnone.
  unfold supabase.profile_by_id, answering, bind, call, gets.
  destruct (faults w) as [|[] ?]; cbn -[filter]; eexists; split; try reflexivity;
    try exact I; try reflexivity.
  all: change (db (record_call (Select UserProfiles) w)) with (db w);
    rewrite Hnone; reflexivity.
Qed.

(** C10 (as amended).  For an authenticated identity without a row in
    user_profiles the role check dereferences a missing profile and the
    handler's [catch] turns the TypeError into a 500: always so for the
    location update and the staff statistics, and for a booking when its
    four fields are there; a booking with a field missing is answered with
    400 before the profile is looked up. *)
Theorem role_check_without_profile :
  forall req w u w1,
    authenticated req w u w1 ->
    profiles_of u w = [] ->
    let crashed :=
      (Returned {| Res.status := 500; Res.body := ErrorBody "Internal server error" |},
       record_call (Select UserProfiles) w1) in
    (forall id,
       Req.method req = POST ->
       Req.path req = "/api/vehicles/" ++ id ++ "/location" ->
       is_segment id = true ->
       app req w = crashed)
    /\
    (Req.method req = GET -> Req.path req = "/api/staff/stats" -> app req w = crashed)
    /\
    (Req.method req = POST -> Req.path req = "/api/tickets/book" ->
     app req w =
       if booking_complete req then crashed
       else (Returned {| Res.status := 400;
                         Res.body := ErrorBody "All booking details are required" |}, w1)).
Proof.
  intros req w u w1 Hauth Hnone crashed. subst crashed.
  assert (Hnone1 : profiles_of u w1 = [])
    by (unfold profiles_of in *; now rewrite (authenticated_db _ _ _ _ Hauth)).
  destruct (profile_lookup_without_row u w1 Hnone1) as (o & Hlook & Ho).
  pose proof (guarded_handler_runs _ _ _ _ Hauth) as Hpass.
  repeat split.
  - intros id Hm Hp Hid.
    rewrite (route_post_location req id Hm Hp Hid), Hpass.
    unfold post_vehicle_location, try_catch, bind, user_id.
    cbn [Req.user Req.with_user Req.with_params ret].
    rewrite Hlook. destruct o as [r|e]; [rewrite Ho|]; reflexivity.
  - intros Hm Hp.
    rewrite (route_get_stats req Hm Hp), Hpass.
    unfold get_staff_stats, try_catch, bind, user_id.
    cbn [Req.user Req.with_user Req.with_params ret].
    rewrite Hlook. destruct o as [r|e]; [rewrite Ho|]; reflexivity.
  - intros Hm Hp.
    rewrite (route_post_book req Hm Hp), Hpass.
    unfold post_tickets_book, try_catch.
    cbn [Req.body Req.with_user Req.with_params].
    destruct (booking_complete req) eqn:Hc.
    + rewrite (booking_completed req Hc).
      unfold bind, user_id. cbn [Req.user Req.with_user Req.with_params ret].
      rewrite Hlook. destruct o as [r|e]; [rewrite Ho|]; reflexivity.
    + rewrite (booking_incomplete req Hc). reflexivity.
Qed.

(** ** Ordering and throwing traversals *)

Lemma insert_desc_In {A} (key : A -> Z) x y l :
  In y (insert_desc key x l) <-> y = x \/ In y l.
Proof.
  induction l as [|z l IH]; simpl.
  - intuition congruence.
  - destruct (key z <=? key x)%Z; simpl; [intuition congruence|].
    rewrite IH. intuition congruence.
Qed.

Lemma order_desc_In {A} (key : A -> Z) y l :
  In y (order_desc key l) <-> In y l.
Proof.
  induction l as [|x l IH]; simpl; [tauto|].
  rewrite insert_desc_In, IH. intuition congruence.
Qed.

Lemma map_throwing_map {A B C} (f : B -> Outcome C) (g : A -> B) l ys :
  map_throwing f (map g l) = Returned ys ->
  Forall2 (fun y x => f (g x) = Returned y) ys l.
Proof.
  revert ys. induction l as [|x l IH]; simpl; intros ys.
  - intros [= <-]. constructor.
  - destruct (f (g x)) as [y|e] eqn:Ey; [|discriminate].
    destruct (map_throwing f (map g l)) as [ys'|e]; [|discriminate].
    intros [= <-]. constructor; auto.
Qed.

Lemma map_throwing_total {A B} (f : A -> Outcome B) l :
  (forall x, In x l -> exists y, f x = Returned y) ->
  exists ys, map_throwing f l = Returned ys.
Proof.
  induction l as [|x l IH]; simpl; intros H.
  - eexists; reflexivity.
  - destruct (H x (or_introl eq_refl)) as [y ->].
    destruct IH as [ys ->]; [intros; apply H; now right|].
    eexists; reflexivity.
Qed.

(** ** Ticket listing *)

Lemma tickets_of_user_answer u w :
  match supabase.tickets_of_user (User.id u) w with
  | (Returned r, _) =>
      error r = None -> data r = Some (map (joined w) (own_tickets u w))
  | (Thrown _, _) => True
  end.
Proof.
  unfold supabase.tickets_of_user, answering, bind, call, gets.
  destruct (faults w) as [|[] ?]; cbn -[filter order_desc find]; trivial; discriminate.
Qed.

Lemma tickets_of_user_healthy u w :
  disposition 0 w = Healthy ->
  supabase.tickets_of_user (User.id u) w =
    (Returned (fulfilled (map (joined w) (own_tickets u w))),
     record_call (Select Tickets) w).
Proof.
  unfold disposition, supabase.tickets_of_user, answering, bind, call, gets.
  destruct (faults w) as [|[] ?]; cbn -[filter order_desc find]; intros H;
    try discriminate; reflexivity.
Qed.

Lemma ticket_view_owner w t view :
  ticket_view (joined w t) = Returned view ->
  exists vehicle, ticket_view (t, Some vehicle) = Returned view.
Proof.
  unfold joined. destruct (find _ _) as [v|]; [|discriminate].
  intros H. now exists v.
Qed.

(** C5.  GET /api/tickets always answers, and whatever tickets the answer
    lists are views of rows of the tickets table whose user_id is the
    authenticated caller's id.  When the service answers the query and every
    one of the caller's tickets refers to an existing vehicle, the answer is
    200 and lists exactly the caller's tickets, newest first. *)
Theorem ticket_listing_is_the_callers :
  forall req w u w1,
    Req.method req = GET ->
    Req.path req = "/api/tickets" ->
    authenticated req w u w1 ->
    exists resp w',
      app req w = (Returned resp, w') /\
      (forall listed,
         Res.body resp = TicketsBody listed ->
         exists rows,
           Forall2 (fun view row =>
                      exists vehicle, ticket_view (row, Some vehicle) = Returned view)
                   listed rows /\
           Forall (fun row => In row (tickets (db w)) /\
                              Ticket.user_id row = User.id u) rows) /\
      (disposition 0 w1 = Healthy ->
       (forall t, In t (own_tickets u w) ->
                  exists v, In v (vehicles (db w)) /\ Vehicle.id v = Ticket.vehicle_id t) ->
       exists listed,
         resp = {| Res.status := 200; Res.body := TicketsBody listed |} /\
         map TicketView.id listed = map Ticket.ticket_id (own_tickets u w)).
Proof.
  intros req w u w1 Hm Hp Hauth.
  rewrite (route_get_tickets req Hm Hp).
  rewrite (guarded_handler_runs _ _ _ _ Hauth).
  pose proof (authenticated_db _ _ _ _ Hauth) as Hdb.
  assert (Hown : own_tickets u w1 = own_tickets u w)
    by (unfold own_tickets; now rewrite Hdb).
  assert (Hjoin : joined w1 = joined w)
    by (unfold joined; now rewrite Hdb).
  assert (Hrows : forall listed,
             map_throwing ticket_view (map (joined w) (own_tickets u w)) = Returned listed ->
             exists rows,
               Forall2 (fun view row =>
                          exists vehicle, ticket_view (row, Some vehicle) = Returned view)
                       listed rows /\
               Forall (fun row => In row (tickets (db w)) /\
                                  Ticket.user_id row = User.id u) rows).
  { intros listed Hl. exists (own_tickets u w). split.
    - apply map_throwing_map in Hl.
      eapply Forall2_impl; [|exact Hl]. intros view t. apply ticket_view_owner.
    - apply Forall_forall. intros t Ht. unfold own_tickets in Ht.
      apply order_desc_In, filter_In in Ht as [Hin Hu].
      split; [assumption | now apply String.eqb_eq]. }
  unfold get_tickets, try_catch, bind, user_id, lift, internal_error, json, send.
  cbn [Req.user Req.with_user Req.with_params ret].
  pose proof (tickets_of_user_answer u w1) as Hans.
  pose proof (tickets_of_user_healthy u w1) as Hhealthy.
  rewrite Hown, Hjoin in Hans, Hhealthy.
  destruct (supabase.tickets_of_user (User.id u) w1) as [[r|e] w2].
  - destruct (error r) as [msg|] eqn:Eerr.
    + do 2 eexists. split; [reflexivity|]. split.
      * cbn. discriminate.
      * intros Hh. specialize (Hhealthy Hh). injection Hhealthy as Hr _.
        rewrite Hr in Eerr. discriminate.
    + rewrite (Hans eq_refl).
      destruct (map_throwing ticket_view _) as [listed|e] eqn:El.
      * do 2 eexists. split; [reflexivity|]. split.
        -- cbn. intros listed' [= <-]. now apply Hrows.
        -- intros _ _. exists listed. split; [reflexivity|].
           apply map_throwing_map in El. clear -El.
           induction El as [|view t listed rows Hv _ IH]; [reflexivity|].
           simpl. rewrite IH. f_equal.
           unfold joined, ticket_view in Hv. destruct (find _ _); [|discriminate].
           now injection Hv as <-.
      * do 2 eexists. split; [reflexivity|]. split.
        -- cbn. discriminate.
        -- intros _ Hveh. exfalso.
           destruct (map_throwing_total ticket_view (map (joined w) (own_tickets u w)))
             as [ys Hys]; [|congruence].
           intros x Hx. apply in_map_iff in Hx as (t & <- & Ht).
           destruct (Hveh t Ht) as (v & Hv & Hid).
           unfold joined, ticket_view.
           destruct (find _ _) eqn:Ef; [eexists; reflexivity|].
           apply (find_none _ _ Ef) in Hv. rewrite Hid, String.eqb_refl in Hv.
           discriminate.
  - do 2 eexists. split; [reflexivity|]. split.
    + cbn. discriminate.
    + intros Hh. specialize (Hhealthy Hh). discriminate.
Qed.

(** ** Route planning *)

Lemma active_vehicles_healthy w :
  disposition 0 w = Healthy ->
  supabase.active_vehicles w =
    (Returned (fulfilled (filter (fun v => Vehicle.status v =? "active") (vehicles (db w)))),
     record_call (Select Vehicles) w).
Proof.
  unfold disposition, supabase.active_vehicles, answering, bind, call, gets.
  destruct (faults w) as [|[] ?]; cbn -[filter]; intros H; try discriminate; reflexivity.
Qed.




(** *** Case folding against the spec's match *)







(** ** Staff statistics *)

Lemma range_is_today clock t :
  in_last_second clock t = false ->
  (at_T00_00_00 (today clock) <=? Ticket.created_at t)%Z &&
  (Ticket.created_at t <? at_T23_59_59 (today clock))%Z = created_today clock t.
Proof.
  unfold in_last_second, created_today, at_T00_00_00, at_T23_59_59, today, ms_per_day.
  generalize (Ticket.created_at t). intros c H.
  destruct (Z.eqb_spec (c / 86400000) (clock / 86400000)) as [E|E];
    destruct (Z.leb_spec (clock / 86400000 * 86400000) c);
    destruct (Z.ltb_spec c (clock / 86400000 * 86400000 + 86399000));
    destruct (Z.leb_spec (clock / 86400000 * 86400000 + 86399000) c);
    simpl in *; try reflexivity; try discriminate; exfalso;
    Z.div_mod_to_equations; lia.
Qed.

Lemma fares_between_answer a b w :
  supabase.fares_between a b w =
    (match disposition 0 w with
     | Healthy =>
         Returned (fulfilled
           (map Ticket.fare_amount
                (filter (fun t => (a <=? Ticket.created_at t)%Z &&
                                  (Ticket.created_at t <? b)%Z) (tickets (db w)))))
     | Refuses => Returned (refused "service unavailable")
     | Crashes => Thrown "fetch failed"
     end, record_call (Select Tickets) w).
Proof.
  unfold disposition, supabase.fares_between, answering, bind, call, gets.
  destruct (faults w) as [|[] ?]; reflexivity.
Qed.

Lemma count_active_vehicles_answer w :
  disposition 0 w <> Crashes ->
  exists n, supabase.count_active_vehicles w = (Returned n, record_call (Select Vehicles) w).
Proof.
  unfold disposition, supabase.count_active_vehicles, supabase.active_vehicles,
    answering, bind, call, gets.
  destruct (faults w) as [|[] ?]; cbn -[filter]; intros H;
    try (now elim H); eexists; reflexivity.
Qed.

Lemma disposition_after_call c n w :
  disposition n (record_call c w) = disposition (S n) w.
Proof.
  unfold disposition. cbn [faults record_call].
  destruct (faults w); [destruct n|]; reflexivity.
Qed.

Lemma or_zero_id n : or_zero n = n.
Proof. unfold or_zero. destruct (Z.eqb_spec n 0); congruence. Qed.

(** *** Sums of doubles *)

Lemma nearest_double_safe z : (Z.abs z <= two53)%Z -> nearest_double z = z.
Proof.
  intros H. unfold nearest_double. apply Z.leb_le in H. now rewrite H.
Qed.

Lemma total_abs_nonneg l : (0 <= total (map Z.abs l))%Z.
Proof.
  induction l as [|x l IH]; unfold total in *; simpl; lia.
Qed.

Lemma fold_left_add_fare l acc :
  (Z.abs acc + total (map Z.abs l) <= two53)%Z ->
  fold_left add_fare l acc = (acc + total l)%Z.
Proof.
  revert acc. induction l as [|x l IH]; intros acc H.
  - unfold total. simpl. lia.
  - pose proof (total_abs_nonneg l) as Hl.
    assert (Hx : total (map Z.abs (x :: l)) = (Z.abs x + total (map Z.abs l))%Z)
      by reflexivity.
    assert (Ht : total (x :: l) = (x + total l)%Z) by reflexivity.
    cbn [fold_left]. unfold add_fare at 2, plus.
    rewrite (nearest_double_safe x) by lia.
    rewrite (nearest_double_safe (acc + x)) by lia.
    rewrite IH by lia. lia.
Qed.

(** Beyond the safe range the sum is rounded: adding 1 twice to 2^53 leaves
    2^53, and 2^53 + 3 is read as 2^53 + 4. *)
Lemma sums_are_rounded :
  fold_left add_fare [two53; 1; 1]%Z 0%Z = two53 /\
  nearest_double (two53 + 3) = (two53 + 4)%Z /\
  nearest_double (- (two53 + 1)) = (- two53)%Z.
Proof. repeat split; vm_compute; reflexivity. Qed.

Lemma safe_sum fares :
  safely_summed fares -> fold_left add_fare fares 0%Z = total fares.
Proof.
  intros H. rewrite fold_left_add_fare; [lia|]. exact H.
Qed.

(** C8 (as amended).  For an authenticated staff caller, when neither the
    ticket query nor the vehicle count makes the client throw, no ticket
    row was created in the last second of the current UTC day and the
    magnitudes of today's fares add up to no more than 2^53 (so that their
    sum in doubles is exact), GET /api/staff/stats responds 200 with trips
    = floor(passengers / 18) and: if the ticket query is answered,
    passengers is the number of ticket rows created today and revenue the
    sum of their fare amounts; if the ticket query comes back with an
    error, which the handler only logs, passengers and revenue are 0.  In the scenario with exactly three tickets created
    today, of fares 20, 25 and 30, passengers = 3, revenue = 75, trips = 0. *)
Theorem staff_stats_count_todays_tickets :
  (forall req w u w1 profileData w2,
     Req.method req = GET ->
     Req.path req = "/api/staff/stats" ->
     authenticated req w u w1 ->
     supabase.profile_by_id (User.id u) w1 = (Returned (fulfilled profileData), w2) ->
     Profile.role profileData = "staff" ->
     disposition 0 w2 <> Crashes ->
     disposition 1 w2 <> Crashes ->
     (forall t, In t (tickets (db w)) -> in_last_second (now w) t = false) ->
     safely_summed (map Ticket.fare_amount (todays_tickets w)) ->
     exists stats w',
       app req w = (Returned {| Res.status := 200; Res.body := StatsBody stats |}, w') /\
       TodayStats.trips stats = (Z.of_nat (TodayStats.passengers stats) / 18)%Z /\
       match disposition 0 w2 with
       | Healthy =>
           TodayStats.passengers stats = List.length (todays_tickets w) /\
           TodayStats.revenue stats = total (map Ticket.fare_amount (todays_tickets w))
       | _ =>
           TodayStats.passengers stats = 0%nat /\ TodayStats.revenue stats = 0%Z
       end)
  /\
  (map Ticket.fare_amount (tickets (db Scenario.world)) = [20; 25; 30]%Z /\
   todays_tickets Scenario.world = tickets (db Scenario.world) /\
   exists stats,
     fst (app Scenario.stats_request Scenario.world) =
       Returned {| Res.status := 200; Res.body := StatsBody stats |} /\
     TodayStats.passengers stats = 3%nat /\
     TodayStats.revenue stats = 75%Z /\
     TodayStats.trips stats = 0%Z).
Proof.
  split.
  - intros req w u w1 p w2 Hm Hp Hauth Hlook Hrole Hd0 Hd1 Hlast Hsafe.
    rewrite (route_get_stats req Hm Hp).
    rewrite (guarded_handler_runs _ _ _ _ Hauth).
    destruct (authenticated_world _ _ _ _ Hauth) as [token Hw1].
    pose proof (profile_by_id_world (User.id u) w1) as Hw2.
    rewrite Hlook in Hw2. simpl in Hw2.
    assert (Hdb : db w2 = db w) by (subst w2 w1; reflexivity).
    assert (Hnow : now w2 = now w) by (subst w2 w1; reflexivity).
    unfold get_staff_stats, try_catch, bind, user_id, json, send.
    cbn [Req.user Req.with_user Req.with_params ret].
    rewrite Hlook. cbn [data fulfilled]. rewrite Hrole. cbn [String.eqb Ascii.eqb Bool.eqb negb].
    unfold gets. rewrite fares_between_answer.
    destruct (count_active_vehicles_answer (record_call (Select Tickets) w2))
      as [n Hn]; [now rewrite disposition_after_call|].
    destruct (disposition 0 w2) eqn:Ed; [| |now elim Hd0].
    + rewrite Hn. do 2 eexists. split; [reflexivity|].
      cbn [TodayStats.trips TodayStats.passengers TodayStats.revenue data fulfilled].
      split; [reflexivity|].
      rewrite Hdb, Hnow.
      rewrite (filter_ext_in _ (created_today (now w)))
        by (intros t Ht; apply range_is_today, Hlast, Ht).
      fold (todays_tickets w).
      rewrite or_zero_id, (safe_sum _ Hsafe), length_map. split; reflexivity.
    + rewrite Hn. do 2 eexists. split; [reflexivity|].
      cbn. repeat split.
  - split; [reflexivity|]. split; [reflexivity|].
    eexists. split; [reflexivity|]. repeat split.
Qed.

(** ** The scenarios at work *)

Lemma scenario_authenticated token u path m body query :
  In (token, u) [("tok-alice", Scenario.alice); ("tok-bob", Scenario.bob);
                 ("tok-carol", Scenario.carol)] ->
  authenticated (Scenario.request m path (Some ("Bearer " ++ token)) body query)
                Scenario.world u (Scenario.verified token).
Proof.
  intros H. exists token. simpl in H.
  destruct H as [[= <- <-]|[[= <- <-]|[[= <- <-]|[]]]];
    (split; [reflexivity|]; split; [discriminate|reflexivity]).
Defined.

(** C9 (the code at the failing input).  Vehicle 1 has two location rows,
    the older one stored first.  GET /api/vehicles shows the coordinates of
    the older row, (10, 20), while the most recent row holds (11, 21). *)
Theorem vehicle_listing_shows_first_stored_location :
  exists listed view latest,
    fst (app Scenario.vehicles_request Scenario.world) =
      Returned {| Res.status := 200; Res.body := VehiclesBody listed |} /\
    In view listed /\
    VehicleView.id view = "1" /\
    VehicleView.lat view = JNum 10 /\ VehicleView.lng view = JNum 20 /\
    most_recent (supabase.locations_of "1" (vehicle_locations (db Scenario.world)))
      = Some latest /\
    Location.latitude latest = JNum 11 /\ Location.longitude latest = JNum 21.
Proof.
  do 3 eexists. split; [reflexivity|].
  split; [right; left; reflexivity|].
  repeat split.
Qed.

(** C6 (the code at the failing input).  When [Math.random()] returns one
    half, which prints as 0.i in base 36, the booking handler issues the
    identifier TKT-1700000000000-I: its suffix has one character, not six,
    and the identifier is stored in the new ticket row. *)
Theorem ticket_id_suffix_can_be_short :
  random Scenario.world = [18] /\
  toString36 (random Scenario.world) = "0.i" /\
  exists ticket w',
    app (Scenario.book_as "tok-alice" Scenario.booking) Scenario.world =
      (Returned {| Res.status := 201; Res.body := BookedBody ticket |}, w') /\
    BookedTicket.id ticket = "TKT-1700000000000-I" /\
    ticket_pattern (BookedTicket.id ticket) = false /\
    map Ticket.ticket_id (tickets (db w')) = ["TKT-1"; "TKT-2"; "TKT-3"; "TKT-1700000000000-I"].
Proof.
  split; [reflexivity|]. split; [reflexivity|].
  do 2 eexists. split; [reflexivity|]. repeat split.
Qed.

(** ** Where the stated claims fail *)

(** C1 as stated fails: a request to a path under /api/ that no route
    matches, sent without a token, is answered with 404 by the fallback
    handler, not with 401. *)
Lemma unmatched_api_path_is_404_not_401 :
  let req := Scenario.request GET "/api/unknown" None [] [] in
  token_missing req /\
  exists resp,
    app req Scenario.world = (Returned resp, Scenario.world) /\
    Res.status resp = 404 /\ Res.status resp <> 401.
Proof.
  split; [left; reflexivity|].
  eexists. split; [reflexivity|]. split; [reflexivity|discriminate].
Qed.

(** C4 as stated fails: Bob's profile role is 'staff', not 'traveller', and
    his booking without fields is answered with 400, not 403. *)
Lemma non_traveller_booking_without_fields_is_400 :
  let req := Scenario.book_as "tok-bob" [] in
  exists profileData resp w',
    profiles_of Scenario.bob Scenario.world = [profileData] /\
    Profile.role profileData <> "traveller" /\
    authenticated req Scenario.world Scenario.bob (Scenario.verified "tok-bob") /\
    app req Scenario.world = (Returned resp, w') /\
    Res.status resp = 400 /\ Res.status resp <> 403.
Proof.
  do 3 eexists. split; [reflexivity|]. split; [discriminate|].
  split; [apply scenario_authenticated; simpl; tauto|].
  split; [reflexivity|]. split; [reflexivity|discriminate].
Qed.

(** C8 as stated fails: three tickets were created today, and when the
    ticket query comes back with an error the statistics are still sent
    with status 200, showing 0 passengers and no revenue. *)
Lemma stats_are_zero_when_ticket_query_fails :
  let w := Scenario.failing [Healthy; Healthy; Refuses] in
  List.length (todays_tickets w) = 3%nat /\
  exists stats w',
    app Scenario.stats_request w =
      (Returned {| Res.status := 200; Res.body := StatsBody stats |}, w') /\
    TodayStats.passengers stats = 0%nat /\
    TodayStats.revenue stats = 0%Z /\
    TodayStats.passengers stats <> List.length (todays_tickets w).
Proof.
  split; [reflexivity|].
  do 2 eexists. split; [reflexivity|]. repeat split. discriminate.
Qed.

(** C10 as stated fails: Carol is authenticated and has no row in
    user_profiles; her booking without fields is answered with 400, not
    500. *)
Lemma booking_without_profile_and_fields_is_400 :
  let req := Scenario.book_as "tok-carol" [] in
  profiles_of Scenario.carol Scenario.world = [] /\
  authenticated req Scenario.world Scenario.carol (Scenario.verified "tok-carol") /\
  exists resp w',
    app req Scenario.world = (Returned resp, w') /\
    Res.status resp = 400 /\ Res.status resp <> 500.
Proof.
  split; [reflexivity|].
  split; [apply scenario_authenticated; simpl; tauto|].
  do 2 eexists. split; [reflexivity|]. split; [reflexivity|discriminate].
Qed.

(** ** The theorems at concrete inputs *)

Lemma guarded_routes_reject_bad_tokens_witness :
  app (Scenario.request GET "/api/vehicles" None [] []) Scenario.world =
    (Returned {| Res.status := 401; Res.body := ErrorBody "Access token required" |},
     Scenario.world)
  /\
  (exists resp w',
     app (Scenario.request POST "/api/auth/logout" (Some "Bearer forged") [] [])
         Scenario.world = (Returned resp, w') /\
     Res.status resp = 403 /\
     calls w' = (calls Scenario.world ++ [AuthGetUser "forged"])%list /\
     db w' = db Scenario.world)
  /\
  app (Scenario.request DELETE "/api/tickets" (Some "Bearer tok-alice") [] [])
      Scenario.world =
    (Returned {| Res.status := 404; Res.body := ErrorBody "Route not found" |},
     Scenario.world).
Proof.
  split; [|split].
  - refine (proj1 (proj1 (proj1 (guarded_routes_reject_bad_tokens
                                   (Scenario.request GET "/api/vehicles" None [] [])
                                   Scenario.world eq_refl)
                                _ _ eq_refl _) _ get_health)).
    + simpl. intros [H|[H|[H|[]]]]; discriminate.
    + left. reflexivity.
  - destruct (proj2 (proj1 (guarded_routes_reject_bad_tokens
                              (Scenario.request POST "/api/auth/logout"
                                 (Some "Bearer forged") [] [])
                              Scenario.world eq_refl)
                           _ _ eq_refl
                           ltac:(simpl; intros [H|[H|[H|[]]]]; discriminate))
                    "forged" eq_refl ltac:(discriminate) eq_refl)
      as (resp & w' & Happ & Hstatus & Hcalls & Hdb & _).
    exists resp, w'. repeat split; assumption.
  - exact (proj2 (guarded_routes_reject_bad_tokens
                    (Scenario.request DELETE "/api/tickets" (Some "Bearer tok-alice") [] [])
                    Scenario.world eq_refl) eq_refl).
Defined.

Lemma signup_rejects_unknown_role_witness :
  exists message,
    app Scenario.signup_as_admin Scenario.world =
      (Returned {| Res.status := 400; Res.body := ErrorBody message |}, Scenario.world).
Proof.
  apply signup_rejects_unknown_role;
    [reflexivity | reflexivity | discriminate | discriminate | discriminate].
Defined.

Lemma location_update_is_staff_only_witness :
  app (Scenario.report_as "tok-alice") Scenario.world =
    (Returned {| Res.status := 403;
                 Res.body := ErrorBody "Only staff can update vehicle locations" |},
     record_call (Select UserProfiles) (Scenario.verified "tok-alice")) /\
  vehicle_locations (db (record_call (Select UserProfiles) (Scenario.verified "tok-alice")))
    = vehicle_locations (db Scenario.world) /\
  vehicles (db (record_call (Select UserProfiles) (Scenario.verified "tok-alice")))
    = vehicles (db Scenario.world).
Proof.
  apply (location_update_is_staff_only
           (Scenario.report_as "tok-alice") "1" Scenario.world Scenario.alice
           (Scenario.verified "tok-alice") (Scenario.profile Scenario.alice "traveller")).
  - reflexivity.
  - reflexivity.
  - reflexivity.
  - reflexivity.
  - apply scenario_authenticated. simpl. tauto.
  - reflexivity.
  - discriminate.
Defined.

Lemma booking_validates_then_checks_role_witness :
  (app (Scenario.book_as "tok-alice" []) Scenario.world =
     (Returned {| Res.status := 400;
                  Res.body := ErrorBody "All booking details are required" |},
      Scenario.verified "tok-alice"))
  /\
  (app (Scenario.book_as "tok-bob" Scenario.booking) Scenario.world =
     (Returned {| Res.status := 403;
                  Res.body := ErrorBody "Only travellers can book tickets" |},
      record_call (Select UserProfiles) (Scenario.verified "tok-bob"))).
Proof.
  split.
  - refine (proj1 (proj1 (proj2 (booking_validates_then_checks_role
                     (Scenario.book_as "tok-alice" []) Scenario.world Scenario.alice
                     (Scenario.verified "tok-alice") eq_refl eq_refl _)) eq_refl)).
    apply scenario_authenticated. simpl. tauto.
  - refine (proj1 (proj2 (proj2 (booking_validates_then_checks_role
                     (Scenario.book_as "tok-bob" Scenario.booking) Scenario.world
                     Scenario.bob (Scenario.verified "tok-bob") eq_refl eq_refl _))
                   eq_refl (Scenario.profile Scenario.bob "staff") _ eq_refl _)).
    + apply scenario_authenticated. simpl. tauto.
    + discriminate.
Defined.

Lemma ticket_listing_is_the_callers_witness :
  exists resp w',
    app Scenario.tickets_request Scenario.world = (Returned resp, w') /\
    (forall listed,
       Res.body resp = TicketsBody listed ->
       exists rows,
         Forall2 (fun view row =>
                    exists vehicle, ticket_view (row, Some vehicle) = Returned view)
                 listed rows /\
         Forall (fun row => In row (tickets (db Scenario.world)) /\
                            Ticket.user_id row = "u-alice") rows) /\
    exists listed,
      resp = {| Res.status := 200; Res.body := TicketsBody listed |} /\
      map TicketView.id listed = ["TKT-2"; "TKT-1"].
Proof.
  destruct (ticket_listing_is_the_callers
              Scenario.tickets_request Scenario.world Scenario.alice
              (Scenario.verified "tok-alice") eq_refl eq_refl
              ltac:(apply scenario_authenticated; simpl; tauto))
    as (resp & w' & Happ & Hsound & Hcomplete).
  exists resp, w'. split; [exact Happ|]. split; [exact Hsound|].
  apply Hcomplete; [reflexivity|].
  intros t Ht. exists (Scenario.vehicle "2" "Airport Shuttle" "active" 20).
  split; [right; left; reflexivity|].
  simpl in Ht. destruct Ht as [<-|[<-|[]]]; reflexivity.
Defined.


Lemma staff_stats_count_todays_tickets_witness :
  exists stats w',
    app Scenario.stats_request Scenario.world =
      (Returned {| Res.status := 200; Res.body := StatsBody stats |}, w') /\
    TodayStats.trips stats = (Z.of_nat (TodayStats.passengers stats) / 18)%Z /\
    TodayStats.passengers stats = 3%nat /\
    TodayStats.revenue stats = 75%Z.
Proof.
  destruct (proj1 staff_stats_count_todays_tickets
              Scenario.stats_request Scenario.world Scenario.bob
              (Scenario.verified "tok-bob") (Scenario.profile Scenario.bob "staff")
              (record_call (Select UserProfiles) (Scenario.verified "tok-bob"))
              eq_refl eq_refl
              ltac:(apply scenario_authenticated; simpl; tauto)
              eq_refl eq_refl ltac:(discriminate) ltac:(discriminate)
              ltac:(intros t [<-|[<-|[<-|[]]]]; reflexivity)
              ltac:(vm_compute; discriminate))
    as (stats & w' & Happ & Htrips & Hp & Hr).
  exists stats, w'. repeat split; assumption.
Defined.

Lemma role_check_without_profile_witness :
  app (Scenario.report_as "tok-carol") Scenario.world =
    (Returned {| Res.status := 500; Res.body := ErrorBody "Internal server error" |},
     record_call (Select UserProfiles) (Scenario.verified "tok-carol"))
  /\
  app (Scenario.book_as "tok-carol" Scenario.booking) Scenario.world =
    (Returned {| Res.status := 500; Res.body := ErrorBody "Internal server error" |},
     record_call (Select UserProfiles) (Scenario.verified "tok-carol")).
Proof.
  split.
  - refine (proj1 (role_check_without_profile
                     (Scenario.report_as "tok-carol") Scenario.world Scenario.carol
                     (Scenario.verified "tok-carol") _ eq_refl)
                  "1" eq_refl eq_refl eq_refl).
    apply scenario_authenticated. simpl. tauto.
  - refine (proj2 (proj2 (role_check_without_profile
                     (Scenario.book_as "tok-carol" Scenario.booking) Scenario.world
                     Scenario.carol (Scenario.verified "tok-carol") _ eq_refl))
                  eq_refl eq_refl).
    apply scenario_authenticated. simpl. tauto.
Defined.

(** ** Ticket identifiers, by example *)

Example ticketId_typical :
  ticketId 1700000000000 [4; 15; 35; 34; 24; 8; 2; 22] = "TKT-1700000000000-4FZYO8".
Proof. reflexivity. Qed.

Example ticket_pattern_typical :
  ticket_pattern "TKT-1700000000000-4FZYO8" = true.
Proof. reflexivity. Qed.

(** ** Ticket identifiers, in general *)

Lemma uint_digits u : all_chars is_digit (NilEmpty.string_of_uint u) = true.
Proof. induction u; simpl; auto. Qed.

Lemma decimal_digits n :
  (0 <= n)%Z -> all_chars is_digit (decimal n) = true /\ decimal n <> "".
Proof.
  intros Hn. unfold decimal.
  destruct n as [|p|p]; [split; [reflexivity|discriminate]| |lia].
  cbn [Z.to_int NilZero.string_of_int]. unfold NilZero.string_of_uint.
  destruct (Pos.to_uint p);
    (split; [reflexivity || apply uint_digits | discriminate]).
Qed.

Lemma substring_whole s : String.substring 0 (String.length s) s = s.
Proof. induction s as [|c s IH]; simpl; [reflexivity|now rewrite IH]. Qed.

Lemma length_append_string (a b : string) :
  String.length (a ++ b) = (String.length a + String.length b)%nat.
Proof. induction a as [|c a IH]; simpl; [reflexivity|now rewrite IH]. Qed.

Lemma skip_digits_run digits rest :
  all_chars is_digit digits = true ->
  skip_digits (digits ++ String "-" rest) = String "-" rest.
Proof.
  induction digits as [|c digits IH]; simpl; intros H; [reflexivity|].
  apply andb_true_iff in H as [Hc Hd]. rewrite Hc. auto.
Qed.

Lemma substring_none s : String.substring 0 0 s = "".
Proof. destruct s; reflexivity. Qed.

Lemma prefix_TKT s : String.prefix "TKT-" ("TKT-" ++ s) = true.
Proof. apply String.prefix_correct. destruct s; reflexivity. Qed.

Lemma digit36_upper d : is_upper_alnum (upper_char (digit36 d)) = true.
Proof.
  unfold digit36.
  assert (H : (d mod 36 < 36)%nat) by (apply Nat.mod_upper_bound; discriminate).
  revert H. generalize (d mod 36)%nat. intros k H.
  do 36 (destruct k as [|k]; [reflexivity|]). lia.
Qed.

(** X1.  When the clock is not before the epoch and [Math.random()] prints
    at least six base-36 digits, the identifier has the documented shape. *)
Theorem ticket_id_matches_pattern now random :
  (0 <= now)%Z -> (6 <= List.length random)%nat ->
  ticket_pattern (ticketId now random) = true.
Proof.
  intros Hnow Hlen.
  destruct (decimal_digits now Hnow) as [Hdigits Hnonempty].
  destruct random as [|d1 [|d2 [|d3 [|d4 [|d5 [|d6 rest]]]]]]; simpl in Hlen; try lia.
  unfold ticketId, ticket_pattern. rewrite prefix_TKT.
  change ("TKT-" ++ decimal now ++ "-" ++ ?s)
    with (String "T" (String "K" (String "T" (String "-" (decimal now ++ String "-" s))))).
  cbn [String.length Nat.sub String.substring andb].
  rewrite Nat.sub_0_r, substring_whole, (skip_digits_run _ _ Hdigits).
  rewrite length_append_string.
  cbn [toString36 map string_of_list_ascii append substr String.substring].
  rewrite substring_none.
  cbn [toUpperCase map_chars String.length all_chars Nat.eqb andb].
  rewrite !digit36_upper. cbn [andb]. rewrite andb_true_r.
  destruct (decimal now) as [|c s]; [now elim Hnonempty|].
  cbn [String.length]. apply Nat.ltb_lt. lia.
Qed.

Lemma ticket_id_matches_pattern_witness :
  ticket_pattern (ticketId 1700000000000 [4; 15; 35; 34; 24; 8; 2; 22]) = true.
Proof. apply ticket_id_matches_pattern; simpl; lia. Defined.

(** ** The last second of the day *)

(** The range of the statistics query ends at 23:59:59 exclusively: a
    ticket created at 23:59:59.500 today is not counted. *)
Theorem stats_miss_the_last_second :
  List.length (todays_tickets Scenario.late_evening) = 1%nat /\
  exists stats w',
    app Scenario.stats_request Scenario.late_evening =
      (Returned {| Res.status := 200; Res.body := StatsBody stats |}, w') /\
    TodayStats.passengers stats = 0%nat /\
    TodayStats.revenue stats = 0%Z.
Proof.
  split; [reflexivity|]. do 2 eexists. split; [reflexivity|]. split; reflexivity.
Qed.

(** ** Locations *)

Lemma insert_desc_sorted {A} (key : A -> Z) x l :
  (forall y, hd_error l = Some y -> forall z, In z l -> (key z <= key y)%Z) ->
  forall y, hd_error (insert_desc key x l) = Some y ->
  forall z, In z (insert_desc key x l) -> (key z <= key y)%Z.
Proof.
  intros Hl y Hy z Hz. apply insert_desc_In in Hz.
  destruct l as [|h l]; simpl in *.
  - injection Hy as <-. destruct Hz as [->|[]]. lia.
  - specialize (Hl h eq_refl).
    destruct (Z.leb_spec (key h) (key x)); simpl in Hy; injection Hy as <-.
    + destruct Hz as [->|Hz]; [lia|]. specialize (Hl z Hz). lia.
    + destruct Hz as [->|Hz]; [lia|]. now apply Hl.
Qed.

Lemma order_desc_head_is_latest {A} (key : A -> Z) l y :
  hd_error (order_desc key l) = Some y ->
  In y l /\ forall z, In z l -> (key z <= key y)%Z.
Proof.
  intros Hy. split.
  - apply (order_desc_In key). destruct (order_desc key l); [discriminate|].
    injection Hy as <-. now left.
  - intros z Hz. apply (order_desc_In key) in Hz.
    revert y Hy z Hz. induction l as [|x l IH]; simpl; [discriminate|].
    apply insert_desc_sorted. exact IH.
Qed.

(** [most_recent] names a row no other row is newer than. *)
Lemma most_recent_is_latest rows latest :
  most_recent rows = Some latest ->
  In latest rows /\
  forall other, In other rows -> (Location.created_at other <= Location.created_at latest)%Z.
Proof. apply order_desc_head_is_latest. Qed.

Lemma latest_location_healthy id w :
  disposition 0 w = Healthy ->
  supabase.latest_location id w =
    (Returned (fulfilled
       (firstn 1 (order_desc Location.created_at
                    (supabase.locations_of id (vehicle_locations (db w)))))),
     record_call (Select VehicleLocations) w).
Proof.
  unfold disposition, supabase.latest_location, answering, bind, call, gets.
  destruct (faults w) as [|[] ?]; cbn -[filter order_desc firstn]; intros H;
    try discriminate; reflexivity.
Qed.

(** X2.  GET /api/vehicles/:id/location, with an id that holds no percent
    escape and the service answering, shows the most recent location row of
    the vehicle, and answers 404 when it has none. *)
Theorem single_vehicle_location_is_most_recent :
  forall req id w u w1,
    Req.method req = GET ->
    Req.path req = "/api/vehicles/" ++ id ++ "/location" ->
    is_segment id = true ->
    percent_free id = true ->
    authenticated req w u w1 ->
    disposition 0 w1 = Healthy ->
    fst (app req w) =
      match most_recent (supabase.locations_of id (vehicle_locations (db w))) with
      | None =>
          Returned {| Res.status := 404;
                      Res.body := ErrorBody "Vehicle location not found" |}
      | Some latest =>
          Returned {| Res.status := 200;
                      Res.body := LocationBody
                        {| LocationView.vehicleId := id;
                           LocationView.latitude := Location.latitude latest;
                           LocationView.longitude := Location.longitude latest;
                           LocationView.timestamp := Location.created_at latest;
                           LocationView.speed := Location.speed latest;
                           LocationView.heading := Location.heading latest |} |}
      end.
Proof.
  intros req id w u w1 Hm Hp Hid _ Hauth Hh.
  rewrite (route_get_location req id Hm Hp Hid).
  rewrite (guarded_handler_runs _ _ _ _ Hauth).
  unfold get_vehicle_location, try_catch, bind, param.
  cbn [Req.params Req.with_user Req.with_params find fst String.eqb Ascii.eqb Bool.eqb].
  rewrite (latest_location_healthy id w1 Hh). cbn [error data fulfilled].
  rewrite (authenticated_db _ _ _ _ Hauth). unfold most_recent.
  destruct (order_desc _ _) as [|first others]; reflexivity.
Qed.

Lemma single_vehicle_location_is_most_recent_witness :
  fst (app (Scenario.request GET "/api/vehicles/1/location" (Some "Bearer tok-alice") [] [])
           Scenario.world) =
    Returned {| Res.status := 200;
                Res.body := LocationBody
                  {| LocationView.vehicleId := "1";
                     LocationView.latitude := JNum 11;
                     LocationView.longitude := JNum 21;
                     LocationView.timestamp := 2000;
                     LocationView.speed := JNum 0;
                     LocationView.heading := JNum 0 |} |}.
Proof.
  apply (single_vehicle_location_is_most_recent
           (Scenario.request GET "/api/vehicles/1/location" (Some "Bearer tok-alice") [] [])
           "1" Scenario.world Scenario.alice (Scenario.verified "tok-alice"));
    try reflexivity.
  apply scenario_authenticated. simpl. tauto.
Defined.

(** ** Vehicle listing *)

Lemma vehicles_with_locations_healthy w :
  disposition 0 w = Healthy ->
  supabase.vehicles_with_locations w =
    (Returned (fulfilled
       (map (fun v => (v, supabase.locations_of (Vehicle.id v) (vehicle_locations (db w))))
            (order_desc Vehicle.created_at (vehicles (db w))))),
     record_call (Select Vehicles) w).
Proof.
  unfold disposition, supabase.vehicles_with_locations, answering, bind, call, gets.
  destruct (faults w) as [|[] ?]; cbn -[order_desc supabase.locations_of]; intros H;
    try discriminate; reflexivity.
Qed.

Lemma get_vehicles_healthy req w u w1 :
  Req.method req = GET ->
  Req.path req = "/api/vehicles" ->
  authenticated req w u w1 ->
  disposition 0 w1 = Healthy ->
  app req w =
    (Returned {| Res.status := 200; Res.body := VehiclesBody (listing w) |},
     record_call (Select Vehicles) w1).
Proof.
  intros Hm Hp Hauth Hh.
  rewrite (route_get_vehicles req Hm Hp).
  rewrite (guarded_handler_runs _ _ _ _ Hauth).
  unfold get_vehicles, try_catch, bind.
  rewrite (vehicles_with_locations_healthy w1 Hh). cbn [error data fulfilled].
  unfold listing. rewrite (authenticated_db _ _ _ _ Hauth). reflexivity.
Qed.

(** X3.  Repeating GET /api/vehicles with no write in between returns the
    same ordered list. *)
Theorem vehicle_listing_repeats :
  forall req req' w u w1 r w2 u' w3,
    Req.method req = GET -> Req.path req = "/api/vehicles" ->
    Req.method req' = GET -> Req.path req' = "/api/vehicles" ->
    authenticated req w u w1 -> disposition 0 w1 = Healthy ->
    app req w = (r, w2) ->
    authenticated req' w2 u' w3 -> disposition 0 w3 = Healthy ->
    fst (app req' w2) = r /\
    r = Returned {| Res.status := 200; Res.body := VehiclesBody (listing w) |}.
Proof.
  intros req req' w u w1 r w2 u' w3 Hm Hp Hm' Hp' Hauth Hh Happ Hauth' Hh'.
  rewrite (get_vehicles_healthy req w u w1 Hm Hp Hauth Hh) in Happ.
  injection Happ as <- <-.
  rewrite (get_vehicles_healthy req' _ u' w3 Hm' Hp' Hauth' Hh').
  split; [|reflexivity]. cbn [fst]. unfold listing.
  change (db (record_call (Select Vehicles) w1)) with (db w1).
  rewrite (authenticated_db _ _ _ _ Hauth). reflexivity.
Qed.

Lemma vehicle_listing_repeats_witness :
  fst (app Scenario.vehicles_request
           (snd (app Scenario.vehicles_request Scenario.world))) =
    fst (app Scenario.vehicles_request Scenario.world).
Proof.
  refine (proj1 (vehicle_listing_repeats
                   Scenario.vehicles_request Scenario.vehicles_request
                   Scenario.world Scenario.alice (Scenario.verified "tok-alice")
                   _ _ Scenario.alice
                   (record_call (AuthGetUser "tok-alice")
                      (snd (app Scenario.vehicles_request Scenario.world)))
                   eq_refl eq_refl eq_refl eq_refl _ eq_refl
                   (surjective_pairing _) _ eq_refl)).
  - apply scenario_authenticated. simpl. tauto.
  - exists "tok-alice". split; [reflexivity|]. split; [discriminate|reflexivity].
Defined.

Lemma truthy_not_null v : truthy v = true -> v <> JNull.
Proof. intros H ->. discriminate. Qed.

(** X4.  The coordinates a vehicle is listed with are those of the first of
    its embedded location rows; with truthy coordinates stored, they are
    null exactly when the vehicle has no location row. *)
Theorem listed_coordinates :
  forall vehicle rows,
    Forall (fun l => truthy (Location.latitude l) = true /\
                     truthy (Location.longitude l) = true) rows ->
    let view := vehicle_view (vehicle, rows) in
    (VehicleView.lat view = JNull <-> rows = []) /\
    (VehicleView.lng view = JNull <-> rows = []) /\
    (forall first, hd_error rows = Some first ->
                   VehicleView.lat view = Location.latitude first /\
                   VehicleView.lng view = Location.longitude first).
Proof.
  intros vehicle rows Hrows view. subst view.
  destruct rows as [|first rest]; unfold vehicle_view, current, or_else;
    cbn [VehicleView.lat VehicleView.lng hd_error].
  - repeat split; intros; try reflexivity; discriminate.
  - apply Forall_inv in Hrows as [Hlat Hlng]. rewrite Hlat, Hlng.
    repeat split; try discriminate.
    + intros H. now apply truthy_not_null in Hlat.
    + intros H. now apply truthy_not_null in Hlng.
    + now injection H as <-.
    + now injection H as <-.
Qed.

Lemma listed_coordinates_witness :
  VehicleView.lat
    (vehicle_view (Scenario.vehicle "1" "Downtown Express" "active" 10,
                   [Scenario.location "1" 10 20 1000; Scenario.location "1" 11 21 2000]))
    = JNum 10.
Proof.
  refine (proj1 (proj2 (proj2 (listed_coordinates
                   (Scenario.vehicle "1" "Downtown Express" "active" 10)
                   [Scenario.location "1" 10 20 1000; Scenario.location "1" 11 21 2000] _))
                 _ eq_refl)).
  repeat constructor.
Defined.

(** ** Writes *)

Lemma insert_location_healthy row w :
  disposition 0 w = Healthy ->
  supabase.insert_location row w =
    (Returned (fulfilled [row]),
     with_db {| user_profiles := user_profiles (db w);
                vehicles := vehicles (db w);
                vehicle_locations := vehicle_locations (db w) ++ [row];
                tickets := tickets (db w) |}
             (record_call (Insert VehicleLocations) w)).
Proof.
  unfold disposition, supabase.insert_location, answering, bind, call, modify.
  destruct (faults w) as [|[] ?]; cbn; intros H; try discriminate; reflexivity.
Qed.

Lemma activate_vehicle_healthy id at_ w :
  disposition 0 w = Healthy ->
  supabase.activate_vehicle id at_ w =
    (Returned (fulfilled tt),
     with_db {| user_profiles := user_profiles (db w);
                vehicles := map (activated id at_) (vehicles (db w));
                vehicle_locations := vehicle_locations (db w);
                tickets := tickets (db w) |}
             (record_call (Update Vehicles) w)).
Proof.
  unfold disposition, supabase.activate_vehicle, answering, bind, call, modify.
  destruct (faults w) as [|[] ?]; cbn -[map]; intros H; try discriminate; reflexivity.
Qed.

(** X5.  A position report by a staff caller, with an id that holds no
    percent escape, both coordinates and the service answering, appends one
    row to vehicle_locations (for that vehicle, with the reported
    coordinates, by the caller, created at the clock), marks the vehicle
    active as of some moment, and is answered with 200 and the row's
    creation time. *)
Theorem staff_report_appends_location :
  forall req id w u w1 profileData w2,
    Req.method req = POST ->
    Req.path req = "/api/vehicles/" ++ id ++ "/location" ->
    is_segment id = true ->
    percent_free id = true ->
    authenticated req w u w1 ->
    supabase.profile_by_id (User.id u) w1 = (Returned (fulfilled profileData), w2) ->
    Profile.role profileData = "staff" ->
    truthy (prop (Req.body req) "latitude") = true ->
    truthy (prop (Req.body req) "longitude") = true ->
    disposition 0 w2 = Healthy ->
    disposition 1 w2 = Healthy ->
    exists w' row at_,
      app req w =
        (Returned {| Res.status := 200;
                     Res.body := LocationAckBody
                       {| LocationAck.vehicleId := id;
                          LocationAck.latitude := prop (Req.body req) "latitude";
                          LocationAck.longitude := prop (Req.body req) "longitude";
                          LocationAck.timestamp := Location.created_at row |} |}, w') /\
      vehicle_locations (db w') = (vehicle_locations (db w) ++ [row])%list /\
      Location.vehicle_id row = id /\
      Location.latitude row = prop (Req.body req) "latitude" /\
      Location.longitude row = prop (Req.body req) "longitude" /\
      Location.updated_by row = User.id u /\
      Location.created_at row = now w /\
      vehicles (db w') = map (activated id at_) (vehicles (db w)) /\
      tickets (db w') = tickets (db w) /\
      user_profiles (db w') = user_profiles (db w).
Proof.
  intros req id w u w1 p w2 Hm Hp Hid _ Hauth Hlook Hrole Hlat Hlng Hd0 Hd1.
  rewrite (route_post_location req id Hm Hp Hid).
  rewrite (guarded_handler_runs _ _ _ _ Hauth).
  destruct (authenticated_world _ _ _ _ Hauth) as [token Hw1].
  pose proof (profile_by_id_world (User.id u) w1) as Hw2.
  rewrite Hlook in Hw2. simpl in Hw2.
  unfold post_vehicle_location, try_catch, bind, user_id, param, gets.
  cbn [Req.user Req.body Req.params Req.with_user Req.with_params ret
       find fst String.eqb Ascii.eqb Bool.eqb].
  rewrite Hlook. cbn [data fulfilled]. rewrite Hrole, Hlat, Hlng.
  cbn [String.eqb Ascii.eqb Bool.eqb negb orb].
  rewrite (insert_location_healthy _ w2 Hd0). cbn [error data fulfilled].
  rewrite activate_vehicle_healthy
    by (change (disposition 0 (record_call (Insert VehicleLocations) w2) = Healthy);
        now rewrite disposition_after_call).
  subst w2 w1.
  eexists _, (reported req id (User.id u) (now w)), (now w).
  split; [reflexivity|]. repeat split.
Qed.

Lemma staff_report_appends_location_witness :
  exists w',
    fst (app (Scenario.report_as "tok-bob") Scenario.world) =
      Returned {| Res.status := 200;
                  Res.body := LocationAckBody
                    {| LocationAck.vehicleId := "1";
                       LocationAck.latitude := JNum 12;
                       LocationAck.longitude := JNum 22;
                       LocationAck.timestamp := Scenario.clock |} |} /\
    snd (app (Scenario.report_as "tok-bob") Scenario.world) = w' /\
    List.length (vehicle_locations (db w')) = 3%nat.
Proof.
  destruct (staff_report_appends_location
              (Scenario.report_as "tok-bob") "1" Scenario.world Scenario.bob
              (Scenario.verified "tok-bob") (Scenario.profile Scenario.bob "staff")
              (record_call (Select UserProfiles) (Scenario.verified "tok-bob"))
              eq_refl eq_refl eq_refl eq_refl
              ltac:(apply scenario_authenticated; simpl; tauto)
              eq_refl eq_refl eq_refl eq_refl eq_refl eq_refl)
    as (w' & row & at_ & Happ & Hloc & _ & _ & _ & _ & Hat & _).
  exists w'. rewrite Happ, Hat. repeat split. rewrite Hloc. reflexivity.
Defined.

Lemma vehicle_by_id_healthy id w :
  disposition 0 w = Healthy ->
  supabase.vehicle_by_id id w =
    (Returned (single (filter (fun v => Vehicle.id v =? id) (vehicles (db w)))),
     record_call (Select Vehicles) w).
Proof.
  unfold disposition, supabase.vehicle_by_id, answering, bind, call, gets.
  destruct (faults w) as [|[] ?]; cbn -[filter]; intros H; try discriminate; reflexivity.
Qed.

Lemma insert_ticket_healthy fare row amount w :
  disposition 0 w = Healthy ->
  supabase.as_numeric fare = Some amount ->
  supabase.insert_ticket fare row w =
    (Returned (fulfilled [row amount]),
     with_db {| user_profiles := user_profiles (db w);
                vehicles := vehicles (db w);
                vehicle_locations := vehicle_locations (db w);
                tickets := tickets (db w) ++ [row amount] |}
             (record_call (Insert Tickets) w)).
Proof.
  unfold disposition, supabase.insert_ticket, answering, bind, call, modify.
  intros H Hfare. rewrite Hfare.
  destruct (faults w) as [|[] ?]; cbn; try discriminate; reflexivity.
Qed.

(** X6.  A complete booking by a traveller, with a vehicle id that is a
    string or an integer of the safe range, a fare the numeric column
    accepts and the service answering, appends exactly one ticket row: it
    belongs to the caller, is confirmed, and carries the generated
    identifier.  The answer is 201 when the vehicle lookup finds exactly one
    row; otherwise the row is inserted all the same and the answer is 500. *)
Theorem traveller_booking_appends_ticket :
  forall req w u w1 profileData w2 amount,
    Req.method req = POST ->
    Req.path req = "/api/tickets/book" ->
    authenticated req w u w1 ->
    booking_complete req = true ->
    supabase.profile_by_id (User.id u) w1 = (Returned (fulfilled profileData), w2) ->
    Profile.role profileData = "traveller" ->
    supabase.as_numeric (prop (Req.body req) "fare") = Some amount ->
    plain_id (prop (Req.body req) "vehicleId") = true ->
    disposition 0 w2 = Healthy ->
    disposition 1 w2 = Healthy ->
    exists resp w',
      app req w = (Returned resp, w') /\
      tickets (db w') = (tickets (db w) ++ [booked req (User.id u) w amount])%list /\
      match filter (fun v => Vehicle.id v =? to_text (prop (Req.body req) "vehicleId"))
                   (vehicles (db w)) with
      | [vehicle] =>
          resp = {| Res.status := 201;
                    Res.body := BookedBody
                      {| BookedTicket.id := ticketId (now w) (random w);
                         BookedTicket.vehicleNumber := Vehicle.vehicle_number vehicle;
                         BookedTicket.route := Vehicle.route_name vehicle;
                         BookedTicket.from := prop (Req.body req) "fromLocation";
                         BookedTicket.to := prop (Req.body req) "toLocation";
                         BookedTicket.fare := prop (Req.body req) "fare";
                         BookedTicket.bookedAt := now w;
                         BookedTicket.status := "confirmed" |} |}
      | _ => resp = {| Res.status := 500; Res.body := ErrorBody "Internal server error" |}
      end.
Proof.
  intros req w u w1 p w2 amount Hm Hp Hauth Hcomp Hlook Hrole Hfare _ Hd0 Hd1.
  rewrite (route_post_book req Hm Hp).
  rewrite (guarded_handler_runs _ _ _ _ Hauth).
  destruct (authenticated_world _ _ _ _ Hauth) as [token Hw1].
  pose proof (profile_by_id_world (User.id u) w1) as Hw2.
  rewrite Hlook in Hw2. simpl in Hw2.
  assert (Hdb : db w2 = db w) by (subst w2 w1; reflexivity).
  unfold post_tickets_book, try_catch.
  cbn [Req.body Req.with_user Req.with_params].
  rewrite (booking_completed req Hcomp).
  unfold bind, user_id, gets. cbn [Req.user Req.with_user Req.with_params ret].
  rewrite Hlook. cbn [data fulfilled]. rewrite Hrole.
  cbn [String.eqb Ascii.eqb Bool.eqb negb].
  rewrite (vehicle_by_id_healthy _ w2 Hd0).
  rewrite (insert_ticket_healthy _ _ amount)
    by (try exact Hfare;
        change (disposition 0 (record_call (Select Vehicles) w2) = Healthy);
        now rewrite disposition_after_call).
  cbn [error data fulfilled]. rewrite Hdb.
  destruct (filter _ (vehicles (db w))) as [|vehicle [|? ?]];
    cbn [single data fulfilled refused];
    do 2 eexists; (split; [reflexivity|]); split;
      try (subst w2 w1; reflexivity).
Qed.

Lemma traveller_booking_appends_ticket_witness :
  exists resp w',
    app (Scenario.book_as "tok-alice" Scenario.booking) Scenario.world = (Returned resp, w') /\
    Res.status resp = 201 /\
    List.length (tickets (db w')) = 4%nat.
Proof.
  destruct (traveller_booking_appends_ticket
              (Scenario.book_as "tok-alice" Scenario.booking) Scenario.world Scenario.alice
              (Scenario.verified "tok-alice") (Scenario.profile Scenario.alice "traveller")
              (record_call (Select UserProfiles) (Scenario.verified "tok-alice")) 20%Z
              eq_refl eq_refl
              ltac:(apply scenario_authenticated; simpl; tauto)
              eq_refl eq_refl eq_refl eq_refl eq_refl eq_refl eq_refl)
    as (resp & w' & Happ & Htickets & Hresp).
  exists resp, w'. split; [exact Happ|]. split.
  - simpl in Hresp. rewrite Hresp. reflexivity.
  - rewrite Htickets. reflexivity.
Defined.

(** * Further properties of the server *)

(** ** Rules for postconditions *)

Section Rules.

Context {A B : Type}.

Lemma post_ret (a : A) w (Q : Outcome A -> World -> Prop) :
  Q (Returned a) w -> post (ret a) w Q.
Proof. exact (fun H => H). Qed.

Lemma post_throw e w (Q : Outcome A -> World -> Prop) :
  Q (Thrown e) w -> post (throw e) w Q.
Proof. exact (fun H => H). Qed.

Lemma post_lift (o : Outcome A) w (Q : Outcome A -> World -> Prop) :
  Q o w -> post (lift o) w Q.
Proof. exact (fun H => H). Qed.

Lemma post_gets (f : World -> A) w (Q : Outcome A -> World -> Prop) :
  Q (Returned (f w)) w -> post (gets f) w Q.
Proof. exact (fun H => H). Qed.

Lemma post_bind (m : Async A) (k : A -> Async B) w (Q : Outcome B -> World -> Prop) :
  post m w (fun o w1 => match o with
                        | Returned a => post (k a) w1 Q
                        | Thrown e => Q (Thrown e) w1
                        end) ->
  post (bind m k) w Q.
Proof. unfold post, bind. destruct (m w) as [[a|e] w1]; exact (fun H => H). Qed.

Lemma post_try_catch (m : Async A) h w (Q : Outcome A -> World -> Prop) :
  post m w (fun o w1 => match o with
                        | Returned a => Q (Returned a) w1
                        | Thrown e => post (h e) w1 Q
                        end) ->
  post (try_catch m h) w Q.
Proof. unfold post, try_catch. destruct (m w) as [[a|e] w1]; exact (fun H => H). Qed.

Lemma post_weaken (m : Async A) w (P Q : Outcome A -> World -> Prop) :
  post m w P -> (forall o w1, P o w1 -> Q o w1) -> post m w Q.
Proof. unfold post. auto. Qed.

End Rules.

Lemma post_bind_any {A B} (m : Async A) (k : A -> Async B) w
    (Q : Outcome B -> World -> Prop) :
  (forall a w1, post (k a) w1 Q) ->
  (forall e w1, Q (Thrown e) w1) ->
  post (bind m k) w Q.
Proof.
  intros Hk He. apply post_bind. unfold post at 1.
  destruct (fst (m w)); auto.
Qed.

(** ** Every request is answered *)

Lemma well_formed_error code message :
  In code [400; 401; 403; 404; 500]%nat ->
  well_formed {| Res.status := code; Res.body := ErrorBody message |}.
Proof.
  intros H. simpl in H.
  destruct H as [<-|[<-|[<-|[<-|[<-|[]]]]]]; split; simpl; tauto.
Qed.

Ltac well_formed_now :=
  solve [ apply well_formed_error; simpl; tauto
        | split; [simpl; tauto | reflexivity] ].

(** Walks through the [try] block of a handler: service calls may answer
    anything or throw, a response sent has to be well formed. *)
Ltac walk :=
  repeat (cbv zeta; cbn beta;
          match goal with
          | |- post (bind _ _) _ _ => apply post_bind_any; [intros ? ? | intros ? ?; exact I]
          | |- post (send _ _) _ _ => apply post_ret; well_formed_now
          | |- post (json _) _ _ => apply post_ret; well_formed_now
          | |- post (throw _) _ _ => exact I
          | |- post (match ?x with _ => _ end) _ _ => destruct x
          | |- post (if ?b then _ else _) _ _ => destruct b
          end).

Lemma try_block_responds (body : Async Res.t) :
  (forall w, post body w sends_or_throws) ->
  responds (try_catch body internal_error).
Proof.
  intros Hbody w. specialize (Hbody w). unfold post in Hbody. unfold try_catch.
  destruct (body w) as [[resp|e] w1]; simpl in Hbody.
  - now exists resp, w1.
  - do 2 eexists. split; [reflexivity|]. well_formed_now.
Qed.

Lemma handlers_respond r req : In r routes -> responds (handler r req).
Proof.
  unfold routes. simpl.
  intros H.
  repeat (destruct H as [<- | H];
          [ cbn [handler];
            match goal with |- responds (?h _) => unfold h end;
            first [ apply try_block_responds; intros w; walk
                  | intros w; do 2 eexists; split; [reflexivity|]; well_formed_now ]
          | ]).
  destruct H.
Qed.

Lemma authenticateToken_responds req next :
  (forall req', responds (next req')) -> responds (authenticateToken req next).
Proof.
  intros Hnext w. unfold authenticateToken.
  destruct (bearer_token (Req.authorization req)) as [token|];
    [|do 2 eexists; split; [reflexivity|]; well_formed_now].
  destruct (token =? "");
    [do 2 eexists; split; [reflexivity|]; well_formed_now|].
  unfold bind, try_catch.
  destruct (supabase.getUser token w) as [[r|e] w1]; cbn [ret].
  - destruct (error r), (data r); cbn;
      try (do 2 eexists; split; [reflexivity|]; well_formed_now).
    apply Hnext.
  - do 2 eexists; split; [reflexivity|]; well_formed_now.
Qed.

Lemma app_responds req : responds (app req).
Proof.
  intros w. unfold app. destruct (find_route routes req) as [[r ps]|] eqn:E.
  - apply find_route_In in E. unfold run_route.
    destruct (guarded r).
    + apply authenticateToken_responds. intros req'. now apply handlers_respond.
    + now apply handlers_respond.
  - do 2 eexists. split; [reflexivity|]. well_formed_now.
Qed.


(** ** What each service call does to the world *)

Lemma user_id_post req w :
  post (user_id req) w
       (fun o w1 => w1 = w /\
                    forall a, o = Returned a ->
                              exists u, Req.user req = Some u /\ a = User.id u).
Proof.
  unfold post, user_id. destruct (Req.user req) as [u|]; cbn.
  - split; [reflexivity|]. intros a [= <-]. now exists u.
  - split; [reflexivity|]. discriminate.
Qed.

Lemma gets_post {A} (f : World -> A) w :
  post (gets f) w (fun o w1 => o = Returned (f w) /\ w1 = w).
Proof. split; reflexivity. Qed.

Lemma lift_post {A} (o : Outcome A) w :
  post (lift o) w (fun o1 w1 => o1 = o /\ w1 = w).
Proof. split; reflexivity. Qed.

Lemma profile_by_id_post id w :
  post (supabase.profile_by_id id) w
       (fun o w1 =>
          w1 = record_call (Select UserProfiles) w /\
          forall r p, o = Returned r -> data r = Some p ->
                      filter (fun q => Profile.id q =? id) (user_profiles (db w)) = [p]).
Proof.
  unfold post. rewrite profile_by_id_world. split; [reflexivity|].
  unfold supabase.profile_by_id, answering, bind, call, gets.
  destruct (faults w) as [|[] ?]; cbn -[filter]; intros r p [= <-]; try discriminate.
  all: destruct (filter _ _) as [|q [|? ?]]; cbn; intros [= <-]; reflexivity.
Qed.

Ltac reads_only :=
  unfold post; apply answering_reads; intros ?; reflexivity.

Lemma vehicles_with_locations_post w :
  post supabase.vehicles_with_locations w
       (fun _ w1 => w1 = record_call (Select Vehicles) w).
Proof. reads_only. Qed.

Lemma vehicle_by_id_post id w :
  post (supabase.vehicle_by_id id) w (fun _ w1 => w1 = record_call (Select Vehicles) w).
Proof. reads_only. Qed.

Lemma active_vehicles_post w :
  post supabase.active_vehicles w (fun _ w1 => w1 = record_call (Select Vehicles) w).
Proof. reads_only. Qed.

Lemma count_active_vehicles_post w :
  post supabase.count_active_vehicles w
       (fun _ w1 => w1 = record_call (Select Vehicles) w).
Proof.
  unfold supabase.count_active_vehicles. apply post_bind.
  eapply post_weaken; [apply active_vehicles_post|].
  intros [r|e] w1 ->; reflexivity.
Qed.

Lemma latest_location_post id w :
  post (supabase.latest_location id) w
       (fun _ w1 => w1 = record_call (Select VehicleLocations) w).
Proof. reads_only. Qed.

Lemma tickets_of_user_post id w :
  post (supabase.tickets_of_user id) w (fun _ w1 => w1 = record_call (Select Tickets) w).
Proof. reads_only. Qed.

Lemma fares_between_post a b w :
  post (supabase.fares_between a b) w (fun _ w1 => w1 = record_call (Select Tickets) w).
Proof. reads_only. Qed.

Lemma signOut_post w :
  post supabase.signOut w (fun _ w1 => w1 = record_call AuthSignOut w).
Proof. reads_only. Qed.

Lemma signUp_post email password w :
  post (supabase.signUp email password) w
       (fun _ w1 => db w1 = db w /\ now w1 = now w).
Proof.
  unfold post, supabase.signUp, answering, bind, call, gets, modify.
  destruct (faults w) as [|[] ?], email, password; cbn; auto;
    destruct (existsb _ _); cbn; auto.
Qed.

Lemma signInWithPassword_post email password w :
  post (supabase.signInWithPassword email password) w
       (fun _ w1 => db w1 = db w /\ now w1 = now w).
Proof.
  unfold post, supabase.signInWithPassword, answering, bind, call, gets, modify.
  destruct (faults w) as [|[] ?], email, password; cbn; auto;
    destruct (find _ _); cbn; auto.
Qed.

Lemma insert_profile_post row w :
  post (supabase.insert_profile row) w
       (fun _ w1 => w1 = record_call (Insert UserProfiles) w \/
                    w1 = with_profile row (record_call (Insert UserProfiles) w)).
Proof.
  unfold post, supabase.insert_profile, answering, bind, call, modify.
  destruct (faults w) as [|[] ?]; cbn; auto.
Qed.

Lemma insert_location_post row w :
  post (supabase.insert_location row) w
       (fun o w1 =>
          (w1 = record_call (Insert VehicleLocations) w /\
           forall r, o = Returned r -> error r <> None) \/
          w1 = with_location row (record_call (Insert VehicleLocations) w)).
Proof.
  unfold post, supabase.insert_location, answering, bind, call, modify.
  destruct (faults w) as [|[] ?]; cbn; auto.
  all: left; split; [reflexivity|]; intros r [= <-]; discriminate.
Qed.

Lemma insert_ticket_post fare row w :
  post (supabase.insert_ticket fare row) w
       (fun _ w1 =>
          w1 = record_call (Insert Tickets) w \/
          exists amount, w1 = with_ticket (row amount) (record_call (Insert Tickets) w)).
Proof.
  unfold post, supabase.insert_ticket, answering, bind, call, modify.
  destruct (faults w) as [|[] ?], (supabase.as_numeric fare); cbn;
    first [left; reflexivity | right; eexists; reflexivity].
Qed.

Lemma activate_vehicle_post id at_ w :
  post (supabase.activate_vehicle id at_) w
       (fun _ w1 =>
          w1 = record_call (Update Vehicles) w \/
          w1 = with_vehicles (map (activated id at_) (vehicles (db w)))
                             (record_call (Update Vehicles) w)).
Proof.
  unfold post, supabase.activate_vehicle, answering, bind, call, modify.
  destruct (faults w) as [|[] ?]; cbn -[map]; auto.
Qed.

(** ** Walking through a handler, call by call *)

Ltac op_post :=
  first [ apply user_id_post | apply gets_post | apply lift_post
        | apply profile_by_id_post | apply vehicles_with_locations_post
        | apply vehicle_by_id_post | apply active_vehicles_post
        | apply count_active_vehicles_post | apply latest_location_post
        | apply tickets_of_user_post | apply fares_between_post
        | apply signOut_post | apply signUp_post | apply signInWithPassword_post
        | apply insert_profile_post | apply insert_location_post
        | apply insert_ticket_post | apply activate_vehicle_post ].

Ltac run :=
  repeat (cbv zeta; cbn beta iota;
          match goal with
          | |- post (try_catch _ _) _ _ => apply post_try_catch
          | |- post (bind _ _) _ _ =>
              apply post_bind; eapply post_weaken;
              [op_post | cbn beta; intros [?|?] ? ?]
          | |- post (send _ _) _ _ => apply post_ret
          | |- post (json _) _ _ => apply post_ret
          | |- post (throw _) _ _ => apply post_throw
          | |- post (internal_error _) _ _ => apply post_ret
          | |- post (match ?x with _ => _ end) _ _ => destruct x eqn:?
          | |- post (if ?b then _ else _) _ _ => destruct b eqn:?
          end).

Ltac tidy :=
  repeat match goal with
         | H : _ /\ _ |- _ => destruct H
         | H : ?w1 = _ |- _ => is_var w1; subst w1
         end.

Lemma reading_handlers_keep_the_world req w h :
  In h [get_health; post_auth_logout; get_vehicles; get_vehicle_location;
        get_tickets; get_routes_plan; get_staff_stats] ->
  post (h req) w (fun _ w1 => db w1 = db w /\ auth w1 = auth w).
Proof.
  simpl. intros H.
  repeat (destruct H as [<- | H];
          [ match goal with |- post (?h _) _ _ => unfold h end;
            run; tidy; split; reflexivity
          | ]).
  destruct H.
Qed.

(** ** What a request can do to the tables *)

Lemma authenticateToken_post req next w (Q : Outcome Res.t -> World -> Prop) :
  (forall resp, Q (Returned resp) w) ->
  (forall token resp, Q (Returned resp) (record_call (AuthGetUser token) w)) ->
  (forall token u,
     caller req w = Some u ->
     post (next (Req.with_user u req)) (record_call (AuthGetUser token) w) Q) ->
  post (authenticateToken req next) w Q.
Proof.
  intros H401 H403 Hnext. unfold post, authenticateToken, caller, verification in *.
  destruct (bearer_token (Req.authorization req)) as [token|]; [|apply H401].
  destruct (token =? ""); [apply H401|].
  specialize (Hnext token).
  pose proof (getUser_world token w) as Hw.
  unfold bind, try_catch.
  destruct (supabase.getUser token w) as [[r|e] w1]; cbn [snd] in Hw; subst w1; cbn.
  - destruct (error r), (data r); cbn; try apply H403. now apply Hnext.
  - apply H403.
Qed.

Lemma accepted_role v :
  negb (is_one_of v ["traveller"; "staff"]) = false ->
  to_text v = "traveller" \/ to_text v = "staff".
Proof.
  destruct v; try discriminate. cbn.
  destruct (String.eqb_spec s "traveller") as [->|_]; [now left|].
  destruct (String.eqb_spec s "staff") as [->|_]; [now right|discriminate].
Qed.

Lemma signup_effect req w :
  post (post_auth_signup req) w
       (fun _ w1 =>
          db w1 = db w \/
          exists row,
            (Profile.role row = "traveller" \/ Profile.role row = "staff") /\
            db w1 = db (with_profile row w)).
Proof.
  unfold post_auth_signup. run; tidy; auto.
  all: match goal with
       | H : _ \/ _ |- _ => destruct H as [-> | ->]
       end;
    [ left; cbn; assumption
    | right; eexists; split;
      [ | cbn; match goal with H : db _ = db _ |- _ => rewrite H end; reflexivity];
      cbn [Profile.role]; now apply accepted_role ].
Qed.

Lemma login_effect req w :
  post (post_auth_login req) w (fun _ w1 => db w1 = db w).
Proof. unfold post_auth_login. run; tidy; cbn; auto. Qed.

(** Turns what the walk has collected into plain facts. *)
Ltac facts :=
  repeat match goal with
         | H : _ /\ _ |- _ => destruct H
         | H : ?w1 = _ |- _ => is_var w1; subst w1
         | H : Returned _ = Returned _ |- _ => injection H as H; try subst
         | H : forall a, Returned ?x = Returned a -> exists u, _ |- _ =>
             destruct (H x eq_refl) as (? & ? & ?); clear H
         | H : forall r p, Returned ?x = Returned r -> data r = Some p -> _,
           E : data ?x = Some ?p |- _ =>
             specialize (H x p eq_refl E)
         | H : forall r, Returned ?x = Returned r -> error r <> None,
           E : error ?x = None |- _ =>
             now elim (H x eq_refl)
         | H : negb _ = false |- _ => apply negb_false_iff in H
         | H : _ || _ = false |- _ => apply orb_false_iff in H
         | H : (_ =? _) = true |- _ => apply String.eqb_eq in H
         | H : Some _ = Some _ |- _ => injection H as H; try subst
         | H : exists _, _ |- _ => destruct H
         end.

Lemma location_effect req w u :
  Req.user req = Some u ->
  post (post_vehicle_location req) w
       (fun _ w1 =>
          db w1 = db w \/
          exists p,
            filter (fun q => Profile.id q =? User.id u) (user_profiles (db w)) = [p] /\
            Profile.role p = "staff" /\
            truthy (prop (Req.body req) "latitude") = true /\
            truthy (prop (Req.body req) "longitude") = true /\
            let row := reported req (param req "id") (User.id u) (now w) in
            (db w1 = db (with_location row w) \/
             db w1 = db (with_vehicles
                           (map (activated (param req "id") (now w)) (vehicles (db w)))
                           (with_location row w)))).
Proof.
  intros Hu. unfold post_vehicle_location. run; facts; auto.
  all: rewrite Hu in *; facts.
  all: repeat match goal with
              | H : _ \/ _ |- _ => destruct H; facts
              end.
  all: first [ left; reflexivity
             | right; eexists; repeat (split; [eassumption|]);
               first [left; reflexivity | right; reflexivity] ].
Qed.

Lemma booking_effect req w u :
  Req.user req = Some u ->
  post (post_tickets_book req) w
       (fun _ w1 =>
          db w1 = db w \/
          exists p amount,
            filter (fun q => Profile.id q =? User.id u) (user_profiles (db w)) = [p] /\
            Profile.role p = "traveller" /\
            booking_complete req = true /\
            db w1 = db (with_ticket (booked req (User.id u) w amount) w)).
Proof.
  intros Hu. unfold post_tickets_book. run; facts; auto.
  all: rewrite Hu in *; facts.
  all: repeat match goal with
              | H : _ \/ _ |- _ => destruct H; facts
              end.
  all: first [ left; reflexivity
             | right; do 2 eexists; repeat (split; [eassumption|]);
               split; [|reflexivity];
               unfold booking_complete, booking_fields; cbn [forallb];
               repeat match goal with
                      | H : truthy _ = true |- _ => rewrite H; clear H
                      end; reflexivity ].
Qed.

Lemma caller_profiles u w token :
  profiles_of u (record_call (AuthGetUser token) w) = profiles_of u w.
Proof. reflexivity. Qed.

(** Every request leaves the tables in one of the states [Effect] lists. *)
Lemma app_effect req w : Effect req w (db (snd (app req w))).
Proof.
  change (post (app req) w (fun _ w1 => Effect req w (db w1))).
  unfold app. destruct (find_route routes req) as [[r ps]|] eqn:E;
    [|apply post_ret; exact (NoWrite req w)].
  assert (Hverb : accepts (verb r) (Req.method req) = true).
  { clear -E. induction routes as [|r' table IH]; [discriminate|].
    simpl in E. unfold route_params in E at 1.
    destruct (accepts (verb r') (Req.method req)) eqn:Ha.
    - destruct (split "/" (Req.path req)) as [|first pieces]; [now apply IH|].
      destruct (first =? ""); [|now apply IH].
      destruct (match_path (pattern r') pieces); [|now apply IH].
      now injection E as <- _.
    - now apply IH. }
  apply find_route_In in E. unfold routes in E. simpl in E.
  assert (Hread : forall h,
             In h [get_health; post_auth_logout; get_vehicles; get_vehicle_location;
                   get_tickets; get_routes_plan; get_staff_stats] ->
             forall req' w0, db w0 = db w ->
               post (h req') w0 (fun _ w1 => Effect req w (db w1))).
  { intros h Hh req' w0 Hw0.
    eapply post_weaken; [apply (reading_handlers_keep_the_world req' w0 h Hh)|].
    cbn beta. intros _ w1 [Hdb _]. rewrite Hdb, Hw0. exact (NoWrite req w). }
  assert (Hguard : forall h,
             (forall token u, caller req w = Some u ->
                post (h (Req.with_user u (Req.with_params ps req)))
                     (record_call (AuthGetUser token) w)
                     (fun _ w1 => Effect req w (db w1))) ->
             post (authenticateToken (Req.with_params ps req) h) w
                  (fun _ w1 => Effect req w (db w1))).
  { intros h Hh. apply authenticateToken_post.
    - intros _. exact (NoWrite req w).
    - intros token _. exact (NoWrite req w).
    - exact Hh. }
  unfold run_route.
  repeat (destruct E as [<- | E];
          [ cbn [guarded handler verb] in *;
            first
              [ apply Hguard; intros token u Hcaller; apply Hread; [simpl; tauto|reflexivity]
              | apply Hread; [simpl; tauto|reflexivity]
              | idtac ]
          | ]);
    [ | | | | destruct E ].
  - (* signup *)
    eapply post_weaken; [apply signup_effect|]. cbn beta.
    intros _ w1 [-> | (row & Hrole & ->)]; [exact (NoWrite req w)|].
    apply ProfileCreated; [|exact Hrole].
    destruct (Req.method req); try discriminate; reflexivity.
  - (* login *)
    eapply post_weaken; [apply login_effect|]. cbn beta.
    intros _ w1 ->. exact (NoWrite req w).
  - (* location report *)
    apply Hguard. intros token u Hcaller.
    eapply post_weaken; [apply (location_effect _ _ u); reflexivity|]. cbn beta.
    assert (Hpost : Req.method req = POST)
      by (destruct (Req.method req); try discriminate; reflexivity).
    intros _ w1 [-> | (p & Hp & Hrole & Hlat & Hlng & [-> | ->])].
    + exact (NoWrite req w).
    + eapply (LocationReported req w u p); eassumption.
    + eapply (VehicleActivated req w u p); eassumption.
  - (* booking *)
    apply Hguard. intros token u Hcaller.
    eapply post_weaken; [apply (booking_effect _ _ u); reflexivity|]. cbn beta.
    assert (Hpost : Req.method req = POST)
      by (destruct (Req.method req); try discriminate; reflexivity).
    intros _ w1 [-> | (p & amount & Hp & Hrole & Hc & ->)].
    + exact (NoWrite req w).
    + eapply (TicketBooked req w u p); eassumption.
Qed.

Lemma reading_routes_keep_the_world req w :
  Req.method req = GET \/ Req.method req = HEAD ->
  post (app req) w (fun _ w1 => db w1 = db w /\ auth w1 = auth w).
Proof.
  intros Hm. unfold app.
  destruct (find_route routes req) as [[r ps]|] eqn:E; [|split; reflexivity].
  assert (Hverb : accepts (verb r) (Req.method req) = true).
  { clear -E. induction routes as [|r' table IH]; [discriminate|].
    simpl in E. unfold route_params in E at 1.
    destruct (accepts (verb r') (Req.method req)) eqn:Ha.
    - destruct (split "/" (Req.path req)) as [|first pieces]; [now apply IH|].
      destruct (first =? ""); [|now apply IH].
      destruct (match_path (pattern r') pieces); [|now apply IH].
      now injection E as <- _.
    - now apply IH. }
  apply find_route_In in E. unfold routes in E. simpl in E. unfold run_route.
  repeat (destruct E as [<- | E];
          [ cbn [guarded handler verb] in *;
            first
              [ exfalso; destruct Hm as [Hm|Hm]; rewrite Hm in Hverb; discriminate
              | apply authenticateToken_post;
                [ intros _; split; reflexivity
                | intros token _; split; reflexivity
                | intros token u _;
                  eapply post_weaken;
                  [ apply reading_handlers_keep_the_world; simpl; tauto
                  | cbn beta; intros _ w1 [-> ->]; split; reflexivity ] ]
              | apply reading_handlers_keep_the_world; simpl; tauto ]
          | ]).
  destruct E.
Qed.

(** X9.  A GET or HEAD request never writes: whatever the path, the token
    and the service's behaviour, the tables and the auth service's state are
    the same after the request as before. *)
Theorem reads_never_write :
  forall req w,
    Req.method req = GET \/ Req.method req = HEAD ->
    db (snd (app req w)) = db w /\ auth (snd (app req w)) = auth w.
Proof. intros req w Hm. exact (reading_routes_keep_the_world req w Hm). Qed.

Lemma reads_never_write_witness :
  db (snd (app Scenario.stats_request Scenario.world)) = db Scenario.world /\
  auth (snd (app Scenario.stats_request Scenario.world)) = auth Scenario.world.
Proof. apply reads_never_write. left. reflexivity. Defined.

(** X10.  A request leaves vehicle_locations as it was, or appends exactly
    one row to it; in that case the request carries a verified token, the
    identity it verifies as has exactly one profile row, with role 'staff',
    and the new row is stamped with that identity and the clock and has
    truthy coordinates. *)
Theorem location_rows_come_from_staff_reports :
  forall req w,
    vehicle_locations (db (snd (app req w))) = vehicle_locations (db w) \/
    exists u p row,
      caller req w = Some u /\ profiles_of u w = [p] /\ Profile.role p = "staff" /\
      vehicle_locations (db (snd (app req w))) = (vehicle_locations (db w) ++ [row])%list /\
      Location.updated_by row = User.id u /\
      Location.created_at row = now w /\
      truthy (Location.latitude row) = true /\
      truthy (Location.longitude row) = true.
Proof.
  intros req w.
  destruct (app_effect req w) as [ | row | u p id | u p id | u p amount ];
    try (left; reflexivity).
  all: right; exists u, p, (reported req id (User.id u) (now w));
    repeat split; assumption.
Qed.

(** X11.  A request leaves tickets as it was, or appends exactly one row to
    it; in that case the request is a complete booking carrying a verified
    token, the identity it verifies as has exactly one profile row, with
    role 'traveller', and the new row belongs to that identity, is
    confirmed and carries the identifier generated from the clock and the
    random source. *)
Theorem ticket_rows_come_from_traveller_bookings :
  forall req w,
    tickets (db (snd (app req w))) = tickets (db w) \/
    exists u p row,
      caller req w = Some u /\ profiles_of u w = [p] /\ Profile.role p = "traveller" /\
      booking_complete req = true /\
      tickets (db (snd (app req w))) = (tickets (db w) ++ [row])%list /\
      Ticket.user_id row = User.id u /\
      Ticket.booking_status row = "confirmed" /\
      Ticket.ticket_id row = ticketId (now w) (random w) /\
      Ticket.created_at row = now w.
Proof.
  intros req w.
  destruct (app_effect req w) as [ | row | u p id | u p id | u p amount ];
    try (left; reflexivity).
  right. exists u, p, (booked req (User.id u) w amount).
  repeat split; assumption.
Qed.

(** X12.  A request leaves user_profiles as it was, or appends exactly one
    row to it, whose role is 'traveller' or 'staff'; only a POST request can
    do so. *)
Theorem profile_rows_come_from_signups :
  forall req w,
    user_profiles (db (snd (app req w))) = user_profiles (db w) \/
    exists row,
      Req.method req = POST /\
      user_profiles (db (snd (app req w))) = (user_profiles (db w) ++ [row])%list /\
      (Profile.role row = "traveller" \/ Profile.role row = "staff").
Proof.
  intros req w.
  destruct (app_effect req w) as [ | row | u p id | u p id | u p amount ];
    try (left; reflexivity).
  right. exists row. repeat split; assumption.
Qed.

Lemma activated_id id at_ v : Vehicle.id (activated id at_ v) = Vehicle.id v.
Proof. unfold activated. destruct (Vehicle.id v =? id); reflexivity. Qed.

Lemma activated_route id at_ v :
  Vehicle.route_name (activated id at_ v) = Vehicle.route_name v.
Proof. unfold activated. destruct (Vehicle.id v =? id); reflexivity. Qed.

(** X13.  No request adds, removes, reorders or renames a vehicle: the ids
    and the route names of the vehicles table are the same after any request.
    The table changes at all only through the position report of a staff
    caller, which sets the status of the rows with the reported id to
    'active' and their updated_at to the clock. *)
Theorem vehicles_are_only_activated :
  forall req w,
    map Vehicle.id (vehicles (db (snd (app req w)))) = map Vehicle.id (vehicles (db w)) /\
    map Vehicle.route_name (vehicles (db (snd (app req w))))
      = map Vehicle.route_name (vehicles (db w)) /\
    (vehicles (db (snd (app req w))) = vehicles (db w) \/
     exists u p id,
       caller req w = Some u /\ profiles_of u w = [p] /\ Profile.role p = "staff" /\
       vehicles (db (snd (app req w))) = map (activated id (now w)) (vehicles (db w))).
Proof.
  intros req w.
  destruct (app_effect req w) as [ | row | u p id | u p id | u p amount ];
    try (repeat split; left; reflexivity).
  cbn [db with_vehicles with_db vehicles].
  rewrite !map_map.
  split; [apply map_ext; intros; apply activated_id|].
  split; [apply map_ext; intros; apply activated_route|].
  right. exists u, p, id. repeat split; assumption.
Qed.

(** ** Invariants of the tables *)

Lemma valid_tables_step req w :
  valid_tables (db w) -> valid_tables (db (snd (app req w))).
Proof.
  intros (Hp & Hl & Ht).
  destruct (app_effect req w) as [ | row | u p id | u p id | u p amount ];
    unfold valid_tables; cbn [db with_profile with_location with_ticket with_vehicles
                              with_db user_profiles vehicle_locations tickets];
    repeat split; try assumption.
  all: apply Forall_app; split; [assumption|];
    apply Forall_cons; [|constructor];
    first [assumption | split; assumption | reflexivity].
Qed.

(** X14.  Starting from tables in which every profile has the role
    'traveller' or 'staff', every location row has truthy coordinates and
    every ticket is confirmed, the tables are still so after any sequence of
    requests, whatever the clock, the random source and the service do in
    between. *)
Theorem served_tables_stay_valid :
  forall arrivals w,
    valid_tables (db w) -> valid_tables (db (serve arrivals w)).
Proof.
  induction arrivals as [|a rest IH]; intros w Hw; [exact Hw|].
  cbn [serve]. apply IH. apply valid_tables_step. exact Hw.
Qed.

Lemma served_tables_stay_valid_witness :
  valid_tables
    (db (serve [ {| request := Scenario.report_as "tok-bob"; clock := Scenario.clock + 5;
                    entropy := [7; 7; 7; 7; 7; 7]; service := [] |};
                 {| request := Scenario.book_as "tok-alice" Scenario.booking;
                    clock := Scenario.clock + 9;
                    entropy := [1; 2; 3; 4; 5; 6]; service := [] |} ]
                Scenario.world)).
Proof.
  apply served_tables_stay_valid.
  repeat split;
    repeat (apply Forall_cons;
            [first [left; reflexivity | right; reflexivity
                   | split; reflexivity | reflexivity]|]);
    apply Forall_nil.
Defined.

(** ** Staff statistics, in general *)

Lemma range_selects clock t :
  (at_T00_00_00 (today clock) <=? Ticket.created_at t)%Z &&
  (Ticket.created_at t <? at_T23_59_59 (today clock))%Z
  = created_today clock t && negb (in_last_second clock t).
Proof.
  unfold in_last_second, created_today, at_T00_00_00, at_T23_59_59, today, ms_per_day.
  generalize (Ticket.created_at t). intros c.
  destruct (Z.eqb_spec (c / 86400000) (clock / 86400000)) as [E|E];
    destruct (Z.leb_spec (clock / 86400000 * 86400000) c);
    destruct (Z.ltb_spec c (clock / 86400000 * 86400000 + 86399000));
    destruct (Z.leb_spec (clock / 86400000 * 86400000 + 86399000) c);
    simpl in *; try reflexivity; exfalso;
    Z.div_mod_to_equations; lia.
Qed.

(** X7.  For an authenticated staff caller and answered queries, GET
    /api/staff/stats counts the ticket rows created on the current UTC day
    before 23:59:59: passengers is their number and, the magnitudes of
    their fares adding up to no more than 2^53, revenue the sum of their
    fares, so a ticket created in the last second of the day is left out;
    trips is floor(passengers / 18) and activeVehicles the number of vehicle
    rows with status 'active'. *)
Theorem staff_stats_stop_at_the_last_second :
  forall req w u w1 profileData w2,
    Req.method req = GET ->
    Req.path req = "/api/staff/stats" ->
    authenticated req w u w1 ->
    supabase.profile_by_id (User.id u) w1 = (Returned (fulfilled profileData), w2) ->
    Profile.role profileData = "staff" ->
    disposition 0 w2 = Healthy ->
    disposition 1 w2 = Healthy ->
    safely_summed (map Ticket.fare_amount (counted_tickets w)) ->
    fst (app req w) =
      Returned
        {| Res.status := 200;
           Res.body := StatsBody
             {| TodayStats.passengers := List.length (counted_tickets w);
                TodayStats.revenue := total (map Ticket.fare_amount (counted_tickets w));
                TodayStats.trips := (Z.of_nat (List.length (counted_tickets w)) / 18)%Z;
                TodayStats.hours_tenths := 62;
                TodayStats.activeVehicles :=
                  List.length (filter (fun v => Vehicle.status v =? "active")
                                      (vehicles (db w))) |} |}.
Proof.
  intros req w u w1 p w2 Hm Hp Hauth Hlook Hrole Hd0 Hd1 Hsafe.
  rewrite (route_get_stats req Hm Hp).
  rewrite (guarded_handler_runs _ _ _ _ Hauth).
  destruct (authenticated_world _ _ _ _ Hauth) as [token Hw1].
  pose proof (profile_by_id_world (User.id u) w1) as Hw2.
  rewrite Hlook in Hw2. simpl in Hw2.
  assert (Hdb : db w2 = db w) by (subst w2 w1; reflexivity).
  assert (Hnow : now w2 = now w) by (subst w2 w1; reflexivity).
  unfold get_staff_stats, try_catch, bind, user_id, json, send.
  cbn [Req.user Req.with_user Req.with_params ret].
  rewrite Hlook. cbn [data fulfilled]. rewrite Hrole.
  cbn [String.eqb Ascii.eqb Bool.eqb negb].
  unfold gets. rewrite fares_between_answer, Hd0.
  unfold supabase.count_active_vehicles, bind.
  rewrite active_vehicles_healthy by (now rewrite disposition_after_call).
  cbn [fst data fulfilled option_map ret].
  change (db (record_call (Select Tickets) w2)) with (db w2).
  rewrite Hdb, Hnow.
  rewrite (filter_ext _ _ (range_selects (now w))).
  fold (counted_tickets w).
  rewrite or_zero_id, (safe_sum _ Hsafe), !length_map. reflexivity.
Qed.

Lemma staff_stats_stop_at_the_last_second_witness :
  exists stats,
    fst (app Scenario.stats_request Scenario.late_evening) =
      Returned {| Res.status := 200; Res.body := StatsBody stats |} /\
    List.length (todays_tickets Scenario.late_evening) = 1%nat /\
    TodayStats.passengers stats = 0%nat.
Proof.
  eexists. split.
  - apply (staff_stats_stop_at_the_last_second
             Scenario.stats_request Scenario.late_evening Scenario.bob
             (record_call (AuthGetUser "tok-bob") Scenario.late_evening)
             (Scenario.profile Scenario.bob "staff")
             (record_call (Select UserProfiles)
                (record_call (AuthGetUser "tok-bob") Scenario.late_evening)));
      try reflexivity.
    + exists "tok-bob". split; [reflexivity|]. split; [discriminate|reflexivity].
    + vm_compute. discriminate.
  - split; reflexivity.
Defined.

(** ** Login *)

Lemma route_post_login req :
  Req.method req = POST -> Req.path req = "/api/auth/login" ->
  app req = post_auth_login (Req.with_params [] req).
Proof. route_by_computation. Qed.

(** X15.  A login lacking the email or the password is answered with 400
    before any call.  A login the auth service refuses is answered with 401
    and the fixed text 'Invalid credentials', whatever error the service
    reports, and the profile table is not consulted. *)
Theorem login_failures :
  forall req w,
    Req.method req = POST ->
    Req.path req = "/api/auth/login" ->
    let email := prop (Req.body req) "email" in
    let password := prop (Req.body req) "password" in
    (truthy email && truthy password = false ->
     app req w =
       (Returned {| Res.status := 400;
                    Res.body := ErrorBody "Email and password are required" |}, w))
    /\
    (truthy email && truthy password = true ->
     forall r w1 reason,
       supabase.signInWithPassword email password w = (Returned r, w1) ->
       error r = Some reason ->
       app req w =
         (Returned {| Res.status := 401; Res.body := ErrorBody "Invalid credentials" |},
          w1)).
Proof.
  intros req w Hm Hp email password. subst email password.
  rewrite (route_post_login req Hm Hp).
  unfold post_auth_login, try_catch, bind. cbn [Req.body Req.with_params].
  split.
  - intros H.
    destruct (truthy (prop (Req.body req) "email")),
      (truthy (prop (Req.body req) "password")); try discriminate; reflexivity.
  - intros H r w1 reason Hsign Herr.
    apply andb_true_iff in H as [-> ->]. cbn [negb orb].
    rewrite Hsign, Herr. reflexivity.
Qed.

Lemma login_failures_witness :
  app (Scenario.request POST "/api/auth/login" None [("email", JStr "alice@example.org")] [])
      Scenario.world =
    (Returned {| Res.status := 400;
                 Res.body := ErrorBody "Email and password are required" |},
     Scenario.world)
  /\
  fst (app (Scenario.request POST "/api/auth/login" None
              [("email", JStr "alice@example.org"); ("password", JStr "guess")] [])
           Scenario.world) =
    Returned {| Res.status := 401; Res.body := ErrorBody "Invalid credentials" |}.
Proof.
  split.
  - refine (proj1 (login_failures
                     (Scenario.request POST "/api/auth/login" None
                        [("email", JStr "alice@example.org")] [])
                     Scenario.world eq_refl eq_refl) eq_refl).
  - erewrite (proj2 (login_failures
                       (Scenario.request POST "/api/auth/login" None
                          [("email", JStr "alice@example.org");
                           ("password", JStr "guess")] [])
                       Scenario.world eq_refl eq_refl) eq_refl);
      reflexivity.
Defined.

(** X16.  When the auth service accepts the credentials, the login answers
    with the identity's id and email, the name and role of its profile row
    and the session; when the profile lookup comes back with an error (no
    row, or several), the answer is 500 although the credentials were
    right. *)
Theorem login_reads_the_profile :
  forall req w authUser session w1 found w2,
    Req.method req = POST ->
    Req.path req = "/api/auth/login" ->
    truthy (prop (Req.body req) "email") = true ->
    truthy (prop (Req.body req) "password") = true ->
    supabase.signInWithPassword (prop (Req.body req) "email")
                                (prop (Req.body req) "password") w
      = (Returned (fulfilled (authUser, session)), w1) ->
    supabase.profile_by_id (User.id authUser) w1 = (Returned found, w2) ->
    app req w =
      (Returned
         match error found, data found with
         | Some _, _ =>
             {| Res.status := 500; Res.body := ErrorBody "Failed to fetch user profile" |}
         | None, Some profileData =>
             {| Res.status := 200;
                Res.body := SessionBody
                  {| UserSummary.id := User.id authUser;
                     UserSummary.email := User.email authUser;
                     UserSummary.name := Profile.name profileData;
                     UserSummary.role := JStr (Profile.role profileData) |} session |}
         | None, None =>
             {| Res.status := 500; Res.body := ErrorBody "Internal server error" |}
         end, w2).
Proof.
  intros req w authUser session w1 found w2 Hm Hp He Hpw Hsign Hlook.
  rewrite (route_post_login req Hm Hp).
  unfold post_auth_login, try_catch, bind. cbn [Req.body Req.with_params].
  rewrite He, Hpw. cbn [negb orb].
  rewrite Hsign. cbn [error data fulfilled]. rewrite Hlook.
  destruct (error found), (data found); reflexivity.
Qed.

Lemma login_reads_the_profile_witness :
  fst (app Scenario.login_as_alice Scenario.registered) =
    Returned {| Res.status := 200;
                Res.body := SessionBody
                  {| UserSummary.id := "u-alice";
                     UserSummary.email := "alice@example.org";
                     UserSummary.name := JStr "name";
                     UserSummary.role := JStr "traveller" |} "session-3" |}.
Proof.
  rewrite (login_reads_the_profile
             Scenario.login_as_alice Scenario.registered Scenario.alice "session-3"
             (snd (supabase.signInWithPassword (JStr "alice@example.org") (JStr "secret")
                     Scenario.registered))
             (fulfilled (Scenario.profile Scenario.alice "traveller"))
             (record_call (Select UserProfiles)
                (snd (supabase.signInWithPassword (JStr "alice@example.org")
                        (JStr "secret") Scenario.registered)))
             eq_refl eq_refl eq_refl eq_refl eq_refl eq_refl).
  reflexivity.
Defined.

(** ** Signup *)

Lemma signup_completed req :
  signup_complete req = true ->
  negb (truthy (prop (Req.body req) "email"))
  || negb (truthy (prop (Req.body req) "password"))
  || negb (truthy (prop (Req.body req) "name"))
  || negb (truthy (prop (Req.body req) "phone"))
  || negb (truthy (prop (Req.body req) "role")) = false.
Proof.
  unfold signup_complete, signup_fields. simpl.
  destruct (truthy (prop (Req.body req) "email")),
    (truthy (prop (Req.body req) "password")),
    (truthy (prop (Req.body req) "name")),
    (truthy (prop (Req.body req) "phone")),
    (truthy (prop (Req.body req) "role")); simpl; congruence.
Qed.

Lemma insert_profile_answer row w :
  supabase.insert_profile row w =
    match disposition 0 w with
    | Healthy => (Returned (fulfilled [row]),
                  with_profile row (record_call (Insert UserProfiles) w))
    | Refuses => (Returned (refused "service unavailable"),
                  record_call (Insert UserProfiles) w)
    | Crashes => (Thrown "fetch failed", record_call (Insert UserProfiles) w)
    end.
Proof.
  unfold disposition, supabase.insert_profile, answering, bind, call, modify.
  destruct (faults w) as [|[] ?]; reflexivity.
Qed.

(** X17.  A complete signup with the role 'traveller' or 'staff' that the
    auth service accepts writes one profile row for the new identity, with
    the requested role and the fields of the request, and is answered with
    201, the identity and the session. *)
Theorem signup_creates_the_profile :
  forall req w authUser session w1,
    Req.method req = POST ->
    Req.path req = "/api/auth/signup" ->
    signup_complete req = true ->
    is_one_of (prop (Req.body req) "role") ["traveller"; "staff"] = true ->
    supabase.signUp (prop (Req.body req) "email") (prop (Req.body req) "password") w
      = (Returned (fulfilled (authUser, session)), w1) ->
    disposition 0 w1 = Healthy ->
    app req w =
      (Returned
         {| Res.status := 201;
            Res.body := SessionBody
              {| UserSummary.id := User.id authUser;
                 UserSummary.email := User.email authUser;
                 UserSummary.name := prop (Req.body req) "name";
                 UserSummary.role := prop (Req.body req) "role" |} session |},
       with_profile (signed_up req authUser (now w1))
                    (record_call (Insert UserProfiles) w1)).
Proof.
  intros req w authUser session w1 Hm Hp Hc Hrole Hsign Hd.
  rewrite (route_post_signup req Hm Hp).
  unfold post_auth_signup, try_catch, bind, gets. cbn [Req.body Req.with_params].
  rewrite (signup_completed req Hc), Hrole. cbn [negb].
  rewrite Hsign. cbn [error data fulfilled].
  rewrite insert_profile_answer, Hd. reflexivity.
Qed.

Lemma signup_creates_the_profile_witness :
  exists w',
    app Scenario.signup_as_traveller Scenario.world =
      (Returned
         {| Res.status := 201;
            Res.body := SessionBody
              {| UserSummary.id := "user-0";
                 UserSummary.email := "dave@example.org";
                 UserSummary.name := JStr "Dave";
                 UserSummary.role := JStr "traveller" |} "session-3" |}, w') /\
    map Profile.id (user_profiles (db w')) = ["u-alice"; "u-bob"; "user-0"].
Proof.
  eexists. split.
  - apply (signup_creates_the_profile
             Scenario.signup_as_traveller Scenario.world Scenario.dave "session-3"
             (snd (supabase.signUp (JStr "dave@example.org") (JStr "secret")
                     Scenario.world)));
      reflexivity.
  - reflexivity.
Defined.

(** X18.  The two writes of a signup are not atomic: when the auth service
    has accepted the signup and the profile insert then fails, the answer is
    500 and the handler makes no further call, so the state the auth service
    reached by creating the identity stays as it is, without a profile row. *)
Theorem signup_leaves_the_identity_without_profile :
  forall req w authUser session w1,
    Req.method req = POST ->
    Req.path req = "/api/auth/signup" ->
    signup_complete req = true ->
    is_one_of (prop (Req.body req) "role") ["traveller"; "staff"] = true ->
    supabase.signUp (prop (Req.body req) "email") (prop (Req.body req) "password") w
      = (Returned (fulfilled (authUser, session)), w1) ->
    disposition 0 w1 = Refuses ->
    exists w',
      app req w =
        (Returned {| Res.status := 500;
                     Res.body := ErrorBody "Failed to create user profile" |}, w') /\
      auth w' = auth w1 /\
      db w' = db w1 /\
      calls w' = (calls w1 ++ [Insert UserProfiles])%list.
Proof.
  intros req w authUser session w1 Hm Hp Hc Hrole Hsign Hd.
  rewrite (route_post_signup req Hm Hp).
  unfold post_auth_signup, try_catch, bind, gets. cbn [Req.body Req.with_params].
  rewrite (signup_completed req Hc), Hrole. cbn [negb].
  rewrite Hsign. cbn [error data fulfilled].
  rewrite insert_profile_answer, Hd. cbn [error refused].
  eexists. split; [reflexivity|]. repeat split.
Qed.

Lemma signup_leaves_the_identity_without_profile_witness :
  exists w',
    app Scenario.signup_as_traveller (Scenario.failing [Healthy; Refuses]) =
      (Returned {| Res.status := 500;
                   Res.body := ErrorBody "Failed to create user profile" |}, w') /\
    map login_email (accounts (auth w')) = ["dave@example.org"] /\
    user_profiles (db w') = user_profiles (db Scenario.world).
Proof.
  destruct (signup_leaves_the_identity_without_profile
              Scenario.signup_as_traveller (Scenario.failing [Healthy; Refuses])
              Scenario.dave "session-3"
              (snd (supabase.signUp (JStr "dave@example.org") (JStr "secret")
                      (Scenario.failing [Healthy; Refuses])))
              eq_refl eq_refl eq_refl eq_refl eq_refl eq_refl)
    as (w' & Happ & Hauth & Hdb & _).
  exists w'. split; [exact Happ|]. rewrite Hauth, Hdb. split; reflexivity.
Defined.

(** ** Edges of the route planner *)

Lemma lowered_non_string v :
  truthy_non_string v = true -> exists e, lowered v = Thrown e.
Proof.
  unfold truthy_non_string. destruct v; rewrite ?andb_false_r; try discriminate;
    intros _; eexists; reflexivity.
Qed.

(** X19.  When [from] is truthy and not a string (a repeated query
    parameter is parsed to an array), the filter callback throws at the first
    vehicle it is called on: with an answered query the journey is answered
    with 500 as soon as one vehicle is active, and with 200 and no route
    when none is. *)
Theorem plan_with_a_non_string_from :
  forall req w u w1,
    Req.method req = GET ->
    Req.path req = "/api/routes/plan" ->
    authenticated req w u w1 ->
    truthy_non_string (prop (Req.query req) "from") = true ->
    truthy (prop (Req.query req) "to") = true ->
    disposition 0 w1 = Healthy ->
    fst (app req w) =
      match filter (fun v => Vehicle.status v =? "active") (vehicles (db w)) with
      | [] =>
          Returned {| Res.status := 200;
                      Res.body := PlanBody
                        {| Plan.from := prop (Req.query req) "from";
                           Plan.to := prop (Req.query req) "to";
                           Plan.routes := []; Plan.totalOptions := 0 |} |}
      | _ :: _ =>
          Returned {| Res.status := 500; Res.body := ErrorBody "Internal server error" |}
      end.
Proof.
  intros req w u w1 Hm Hp Hauth Hfrom Hto Hh.
  rewrite (route_get_plan req Hm Hp).
  rewrite (guarded_handler_runs _ _ _ _ Hauth).
  unfold get_routes_plan, try_catch, bind, lift, json, send.
  cbn [Req.query Req.with_user Req.with_params ret].
  destruct (lowered_non_string _ Hfrom) as [e He].
  unfold truthy_non_string in Hfrom. apply andb_true_iff in Hfrom as [Hfrom _].
  rewrite Hfrom, Hto. cbn [negb orb].
  rewrite (active_vehicles_healthy w1 Hh). cbn [error data fulfilled].
  rewrite (authenticated_db _ _ _ _ Hauth).
  destruct (filter _ (vehicles (db w))) as [|v rest]; [reflexivity|].
  cbn [filter_throwing]. unfold serves at 1. rewrite He. reflexivity.
Qed.

Lemma plan_with_a_non_string_from_witness :
  fst (app (Scenario.request GET "/api/routes/plan" (Some "Bearer tok-alice") []
              [("from", JArr [JStr "Airport"; JStr "City"]); ("to", JStr "City")])
           Scenario.world) =
    Returned {| Res.status := 500; Res.body := ErrorBody "Internal server error" |}.
Proof.
  apply (plan_with_a_non_string_from
           (Scenario.request GET "/api/routes/plan" (Some "Bearer tok-alice") []
              [("from", JArr [JStr "Airport"; JStr "City"]); ("to", JStr "City")])
           Scenario.world Scenario.alice (Scenario.verified "tok-alice"));
    try reflexivity.
  apply scenario_authenticated. simpl. tauto.
Defined.

(** ** Edges of the position report *)

Lemma insert_location_answer row w :
  supabase.insert_location row w =
    match disposition 0 w with
    | Healthy => (Returned (fulfilled [row]),
                  with_location row (record_call (Insert VehicleLocations) w))
    | Refuses => (Returned (refused "service unavailable"),
                  record_call (Insert VehicleLocations) w)
    | Crashes => (Thrown "fetch failed", record_call (Insert VehicleLocations) w)
    end.
Proof.
  unfold disposition, supabase.insert_location, answering, bind, call, modify.
  destruct (faults w) as [|[] ?]; reflexivity.
Qed.

Lemma activate_vehicle_refused id at_ w :
  disposition 0 w = Refuses ->
  supabase.activate_vehicle id at_ w =
    (Returned (refused "service unavailable"), record_call (Update Vehicles) w).
Proof.
  unfold disposition, supabase.activate_vehicle, answering, bind, call, modify.
  destruct (faults w) as [|[] ?]; cbn -[map]; intros H; try discriminate; reflexivity.
Qed.

(** X20.  The position report does not look at the outcome of the status
    update: for an id that holds no percent escape, when the location
    insert succeeds and the update of the vehicle comes back with an error,
    the answer is still 200, the location row is there and the vehicles
    table is as it was. *)
Theorem failed_activation_goes_unnoticed :
  forall req id w u w1 profileData w2,
    Req.method req = POST ->
    Req.path req = "/api/vehicles/" ++ id ++ "/location" ->
    is_segment id = true ->
    percent_free id = true ->
    authenticated req w u w1 ->
    supabase.profile_by_id (User.id u) w1 = (Returned (fulfilled profileData), w2) ->
    Profile.role profileData = "staff" ->
    truthy (prop (Req.body req) "latitude") = true ->
    truthy (prop (Req.body req) "longitude") = true ->
    disposition 0 w2 = Healthy ->
    disposition 1 w2 = Refuses ->
    exists w' row,
      app req w =
        (Returned {| Res.status := 200;
                     Res.body := LocationAckBody
                       {| LocationAck.vehicleId := id;
                          LocationAck.latitude := prop (Req.body req) "latitude";
                          LocationAck.longitude := prop (Req.body req) "longitude";
                          LocationAck.timestamp := Location.created_at row |} |}, w') /\
      vehicle_locations (db w') = (vehicle_locations (db w) ++ [row])%list /\
      Location.vehicle_id row = id /\
      Location.updated_by row = User.id u /\
      vehicles (db w') = vehicles (db w).
Proof.
  intros req id w u w1 p w2 Hm Hp Hid _ Hauth Hlook Hrole Hlat Hlng Hd0 Hd1.
  rewrite (route_post_location req id Hm Hp Hid).
  rewrite (guarded_handler_runs _ _ _ _ Hauth).
  destruct (authenticated_world _ _ _ _ Hauth) as [token Hw1].
  pose proof (profile_by_id_world (User.id u) w1) as Hw2.
  rewrite Hlook in Hw2. simpl in Hw2.
  unfold post_vehicle_location, try_catch, bind, user_id, param, gets.
  cbn [Req.user Req.body Req.params Req.with_user Req.with_params ret
       find fst String.eqb Ascii.eqb Bool.eqb].
  rewrite Hlook. cbn [data fulfilled]. rewrite Hrole, Hlat, Hlng.
  cbn [String.eqb Ascii.eqb Bool.eqb negb orb].
  rewrite insert_location_answer, Hd0. cbn [error data fulfilled].
  rewrite activate_vehicle_refused
    by (change (disposition 0 (record_call (Insert VehicleLocations) w2) = Refuses);
        now rewrite disposition_after_call).
  subst w2 w1.
  eexists _, (reported req id (User.id u) (now w)).
  split; [reflexivity|]. repeat split.
Qed.

Lemma failed_activation_goes_unnoticed_witness :
  exists w',
    fst (app (Scenario.report_as "tok-bob")
             (Scenario.failing [Healthy; Healthy; Healthy; Refuses])) =
      Returned {| Res.status := 200;
                  Res.body := LocationAckBody
                    {| LocationAck.vehicleId := "1";
                       LocationAck.latitude := JNum 12;
                       LocationAck.longitude := JNum 22;
                       LocationAck.timestamp := Scenario.clock |} |} /\
    snd (app (Scenario.report_as "tok-bob")
             (Scenario.failing [Healthy; Healthy; Healthy; Refuses])) = w' /\
    vehicles (db w') = vehicles (db Scenario.world).
Proof.
  destruct (failed_activation_goes_unnoticed
              (Scenario.report_as "tok-bob") "1"
              (Scenario.failing [Healthy; Healthy; Healthy; Refuses]) Scenario.bob
              (record_call (AuthGetUser "tok-bob")
                 (Scenario.failing [Healthy; Healthy; Healthy; Refuses]))
              (Scenario.profile Scenario.bob "staff")
              (record_call (Select UserProfiles)
                 (record_call (AuthGetUser "tok-bob")
                    (Scenario.failing [Healthy; Healthy; Healthy; Refuses])))
              eq_refl eq_refl eq_refl eq_refl
              ltac:(exists "tok-bob"; split; [reflexivity|];
                    split; [discriminate|reflexivity])
              eq_refl eq_refl eq_refl eq_refl eq_refl eq_refl)
    as (w' & row & Happ & _ & _ & _ & Hveh).
  exists w'. split; [reflexivity|]. split; [|exact Hveh].
  now rewrite Happ.
Defined.

(** X21.  A position report of a staff caller, for an id that holds no
    percent escape, whose latitude or longitude is falsy is answered with
    400 and writes nothing; this includes the
    coordinate 0, so a position on the equator or on the prime meridian
    cannot be reported. *)
Theorem falsy_coordinates_are_rejected :
  forall req id w u w1 profileData w2,
    Req.method req = POST ->
    Req.path req = "/api/vehicles/" ++ id ++ "/location" ->
    is_segment id = true ->
    percent_free id = true ->
    authenticated req w u w1 ->
    supabase.profile_by_id (User.id u) w1 = (Returned (fulfilled profileData), w2) ->
    Profile.role profileData = "staff" ->
    truthy (prop (Req.body req) "latitude") && truthy (prop (Req.body req) "longitude")
      = false ->
    app req w =
      (Returned {| Res.status := 400;
                   Res.body := ErrorBody "Latitude and longitude are required" |}, w2) /\
    db w2 = db w.
Proof.
  intros req id w u w1 p w2 Hm Hp Hid _ Hauth Hlook Hrole Hfalsy.
  rewrite (route_post_location req id Hm Hp Hid).
  rewrite (guarded_handler_runs _ _ _ _ Hauth).
  destruct (authenticated_world _ _ _ _ Hauth) as [token Hw1].
  pose proof (profile_by_id_world (User.id u) w1) as Hw2.
  rewrite Hlook in Hw2. simpl in Hw2.
  split; [|subst w2 w1; reflexivity].
  unfold post_vehicle_location, try_catch, bind, user_id, param, gets.
  cbn [Req.user Req.body Req.params Req.with_user Req.with_params ret
       find fst String.eqb Ascii.eqb Bool.eqb].
  rewrite Hlook. cbn [data fulfilled]. rewrite Hrole.
  cbn [String.eqb Ascii.eqb Bool.eqb negb].
  destruct (truthy (prop (Req.body req) "latitude")),
    (truthy (prop (Req.body req) "longitude")); try discriminate; reflexivity.
Qed.

Lemma falsy_coordinates_are_rejected_witness :
  fst (app (Scenario.request POST "/api/vehicles/1/location" (Some "Bearer tok-bob")
              [("latitude", JNum 0); ("longitude", JNum 22)] [])
           Scenario.world) =
    Returned {| Res.status := 400;
                Res.body := ErrorBody "Latitude and longitude are required" |}.
Proof.
  rewrite (proj1 (falsy_coordinates_are_rejected
                    (Scenario.request POST "/api/vehicles/1/location"
                       (Some "Bearer tok-bob")
                       [("latitude", JNum 0); ("longitude", JNum 22)] [])
                    "1" Scenario.world Scenario.bob (Scenario.verified "tok-bob")
                    (Scenario.profile Scenario.bob "staff")
                    (record_call (Select UserProfiles) (Scenario.verified "tok-bob"))
                    eq_refl eq_refl eq_refl eq_refl
                    ltac:(apply scenario_authenticated; simpl; tauto)
                    eq_refl eq_refl eq_refl)).
  reflexivity.
Defined.

(** * The web client against the server *)

(** ** The token on its way to the middleware *)

Lemma split_spaceless t : Client.spaceless t = true -> split " " t = [t].
Proof.
  unfold Client.spaceless. induction t as [|c t IH]; [reflexivity|].
  cbn [all_chars split]. intros H. apply andb_true_iff in H as [Hc Ht].
  apply negb_true_iff in Hc. rewrite Hc, (IH Ht). reflexivity.
Qed.

Lemma bearer_of_header t :
  t <> "" -> Client.spaceless t = true ->
  bearer_token (Client.authorization (Some t)) = Some t.
Proof.
  intros Hne Hsp. unfold Client.authorization.
  apply String.eqb_neq in Hne. rewrite Hne.
  unfold bearer_token. cbn [append String.eqb split Ascii.eqb Bool.eqb].
  rewrite (split_spaceless t Hsp). reflexivity.
Qed.

(** X22.  The Authorization header the client builds from a token that is
    not empty and holds no space is read back by the middleware of the
    server as that very token. *)
Theorem client_token_reaches_the_middleware :
  forall endpoint method body t,
    t <> "" -> Client.spaceless t = true ->
    bearer_token (Req.authorization (Client.sent endpoint method body (Some t)))
      = Some t.
Proof. intros endpoint method body t Hne Hsp. now apply bearer_of_header. Qed.

Lemma client_token_reaches_the_middleware_witness :
  bearer_token (Req.authorization (Client.sent "/vehicles" GET None (Some "tok-alice")))
    = Some "tok-alice".
Proof.
  apply (client_token_reaches_the_middleware "/vehicles" GET None "tok-alice");
    [discriminate | reflexivity].
Defined.

(** ** What a call of the API comes to *)

Lemma status_text_not_empty n : "HTTP error! Status: " ++ n <> "".
Proof. discriminate. Qed.

Lemma failure_not_empty resp : Client.failure resp <> "".
Proof.
  unfold Client.failure.
  destruct (Res.body resp) as [message| | | | | | | | | | ];
    try apply status_text_not_empty.
  destruct (String.eqb_spec message ""); [apply status_text_not_empty | assumption].
Qed.

Lemma ok_well_formed resp :
  well_formed resp -> Client.ok resp = negb (is_error_body (Res.body resp)).
Proof.
  intros [Hin ->]. unfold Client.ok, status_codes in *. rewrite negb_involutive.
  simpl in Hin.
  repeat (destruct Hin as [<- | Hin]; [reflexivity|]). destruct Hin.
Qed.

Lemma received_answer method resp w :
  well_formed resp ->
  Client.received method resp w =
    (match method with
     | HEAD => Thrown "SyntaxError: Unexpected end of JSON input"
     | _ => if is_error_body (Res.body resp)
            then Thrown (Client.failure resp) else Returned (Res.body resp)
     end, w).
Proof.
  intros Hwf. unfold Client.received, Client.parsed, bind.
  destruct method; cbn [throw ret]; try reflexivity;
    rewrite (ok_well_formed resp Hwf), negb_involutive;
    destruct (is_error_body (Res.body resp)); reflexivity.
Qed.

Lemma apiRequest_answer endpoint method body token w :
  Client.well_posed method body = true ->
  exists resp w',
    app (Client.sent endpoint method body token) w = (Returned resp, w') /\
    well_formed resp /\
    Client.apiRequest endpoint method body token w =
      (if is_error_body (Res.body resp)
       then Thrown (Client.failure resp) else Returned (Res.body resp), w').
Proof.
  intros Hposed.
  destruct (app_responds (Client.sent endpoint method body token) w)
    as (resp & w' & Happ & Hwf).
  exists resp, w'. split; [exact Happ|]. split; [exact Hwf|].
  assert (Hcall : Client.apiRequest endpoint method body token w =
                  bind (Client.fetch endpoint method (Client.authorization token) body)
                       (Client.received method) w)
    by (destruct method, body; try discriminate; reflexivity).
  rewrite Hcall. unfold Client.fetch, bind.
  change (Client.wire endpoint method (Client.authorization token) body)
    with (Client.sent endpoint method body token).
  rewrite Happ, (received_answer method resp w' Hwf).
  destruct method, body; try discriminate; reflexivity.
Qed.


(** ** Fetching the vehicles *)

(** X24.  With a token that is not empty, holds no space and is verified
    by the auth service, and with an answered query, [fetchVehicles] stores
    the listing of the server's tables; the only calls made are the
    verification and the query. *)
Theorem fetched_vehicles_are_the_listing :
  forall t s w u w1,
    t <> "" -> Client.spaceless t = true ->
    supabase.getUser t w = (Returned (fulfilled u), w1) ->
    disposition 0 w1 = Healthy ->
    Client.fetchVehicles (Some t) s w =
      (UI.setVehicles (VehiclesBody (listing w)) s,
       record_call (Select Vehicles) (record_call (AuthGetUser t) w)).
Proof.
  intros t s w u w1 Hne Hsp Hget Hh.
  assert (Hauth : authenticated (Client.sent "/vehicles" GET None (Some t)) w u w1).
  { exists t. split; [now apply bearer_of_header|]. split; assumption. }
  pose proof (get_vehicles_healthy (Client.sent "/vehicles" GET None (Some t))
                w u w1 eq_refl eq_refl Hauth Hh) as Happ.
  pose proof (getUser_world t w) as Hw1. rewrite Hget in Hw1. simpl in Hw1.
  unfold Client.fetchVehicles, Client.apiRequest, Client.fetch, bind.
  change (Client.wire "/vehicles" GET (Client.authorization (Some t)) None)
    with (Client.sent "/vehicles" GET None (Some t)).
  rewrite Happ, Hw1. reflexivity.
Qed.

Lemma fetched_vehicles_are_the_listing_witness :
  UI.vehicles (fst (Client.fetchVehicles (Some "tok-alice") UI.initial Scenario.world))
    = VehiclesBody (listing Scenario.world).
Proof.
  rewrite (fetched_vehicles_are_the_listing
             "tok-alice" UI.initial Scenario.world Scenario.alice
             (Scenario.verified "tok-alice"));
    [reflexivity | discriminate | reflexivity | reflexivity | reflexivity].
Defined.

(** ** The markers on the map *)

Lemma place_outcome markers v :
  Client.place markers v = Returned (placed markers v) \/
  (exists e, Client.place markers v = Thrown e) /\
  Client.on_map v = true /\
  existsb (String.eqb (VehicleView.id v)) Client.inherited_names = true.
Proof.
  unfold Client.place, placed, Client.slot.
  destruct (Client.on_map v); [|now left].
  destruct (Client.marker_at (VehicleView.id v) markers); [now left|].
  destruct (existsb _ Client.inherited_names); [|now left].
  right. split; [eexists; reflexivity|]. split; reflexivity.
Qed.

Lemma place_each_plain vehicleList markers :
  Client.showable vehicleList = true ->
  Client.place_each vehicleList markers = (Returned tt, fold_left placed vehicleList markers).
Proof.
  unfold Client.showable.
  revert markers. induction vehicleList as [|v l IH]; intros markers H; [reflexivity|].
  cbn [forallb] in H. apply andb_true_iff in H as [Hv Hl].
  cbn [Client.place_each fold_left].
  destruct (place_outcome markers v) as [-> | ((e & _) & Hon & Hin)].
  - now apply IH.
  - rewrite Hon, Hin in Hv. cbn in Hv. discriminate.
Qed.








(** X30.  A vehicle that goes on the map under an id naming something every
    object inherits, such as 'constructor' or 'toString', and has no marker
    of its own yet, ends the update with a TypeError: the markers stay as
    they were before that vehicle, and the vehicles after it in the list
    are not placed. *)
Theorem inherited_id_stops_the_update :
  forall before v rest markers,
    Client.showable before = true ->
    Client.on_map v = true ->
    In (VehicleView.id v) Client.inherited_names ->
    Client.marker_at (VehicleView.id v) (Client.updateMapMarkers before markers) = None ->
    (exists e,
       Client.updateMapMarkers_ends (before ++ v :: rest) markers = Thrown e) /\
    Client.updateMapMarkers (before ++ v :: rest) markers =
      Client.updateMapMarkers before markers.
Proof.
  intros before v rest markers Hplain Hon Hin Hnone.
  unfold Client.updateMapMarkers_ends, Client.updateMapMarkers in *.
  rewrite (place_each_plain before markers Hplain) in Hnone. cbn [snd] in Hnone.
  rewrite (place_each_plain before markers Hplain). cbn [snd].
  assert (Hstep : forall l m,
             Client.showable l = true ->
             Client.place_each (l ++ v :: rest) m =
               Client.place_each (v :: rest) (fold_left placed l m)).
  { induction l as [|x l IH]; intros m Hl; [reflexivity|].
    unfold Client.showable in Hl. cbn [forallb] in Hl.
    apply andb_true_iff in Hl as [Hx Hl].
    cbn [List.app Client.place_each fold_left].
    destruct (place_outcome m x) as [-> | ((e & _) & Hxon & Hxin)].
    - now apply IH.
    - rewrite Hxon, Hxin in Hx. cbn in Hx. discriminate. }
  rewrite (Hstep before markers Hplain). cbn [Client.place_each].
  assert (Hthrow : exists e, Client.place (fold_left placed before markers) v = Thrown e).
  { unfold Client.place, Client.slot. rewrite Hon, Hnone.
    assert (Hex : existsb (String.eqb (VehicleView.id v)) Client.inherited_names = true).
    { apply existsb_exists. exists (VehicleView.id v). split; [exact Hin|].
      apply String.eqb_refl. }
    rewrite Hex. eexists. reflexivity. }
  destruct Hthrow as [e ->]. cbn [fst snd]. split; [now exists e|reflexivity].
Qed.

Lemma inherited_id_stops_the_update_witness :
  let odd := {| VehicleView.id := "constructor"; VehicleView.number := JStr "BUS-9";
                VehicleView.route := "Ring"; VehicleView.status := "active";
                VehicleView.capacity := JNum 40; VehicleView.type := JStr "bus";
                VehicleView.lat := JNum 1; VehicleView.lng := JNum 2;
                VehicleView.lastUpdated := None; VehicleView.nextStop := JNull;
                VehicleView.eta := JNull |} in
  Client.updateMapMarkers (odd :: listing Scenario.world) [] = [].
Proof.
  intros odd.
  exact (proj2 (inherited_id_stops_the_update [] odd (listing Scenario.world) []
                  eq_refl eq_refl ltac:(left; reflexivity) eq_refl)).
Defined.

Lemma no_marker_no_key id markers :
  Client.marker_at id markers = None -> ~ In id (map fst markers).
Proof.
  unfold Client.marker_at.
  induction markers as [|[k x] markers IH]; cbn [find map fst]; [tauto|].
  destruct (String.eqb_spec k id) as [->|Hk]; [discriminate|].
  intros H [Heq|Hin]; [contradiction|]. now apply IH.
Qed.

Lemma keys_placed markers v :
  map fst (placed markers v) = map fst markers \/
  (map fst (placed markers v) = (map fst markers ++ [VehicleView.id v])%list /\
   Client.on_map v = true /\
   ~ In (VehicleView.id v) (map fst markers)).
Proof.
  unfold placed. destruct (Client.on_map v); [|now left].
  destruct (Client.marker_at (VehicleView.id v) markers) eqn:E.
  - left. rewrite map_map. apply map_ext. intros [k x]. cbn [fst].
    now destruct (k =? VehicleView.id v).
  - right. rewrite map_app. repeat split. now apply no_marker_no_key.
Qed.

(** X26.  When no two markers share a key, [updateMapMarkers] keeps it so,
    whatever the list and however often it is refreshed: a vehicle has at
    most one marker.  The keys there before stay, in their order, and every
    key that is new is the id of a vehicle of the list that is on the map. *)
Theorem one_marker_per_vehicle :
  forall vehicleList markers,
    NoDup (map fst markers) ->
    exists added,
      map fst (Client.updateMapMarkers vehicleList markers)
        = (map fst markers ++ added)%list /\
      NoDup (map fst (Client.updateMapMarkers vehicleList markers)) /\
      forall id, In id added ->
        exists v, In v vehicleList /\ Client.on_map v = true /\ VehicleView.id v = id.
Proof.
  unfold Client.updateMapMarkers.
  induction vehicleList as [|v l IH]; intros markers Hnd.
  - exists []. cbn [Client.place_each snd]. rewrite app_nil_r.
    split; [reflexivity|]. split; [assumption|intros ? []].
  - cbn [Client.place_each].
    destruct (place_outcome markers v) as [-> | ((e & ->) & _ & _)].
    + destruct (keys_placed markers v) as [Hsame | (Hnew & Hon & Hfresh)].
      * destruct (IH (placed markers v)) as (added & Hkeys & Hnd' & Hadded).
        { now rewrite Hsame. }
        exists added.
        split; [now rewrite Hkeys, Hsame|]. split; [exact Hnd'|].
        intros id Hin. destruct (Hadded id Hin) as (v' & ? & ? & ?).
        exists v'. split; [now right|]. split; assumption.
      * destruct (IH (placed markers v)) as (added & Hkeys & Hnd' & Hadded).
        { rewrite Hnew. apply NoDup_app; repeat split;
            [assumption | repeat constructor; intros [] | ].
          intros x Hx [<-|[]]. contradiction. }
        exists (VehicleView.id v :: added).
        split; [now rewrite Hkeys, Hnew, <- app_assoc|]. split; [exact Hnd'|].
        intros id [<-|Hin].
        -- exists v. split; [now left|]. split; [assumption|reflexivity].
        -- destruct (Hadded id Hin) as (v' & ? & ? & ?).
           exists v'. split; [now right|]. split; assumption.
    + exists []. cbn [snd]. rewrite app_nil_r.
      split; [reflexivity|]. split; [assumption|intros ? []].
Qed.

Lemma one_marker_per_vehicle_witness :
  exists added,
    map fst (Client.updateMapMarkers (listing Scenario.world) [])
      = ([] ++ added)%list /\
    NoDup (map fst (Client.updateMapMarkers (listing Scenario.world) [])) /\
    forall id, In id added ->
      exists v, In v (listing Scenario.world) /\ Client.on_map v = true /\
                VehicleView.id v = id.
Proof.
  apply (one_marker_per_vehicle (listing Scenario.world) []). constructor.
Defined.

(** ** Logging in and signing up from the forms *)

Ltac login_document_now :=
  unfold post, internal_error, send, json, ret, login_document; cbn;
  eexists; split; [reflexivity|];
  first [left; reflexivity | right; do 2 eexists; reflexivity].

Lemma login_documents req w : post (post_auth_login req) w login_document.
Proof.
  unfold post_auth_login. apply post_try_catch.
  repeat (cbv zeta; cbn beta;
          match goal with
          | |- post (bind _ _) _ _ =>
              apply post_bind_any; [intros ? ? | intros ? ?; login_document_now]
          | |- post (send _ _) _ _ => apply post_ret; login_document_now
          | |- post (json _) _ _ => apply post_ret; login_document_now
          | |- post (throw _) _ _ => apply post_throw; login_document_now
          | |- post (match ?x with _ => _ end) _ _ => destruct x
          | |- post (if ?b then _ else _) _ _ => destruct b
          end).
Qed.

(** X27.  [handleLogin] against the server always ends with the loading
    flag off, and in one of two ways.  Either the server answered with a
    session document: the identity and the access token of that document are
    then the current user and the token, both are stored, and no error is
    shown.  Or the server answered with an error document: its message, never
    empty, is shown, and user, token and storage are as before.  The server
    sends nothing else to a login, so reading the access token never fails. *)
Theorem login_settles :
  forall email password s w,
    let request :=
      Client.sent "/auth/login" POST
        (Some [("email", JStr email); ("password", JStr password)]) None in
    let s' := fst (Client.handleLogin email password s w) in
    snd (Client.handleLogin email password s w) = snd (app request w) /\
    UI.loading s' = false /\
    exists resp,
      fst (app request w) = Returned resp /\
      ((exists user access_token,
          Res.body resp = SessionBody user access_token /\
          UI.currentUser s' = Some user /\ UI.token s' = Some access_token /\
          UI.authToken s' = Some access_token /\ UI.savedUser s' = Some user /\
          UI.error s' = "")
       \/
       (is_error_body (Res.body resp) = true /\
        UI.error s' = Client.failure resp /\ UI.error s' <> "" /\
        UI.currentUser s' = UI.currentUser s /\ UI.token s' = UI.token s /\
        UI.authToken s' = UI.authToken s /\ UI.savedUser s' = UI.savedUser s)).
Proof.
  intros email password s w request s'. subst s'.
  destruct (apiRequest_answer "/auth/login" POST
              (Some [("email", JStr email); ("password", JStr password)]) None w eq_refl)
    as (resp & w' & Happ & _ & Hcall).
  fold request in Happ.
  pose proof (login_documents (Req.with_params [] request) w) as Hdoc.
  rewrite <- (route_post_login request eq_refl eq_refl) in Hdoc.
  unfold post in Hdoc. rewrite Happ in Hdoc.
  destruct Hdoc as (resp' & [= <-] & Hshape).
  unfold Client.handleLogin. rewrite Hcall, Happ. cbn [fst snd].
  split; [reflexivity|]. split; [reflexivity|].
  exists resp. split; [reflexivity|].
  destruct Hshape as [Herr | (user & access_token & Hbody)].
  - right. rewrite Herr. cbn. repeat split; try assumption.
    apply failure_not_empty.
  - left. exists user, access_token. rewrite Hbody. cbn. repeat split.
Qed.

Lemma signup_row req w :
  post (post_auth_signup req) w
       (fun _ w1 =>
          db w1 = db w \/
          exists u at_, db w1 = db (with_profile (signed_up req u at_) w)).
Proof.
  unfold post_auth_signup. run; tidy; auto.
  all: match goal with
       | H : _ \/ _ |- _ => destruct H as [-> | ->]
       end;
    [ left; cbn; assumption
    | right; do 2 eexists; unfold signed_up; cbn;
      match goal with H : db _ = db _ |- _ => rewrite H end; reflexivity ].
Qed.

(** X28.  [handleSignup] always ends with the loading flag off.  When the
    two passwords differ it shows so and nothing is sent: the world of the
    server is untouched.  When they are equal the tables are left as they
    were or get one profile row, which has the role 'traveller' and the
    email, name and phone typed into the form: no staff profile comes out of
    this form. *)
Theorem client_signup_creates_travellers_only :
  forall name email phone password confirmPassword s w,
    let s' := fst (Client.handleSignup name email phone password confirmPassword s w) in
    let w' := snd (Client.handleSignup name email phone password confirmPassword s w) in
    UI.loading s' = false /\
    if password =? confirmPassword then
      db w' = db w \/
      exists row,
        Profile.role row = "traveller" /\ Profile.email row = JStr email /\
        Profile.name row = JStr name /\ Profile.phone row = JStr phone /\
        db w' = db (with_profile row w)
    else
      w' = w /\ UI.error s' = "Passwords do not match." /\ UI.success s' = "".
Proof.
  intros name email phone password confirmPassword s w s' w'. subst s' w'.
  unfold Client.handleSignup.
  destruct (password =? confirmPassword); cbn [negb].
  - set (fields := [("name", JStr name); ("email", JStr email); ("phone", JStr phone);
                    ("password", JStr password); ("role", JStr "traveller")]).
    destruct (apiRequest_answer "/auth/signup" POST (Some fields) None w eq_refl)
      as (resp & w1 & Happ & _ & Hcall).
    rewrite Hcall. cbn [fst snd].
    split; [now destruct (is_error_body (Res.body resp))|].
    pose proof (signup_row
                  (Req.with_params [] (Client.sent "/auth/signup" POST (Some fields) None))
                  w) as Hrow.
    rewrite <- (route_post_signup
                  (Client.sent "/auth/signup" POST (Some fields) None)
                  eq_refl eq_refl) in Hrow.
    unfold post in Hrow. rewrite Happ in Hrow. cbn [snd] in Hrow.
    destruct Hrow as [Hsame | (u & at_ & Hdb)]; [now left|].
    right. exists (signed_up
                     (Req.with_params [] (Client.sent "/auth/signup" POST (Some fields) None))
                     u at_).
    repeat split; assumption.
  - cbn [fst snd]. repeat split.
Qed.

(** ** The scheme of the Authorization header *)

Lemma split_at_space scheme t :
  Client.spaceless scheme = true -> Client.spaceless t = true ->
  split " " (scheme ++ " " ++ t) = [scheme; t].
Proof.
  unfold Client.spaceless. intros Hs Ht.
  induction scheme as [|c scheme IH].
  - cbn [append split Ascii.eqb Bool.eqb]. now rewrite (split_spaceless t Ht).
  - cbn [all_chars] in Hs. apply andb_true_iff in Hs as [Hc Hs].
    apply negb_true_iff in Hc.
    change (String c scheme ++ " " ++ t) with (String c (scheme ++ " " ++ t)).
    cbn [split]. rewrite Hc, (IH Hs). reflexivity.
Qed.

(** X29.  The middleware does not look at the scheme of the Authorization
    header: whatever word, even none, stands before the first space, the
    token is what stands after it. *)
Theorem middleware_ignores_the_scheme :
  forall scheme t,
    Client.spaceless scheme = true -> Client.spaceless t = true ->
    bearer_token (Some (scheme ++ " " ++ t)) = Some t.
Proof.
  intros scheme t Hs Ht. unfold bearer_token.
  rewrite (split_at_space scheme t Hs Ht).
  destruct scheme; reflexivity.
Qed.

Lemma middleware_ignores_the_scheme_witness :
  bearer_token (Some ("Basic" ++ " " ++ "tok-alice")) = Some "tok-alice".
Proof.
  apply (middleware_ignores_the_scheme "Basic" "tok-alice"); reflexivity.
Defined.
